(** * client_project.py: the client / project REST API

    A shallow embedding of [src/client_project.py]: the two models
    ([Client], [Project]) with Django's [User], the six serializers, the
    four views and the URL table, followed by the properties of the
    endpoints.

    The file is a Django REST Framework program: most of what an endpoint
    does is inherited ([ModelSerializer], the generic views and their
    mixins, [APIView.dispatch]).  The inherited methods are written out
    here under the names they have in the framework, and every definition
    that transcribes a class or a method of the source file says so.

    The model starts from the running application.  The source file
    imports [rest_framework] (line 107) before it applies [SETTINGS]
    (lines 186-187), and the framework reads its defaults into the
    class attributes of [APIView] when it is imported: the views are
    bound to the framework's own authentication classes, not to the
    [REST_FRAMEWORK] entry of [SETTINGS].  Every view of the file names
    its permissions itself.  The bootstrap at the end of the source
    file, the admin site and the token endpoint belong to the framework.

    Conventions.
    - A Python [dict] is an association list read through [dict_get]; the
      order of the bindings is the insertion order of the dict.
    - A [str] is a [string]; a character stands for a code point below 256.
    - JSON numbers are integers; instants are integers too (the ISO-8601
      text of a [DateTimeField] is not modelled).
    - The database is a record of four tables (lists of rows in
      insertion order) and the two auto-increment counters.  The server
      runs in autocommit mode ([ATOMIC_REQUESTS] is not set in
      [SETTINGS]), so what a view has written stays written when a later
      step of the same request raises.
    - One request sees one instant of the server clock, [now].
    - Error bodies carry the error code of the framework's message. *)

From Stdlib Require Import ZArith List String Ascii Bool Lia DecimalString Permutation.
Import ListNotations.
Local Open Scope string_scope.
Local Open Scope list_scope.
Local Open Scope Z_scope.

(** ** Python values *)

#[local] Set Warnings "-register-all".

Inductive json : Type :=
| JNull
| JBool (b : bool)
| JInt (n : Z)
| JStr (s : string)
| JList (l : list json)
| JObj (kvs : list (string * json)).

Definition dict := list (string * json).

Fixpoint dict_get {A : Type} (k : string) (d : list (string * A)) : option A :=
  match d with
  | [] => None
  | (k', v) :: d' => if String.eqb k k' then Some v else dict_get k d'
  end.

(** [d[k] = v]: an existing key keeps its place, a new key goes last. *)
Fixpoint dict_set {A : Type} (k : string) (v : A) (d : list (string * A))
  : list (string * A) :=
  match d with
  | [] => [(k, v)]
  | (k', v') :: d' =>
      if String.eqb k k' then (k', v) :: d' else (k', v') :: dict_set k v d'
  end.

Definition dict_keys {A : Type} (d : list (string * A)) : list string :=
  map fst d.

(** [iter(d)]: the keys, each once, in the order of their first binding. *)
Definition dict_iter {A : Type} (d : list (string * A)) : list string :=
  rev (nodup string_dec (rev (dict_keys d))).

(** [str.isspace] on the code points below 256. *)
Definition isspace (c : ascii) : bool :=
  let n := Z.of_N (N_of_ascii c) in
  ((9 <=? n) && (n <=? 13)) || ((28 <=? n) && (n <=? 32))
  || (n =? 133) || (n =? 160).

Fixpoint lstrip (s : string) : string :=
  match s with
  | EmptyString => EmptyString
  | String c r => if isspace c then lstrip r else s
  end.

Fixpoint rstrip (s : string) : string :=
  match s with
  | EmptyString => EmptyString
  | String c r =>
      match rstrip r with
      | EmptyString => if isspace c then EmptyString else String c EmptyString
      | r' => String c r'
      end
  end.

(** [str.strip()] *)
Definition strip (s : string) : string := rstrip (lstrip s).

(** [str(n)] for an [int]. *)
Definition str_of_int (n : Z) : string := NilZero.string_of_int (Z.to_int n).

Definition digit_of (c : ascii) : option Z :=
  let n := Z.of_N (N_of_ascii c) in
  if (48 <=? n) && (n <=? 57) then Some (n - 48) else None.

(** The digits of a decimal literal; single underscores may separate
    digits. *)
Fixpoint parse_digits (acc : Z) (after_digit : bool) (s : string) : option Z :=
  match s with
  | EmptyString => if after_digit then Some acc else None
  | String c r =>
      if Ascii.eqb c "_"%char
      then (if after_digit then parse_digits acc false r else None)
      else match digit_of c with
           | Some d => parse_digits (10 * acc + d) true r
           | None => None
           end
  end.

(** [int(s)] for a [str]: [None] is [ValueError].  (The cap that recent
    interpreters put on the number of digits is left out.) *)
Definition int_of_str (s : string) : option Z :=
  match strip s with
  | String "-"%char r => option_map Z.opp (parse_digits 0 false r)
  | String "+"%char r => parse_digits 0 false r
  | r => parse_digits 0 false r
  end.

(** [str(data)] as far as [CharField] looks at it: whether it is blank
    after stripping.  Only a [str] can be. *)
Definition str_is_blank (data : json) : bool :=
  match data with
  | JStr s => match strip s with EmptyString => true | _ => false end
  | _ => false
  end.

(** ** Models *)

(** [django.contrib.auth.models.User], as far as the program reads it. *)
Module User.
Record t : Type := mk { id : Z; username : string }.
(** [User.__str__] returns the username. *)
Definition str (u : t) : string := username u.
End User.

(** [class Client(models.Model)] *)
Module Client.
Record t : Type := mk {
  id : Z;
  client_name : string;
  created_at : Z;
  created_by : option Z;
  updated_at : Z
}.
(** [Client.__str__] *)
Definition str (c : t) : string := client_name c.
End Client.

(** [class Project(models.Model)]; the [users] relation is the junction
    table [project_users]. *)
Module Project.
Record t : Type := mk {
  id : Z;
  project_name : string;
  client : Z;
  created_at : Z;
  created_by : option Z
}.
(** [Project.__str__] *)
Definition str (p : t) : string := project_name p.
End Project.

(** The four tables of the README's database design, each in row order,
    and the next keys of the two auto-increment columns. *)
Record DB : Type := mkDB {
  auth_user : list User.t;
  client_table : list Client.t;
  project_table : list Project.t;
  project_users : list (Z * Z);   (* (project_id, user_id) *)
  client_autoinc : Z;
  project_autoinc : Z
}.

(** ** Exceptions and the two monads *)

Inductive exn : Type :=
| ValidationError (errors : list (string * string))
| Http404
| NotAuthenticated
| AuthenticationFailed
| PermissionDenied
| MethodNotAllowed
| DoesNotExist (model : string)
| MultipleObjectsReturned (model : string)
| KeyError (key : string)
| ValueError
| TypeError
| AttributeError.

Class Monad (m : Type -> Type) : Type := {
  ret : forall {A}, A -> m A;
  bind : forall {A B}, m A -> (A -> m B) -> m B
}.

Notation "x <- c ;; k" := (bind c (fun x => k))
  (at level 61, c at next level, right associativity).
Notation "c ;;; k" := (bind c (fun _ => k))
  (at level 61, right associativity).

(** Code that only reads the database and may raise. *)
Definition Q (A : Type) : Type := DB -> exn + A.

(** Code that reads and writes the database and may raise; the writes made
    before the exception stay. *)
Definition M (A : Type) : Type := DB -> (exn + A) * DB.

#[export] Instance Monad_Q : Monad Q := {
  ret := fun A a _ => inr a;
  bind := fun A B c k db =>
    match c db with
    | inl e => inl e
    | inr a => k a db
    end
}.

#[export] Instance Monad_M : Monad M := {
  ret := fun A a db => (inr a, db);
  bind := fun A B c k db =>
    match c db with
    | (inl e, db') => (inl e, db')
    | (inr a, db') => k a db'
    end
}.

Definition raiseQ {A : Type} (e : exn) : Q A := fun _ => inl e.
Definition raise {A : Type} (e : exn) : M A := fun db => (inl e, db).
Definition liftQ {A : Type} (c : Q A) : M A := fun db => (c db, db).
Definition ask : Q DB := fun db => inr db.

Fixpoint mapQ {A B : Type} (f : A -> Q B) (l : list A) : Q (list B) :=
  match l with
  | [] => ret []
  | a :: l' => b <- f a ;; bs <- mapQ f l' ;; ret (b :: bs)
  end.

(** ** The object-relational layer *)

Definition set_client_table (rows : list Client.t) (db : DB) : DB :=
  mkDB (auth_user db) rows (project_table db) (project_users db)
       (client_autoinc db) (project_autoinc db).

Definition set_project_table (rows : list Project.t) (db : DB) : DB :=
  mkDB (auth_user db) (client_table db) rows (project_users db)
       (client_autoinc db) (project_autoinc db).

Definition set_project_users (rows : list (Z * Z)) (db : DB) : DB :=
  mkDB (auth_user db) (client_table db) (project_table db) rows
       (client_autoinc db) (project_autoinc db).

Definition set_client_autoinc (n : Z) (db : DB) : DB :=
  mkDB (auth_user db) (client_table db) (project_table db) (project_users db)
       n (project_autoinc db).

Definition set_project_autoinc (n : Z) (db : DB) : DB :=
  mkDB (auth_user db) (client_table db) (project_table db) (project_users db)
       (client_autoinc db) n.

(** [QuerySet.get] on the rows its filter kept. *)
Definition get_one {A : Type} (model : string) (rows : list A) : exn + A :=
  match rows with
  | [] => inl (DoesNotExist model)
  | [r] => inr r
  | _ :: _ :: _ => inl (MultipleObjectsReturned model)
  end.

(** [User.objects.get(pk=pk)] *)
Definition User_objects_get (pk : Z) : Q User.t := fun db =>
  get_one "User" (filter (fun u => User.id u =? pk) (auth_user db)).

(** [Client.objects.get(pk=pk)] *)
Definition Client_objects_get (pk : Z) : Q Client.t := fun db =>
  get_one "Client" (filter (fun c => Client.id c =? pk) (client_table db)).

(** [Project.objects.get(pk=pk)] *)
Definition Project_objects_get (pk : Z) : Q Project.t := fun db =>
  get_one "Project" (filter (fun p => Project.id p =? pk) (project_table db)).

(** [Client.objects.all()] *)
Definition Client_objects_all : Q (list Client.t) := fun db =>
  inr (client_table db).

(** [project.client]: the forward side of the required foreign key. *)
Definition Project_client (p : Project.t) : Q Client.t :=
  Client_objects_get (Project.client p).

(** [instance.created_by]: the forward side of a nullable foreign key,
    [None] when the column is null. *)
Definition created_by_user (fk : option Z) : Q (option User.t) :=
  match fk with
  | None => ret None
  | Some pk => u <- User_objects_get pk ;; ret (Some u)
  end.

(** The rows of the reverse relation [client.projects]
    ([related_name='projects']). *)
Definition Client_projects (db : DB) (c : Client.t) : list Project.t :=
  filter (fun p => Project.client p =? Client.id c) (project_table db).

(** The junction rows that link project [p] and user [u]. *)
Definition links (db : DB) (p : Project.t) (u : User.t) : list (Z * Z) :=
  filter (fun r => (fst r =? Project.id p) && (snd r =? User.id u))
         (project_users db).

(** The rows of [project.users]: [auth_user] joined with the junction
    table. *)
Definition Project_users (db : DB) (p : Project.t) : list User.t :=
  flat_map (fun u => map (fun _ => u) (links db p u)) (auth_user db).

(** The rows of [user.assigned_projects]
    ([related_name='assigned_projects']): [project] joined with the
    junction table. *)
Definition User_assigned_projects (db : DB) (u : User.t) : list Project.t :=
  flat_map (fun p => map (fun _ => p) (links db p u)) (project_table db).

(** [client.projects.all()] *)
Definition Client_projects_all (c : Client.t) : Q (list Project.t) := fun db =>
  inr (Client_projects db c).

(** [project.users.all()] *)
Definition Project_users_all (p : Project.t) : Q (list User.t) := fun db =>
  inr (Project_users db p).

(** [user.assigned_projects.all()] *)
Definition User_assigned_projects_all (u : User.t) : Q (list Project.t) :=
  fun db => inr (User_assigned_projects db u).

(** [Client.objects.create(client_name=..., created_by=...)]: one INSERT;
    [auto_now_add] and [auto_now] read the clock. *)
Definition Client_objects_create (now : Z) (client_name : string)
    (created_by : option Z) : M Client.t := fun db =>
  let c := Client.mk (client_autoinc db) client_name now created_by now in
  (inr c,
   set_client_autoinc (client_autoinc db + 1)
     (set_client_table (client_table db ++ [c]) db)).

(** [Project.objects.create(project_name=..., client=..., created_by=...)] *)
Definition Project_objects_create (now : Z) (project_name : string)
    (client : Client.t) (created_by : option Z) : M Project.t := fun db =>
  let p := Project.mk (project_autoinc db) project_name (Client.id client)
                      now created_by in
  (inr p,
   set_project_autoinc (project_autoinc db + 1)
     (set_project_table (project_table db ++ [p]) db)).

(** [client.save()] for a row read from the table: UPDATE by primary key
    with [updated_at] taken from the clock ([auto_now]); INSERT when the
    UPDATE matched no row. *)
Definition Client_save (now : Z) (c : Client.t) : M Client.t := fun db =>
  let c' := Client.mk (Client.id c) (Client.client_name c) (Client.created_at c)
                      (Client.created_by c) now in
  let hit := fun r => Client.id r =? Client.id c in
  (inr c',
   if existsb hit (client_table db)
   then set_client_table
          (map (fun r => if hit r then c' else r) (client_table db)) db
   else set_client_table (client_table db ++ [c']) db).

(** [client.delete()]: the collector deletes the row, the projects that
    reference it ([on_delete=models.CASCADE]) and the junction rows of
    those projects. *)
Definition Client_delete (c : Client.t) : M unit := fun db =>
  let doomed := fun p => Project.client p =? Client.id c in
  let doomed_ids := map Project.id (filter doomed (project_table db)) in
  (inr tt,
   set_client_table
     (filter (fun r => negb (Client.id r =? Client.id c)) (client_table db))
     (set_project_table
        (filter (fun p => negb (doomed p)) (project_table db))
        (set_project_users
           (filter (fun r => negb (existsb (Z.eqb (fst r)) doomed_ids))
                   (project_users db))
           db))).

(** The keys of the Python [set] built from [l], in the order the set is
    iterated: every key once.  Django collects the keys to insert in a
    [set] and writes one row per key as it iterates the set; Python
    leaves that order open.  The model takes the ascending order, which
    is the one CPython gives for keys smaller than the table of the set
    (8 slots or more); the order of the body is lost either way. *)
Fixpoint insert_key (x : Z) (l : list Z) : list Z :=
  match l with
  | [] => [x]
  | y :: l' => if x <=? y then x :: l else y :: insert_key x l'
  end.

Definition key_set (l : list Z) : list Z :=
  fold_right insert_key [] (nodup Z.eq_dec l).

(** [project.users.set(objs)]: junction rows to users outside [objs] are
    removed, and one row is added for each user of [objs] that has none,
    in the order of [key_set].  No answer of the API depends on the order
    of the junction rows of one project, and the properties that hold
    for every request leave the order of the added rows open. *)
Definition Project_users_set (p : Project.t) (objs : list User.t) : M unit :=
  fun db =>
  let ids := key_set (map User.id objs) in
  let mine := fun r => fst r =? Project.id p in
  let kept :=
    filter (fun r => negb (mine r) || existsb (Z.eqb (snd r)) ids)
           (project_users db) in
  let old_ids := map snd (filter mine kept) in
  let added :=
    map (fun u => (Project.id p, u))
        (filter (fun u => negb (existsb (Z.eqb u) old_ids)) ids) in
  (inr tt, set_project_users (kept ++ added) db).

(** ** Serializer fields *)

Inductive validation (A : Type) : Type :=
| Skip
| Valid (a : A)
| Invalid (code : string).
Arguments Skip {A}.
Arguments Valid {A} a.
Arguments Invalid {A} code.

(** The validators of a [CharField(max_length=n)]: [MaxLengthValidator],
    then [ProhibitNullCharactersValidator]. *)
Definition CharField_run_validators (max_length : nat) (value : string)
  : validation string :=
  if Nat.ltb max_length (String.length value) then Invalid "max_length"
  else if existsb (Ascii.eqb zero) (list_ascii_of_string value)
       then Invalid "null_characters_not_allowed"
       else Valid value.

(** [CharField.run_validation] for the field [ModelSerializer] builds from
    [models.CharField(max_length=n)]: required, [allow_blank=False],
    [allow_null=False], [trim_whitespace=True].  [data] is [None] when the
    key is missing from the request. *)
Definition CharField_run_validation (max_length : nat) (partial : bool)
    (data : option json) : validation string :=
  match data with
  | None => if partial then Skip else Invalid "required"
  | Some d =>
      if str_is_blank d then Invalid "blank"
      else match d with
           | JNull => Invalid "null"
           | JBool _ | JList _ | JObj _ => Invalid "invalid"
           | JInt n => CharField_run_validators max_length (str_of_int n)
           | JStr s => CharField_run_validators max_length (strip s)
           end
  end.

(** [queryset.get(pk=n)] inside [PrimaryKeyRelatedField.to_internal_value]:
    [ObjectDoesNotExist] becomes the error [does_not_exist]; any other
    exception of the query propagates. *)
Definition pk_lookup (n : Z) : Q (validation User.t) := fun db =>
  match User_objects_get n db with
  | inr u => inr (Valid u)
  | inl (DoesNotExist _) => inr (Invalid "does_not_exist")
  | inl e => inl e
  end.

(** [PrimaryKeyRelatedField(queryset=User.objects.all()).to_internal_value]
    on one item of the list: a boolean is refused, anything else goes
    to [queryset.get(pk=item)].  No user has the key [None]; a value
    that is no integer (the empty string too) makes the query raise
    [TypeError] or [ValueError], which is the error [incorrect_type]. *)
Definition PrimaryKeyRelatedField_to_internal_value (item : json)
  : Q (validation User.t) :=
  match item with
  | JNull => ret (Invalid "does_not_exist")
  | JBool _ | JList _ | JObj _ => ret (Invalid "incorrect_type")
  | JInt n => pk_lookup n
  | JStr s =>
      match int_of_str s with
      | Some n => pk_lookup n
      | None => ret (Invalid "incorrect_type")
      end
  end.

(** The list comprehension of [ManyRelatedField.to_internal_value]: the
    first item that fails ends it. *)
Fixpoint run_child_relation (items : list json) : Q (validation (list User.t)) :=
  match items with
  | [] => ret (Valid [])
  | item :: rest =>
      r <- PrimaryKeyRelatedField_to_internal_value item ;;
      match r with
      | Valid u =>
          rs <- run_child_relation rest ;;
          match rs with
          | Valid us => ret (Valid (u :: us))
          | Invalid code => ret (Invalid code)
          | Skip => ret Skip
          end
      | Invalid code => ret (Invalid code)
      | Skip => ret Skip
      end
  end.

(** [ManyRelatedField.run_validation] for
    [PrimaryKeyRelatedField(queryset=User.objects.all(), many=True)]:
    required, [allow_empty=True].  Iterating a dict yields its keys. *)
Definition ManyRelatedField_run_validation (partial : bool)
    (data : option json) : Q (validation (list User.t)) :=
  match data with
  | None => ret (if partial then Skip else Invalid "required")
  | Some JNull => ret (Invalid "null")
  | Some (JList items) => run_child_relation items
  | Some (JObj kvs) =>
      run_child_relation (map JStr (dict_iter kvs))
  | Some (JStr _) | Some (JInt _) | Some (JBool _) =>
      ret (Invalid "not_a_list")
  end.

(** The entry a field leaves in the [errors] dict of
    [Serializer.to_internal_value]. *)
Definition field_errors {A : Type} (name : string) (r : validation A)
  : list (string * string) :=
  match r with
  | Invalid code => [(name, code)]
  | _ => []
  end.

Definition validated {A : Type} (r : validation A) : option A :=
  match r with
  | Valid a => Some a
  | _ => None
  end.

(** ** Serializers *)

(** [Serializer.to_representation]: one binding per name of
    [Meta.fields], in that order, each computed by the field declared
    under that name. *)
Definition Serializer_to_representation {I : Type} (fields : list string)
    (field : string -> I -> Q json) (instance : I) : Q dict :=
  mapQ (fun name => v <- field name instance ;; ret (name, v)) fields.

(** The rendering of a nullable primary key. *)
Definition json_of_pk (fk : option Z) : json :=
  match fk with
  | Some pk => JInt pk
  | None => JNull
  end.

(** [class UserSerializer(serializers.ModelSerializer)] *)
Module UserSerializer.
Definition fields : list string := ["id"; "username"].

Definition field (name : string) (u : User.t) : Q json :=
  if (name =? "id")%string then ret (JInt (User.id u))
  else if (name =? "username")%string then ret (JStr (User.username u))
  else raiseQ (KeyError name).

Definition to_representation : User.t -> Q dict :=
  Serializer_to_representation fields field.
End UserSerializer.

(** [class ProjectSerializer(serializers.ModelSerializer)] *)
Module ProjectSerializer.
Definition fields : list string :=
  ["id"; "project_name"; "client"; "users"; "created_at"; "created_by"].

(** [users = UserSerializer(many=True, read_only=True)],
    [client = serializers.StringRelatedField(read_only=True)]; the other
    names are the model's columns, [created_by] rendered as its key. *)
Definition field (name : string) (instance : Project.t) : Q json :=
  if (name =? "id")%string then ret (JInt (Project.id instance))
  else if (name =? "project_name")%string then ret (JStr (Project.project_name instance))
  else if (name =? "client")%string then
    c <- Project_client instance ;; ret (JStr (Client.str c))
  else if (name =? "users")%string then
    us <- Project_users_all instance ;;
    reps <- mapQ UserSerializer.to_representation us ;;
    ret (JList (map JObj reps))
  else if (name =? "created_at")%string then ret (JInt (Project.created_at instance))
  else if (name =? "created_by")%string then ret (json_of_pk (Project.created_by instance))
  else raiseQ (KeyError name).

(** [def to_representation(self, instance)] *)
Definition to_representation (instance : Project.t) : Q dict :=
  rep <- Serializer_to_representation fields field instance ;;
  created_by <- created_by_user (Project.created_by instance) ;;
  ret (dict_set "created_by"
         (match created_by with
          | Some u => JStr (User.username u)
          | None => JNull
          end) rep).
End ProjectSerializer.

(** [class ProjectCreateSerializer(serializers.ModelSerializer)] *)
Module ProjectCreateSerializer.
Definition fields : list string := ["project_name"; "users"].

Record validated_data : Type := mk {
  project_name : option string;
  users : option (list User.t)
}.

(** [users = serializers.PrimaryKeyRelatedField(queryset=User.objects.all(),
    many=True)] *)
Definition to_internal_value (partial : bool) (data : dict)
  : Q (list (string * string) + validated_data) :=
  let name := CharField_run_validation 255 partial (dict_get "project_name" data) in
  us <- ManyRelatedField_run_validation partial (dict_get "users" data) ;;
  match field_errors "project_name" name ++ field_errors "users" us with
  | [] => ret (inr (mk (validated name) (validated us)))
  | errors => ret (inl errors)
  end.

Definition field (name : string) (instance : Project.t) : Q json :=
  if (name =? "project_name")%string then ret (JStr (Project.project_name instance))
  else if (name =? "users")%string then
    us <- Project_users_all instance ;;
    ret (JList (map (fun u => JInt (User.id u)) us))
  else raiseQ (KeyError name).

Definition to_representation : Project.t -> Q dict :=
  Serializer_to_representation fields field.

(** [serializer.save(client=client, created_by=user)] with no instance:
    [ModelSerializer.create] sets the many-to-many relation aside,
    inserts the row and then sets the relation.  A column without a
    validated value takes the model default. *)
Definition save (now : Z) (v : validated_data) (client : Client.t)
    (created_by : User.t) : M Project.t :=
  instance <- Project_objects_create now
                (match project_name v with Some s => s | None => "" end)
                client (Some (User.id created_by)) ;;
  match users v with
  | Some value => Project_users_set instance value ;;; ret instance
  | None => ret instance
  end.
End ProjectCreateSerializer.

(** The writable part shared by the three serializers of [Client]:
    [client_name] is the only name of their [Meta.fields] that is not
    read-only ([id] is the key, [created_at] and [updated_at] are
    [auto_now_add] / [auto_now] columns, [created_by] and [projects] are
    declared [read_only=True]). *)
Definition Client_to_internal_value (partial : bool) (data : dict)
  : list (string * string) + option string :=
  let name := CharField_run_validation 255 partial (dict_get "client_name" data) in
  match field_errors "client_name" name with
  | [] => inr (validated name)
  | errors => inl errors
  end.

(** [serializer.save(created_by=user)] on a serializer of [Client] built
    without an instance: [ModelSerializer.create] inserts the validated
    data and the keyword arguments.  A column without a validated value
    takes the model default. *)
Definition Client_serializer_create (now : Z) (v : option string)
    (created_by : User.t) : M Client.t :=
  Client_objects_create now
    (match v with Some name => name | None => "" end)
    (Some (User.id created_by)).

(** [serializer.save()] on a serializer of [Client] built with an
    instance: [ModelSerializer.update] assigns the validated attributes
    and saves the row. *)
Definition Client_serializer_update (now : Z) (instance : Client.t)
    (v : option string) : M Client.t :=
  Client_save now
    (match v with
     | Some name =>
         Client.mk (Client.id instance) name (Client.created_at instance)
                   (Client.created_by instance) (Client.updated_at instance)
     | None => instance
     end).

(** [class ClientSerializer(serializers.ModelSerializer)] *)
Module ClientSerializer.
Definition fields : list string :=
  ["id"; "client_name"; "created_at"; "created_by"; "updated_at"; "projects"].

(** [created_by = serializers.StringRelatedField(read_only=True)],
    [projects = ProjectSerializer(many=True, read_only=True)] *)
Definition field (name : string) (instance : Client.t) : Q json :=
  if (name =? "id")%string then ret (JInt (Client.id instance))
  else if (name =? "client_name")%string then ret (JStr (Client.client_name instance))
  else if (name =? "created_at")%string then ret (JInt (Client.created_at instance))
  else if (name =? "created_by")%string then
    u <- created_by_user (Client.created_by instance) ;;
    ret (match u with Some u => JStr (User.str u) | None => JNull end)
  else if (name =? "updated_at")%string then ret (JInt (Client.updated_at instance))
  else if (name =? "projects")%string then
    ps <- Client_projects_all instance ;;
    reps <- mapQ ProjectSerializer.to_representation ps ;;
    ret (JList (map JObj reps))
  else raiseQ (KeyError name).

Definition to_representation : Client.t -> Q dict :=
  Serializer_to_representation fields field.

Definition to_internal_value := Client_to_internal_value.
End ClientSerializer.

(** [class ClientListSerializer(serializers.ModelSerializer)] *)
Module ClientListSerializer.
Definition fields : list string :=
  ["id"; "client_name"; "created_at"; "created_by"].

(** [created_by = serializers.StringRelatedField(read_only=True)] *)
Definition to_representation : Client.t -> Q dict :=
  Serializer_to_representation fields ClientSerializer.field.
End ClientListSerializer.

(** [class ClientCreateSerializer(serializers.ModelSerializer)] *)
Module ClientCreateSerializer.
Definition fields : list string := ["client_name"].

Definition field (name : string) (instance : Client.t) : Q json :=
  if (name =? "client_name")%string then ret (JStr (Client.client_name instance))
  else raiseQ (KeyError name).

Definition to_representation : Client.t -> Q dict :=
  Serializer_to_representation fields field.

Definition to_internal_value := Client_to_internal_value.
End ClientCreateSerializer.

(** A serializer class of [Client], as [get_serializer_class] returns it. *)
Record ClientSerializerClass : Type := {
  Meta_fields : list string;
  to_representation : Client.t -> Q dict;
  to_internal_value : bool -> dict -> list (string * string) + option string
}.

Definition ClientSerializer_class : ClientSerializerClass :=
  {| Meta_fields := ClientSerializer.fields;
     to_representation := ClientSerializer.to_representation;
     to_internal_value := ClientSerializer.to_internal_value |}.

Definition ClientListSerializer_class : ClientSerializerClass :=
  {| Meta_fields := ClientListSerializer.fields;
     to_representation := ClientListSerializer.to_representation;
     to_internal_value := Client_to_internal_value |}.

Definition ClientCreateSerializer_class : ClientSerializerClass :=
  {| Meta_fields := ClientCreateSerializer.fields;
     to_representation := ClientCreateSerializer.to_representation;
     to_internal_value := ClientCreateSerializer.to_internal_value |}.

(** ** Requests, responses, permissions *)

Inductive Method : Type := GET | POST | PUT | PATCH | DELETE.

(** The authentication classes of the framework. *)
Inductive Authenticator : Type :=
| SessionAuthentication
| BasicAuthentication
| TokenAuthentication.

(** [authenticate_header]: the value of [WWW-Authenticate] the class
    asks for; [BaseAuthentication] has none and [SessionAuthentication]
    inherits that. *)
Definition authenticate_header (a : Authenticator) : option string :=
  match a with
  | SessionAuthentication => None
  | BasicAuthentication => Some "Basic realm=api"
  | TokenAuthentication => Some "Token"
  end.

(** [APIView.authentication_classes]: the framework's defaults, read when
    line 107 imports it; [TokenAuthentication], which [SETTINGS] names, is
    not among them, and [rest_framework.authtoken] is not in
    [INSTALLED_APPS]. *)
Definition authentication_classes : list Authenticator :=
  [SessionAuthentication; BasicAuthentication].

(** [APIView.get_authenticate_header]: the header of the first class. *)
Definition get_authenticate_header : option string :=
  match authentication_classes with
  | a :: _ => authenticate_header a
  | [] => None
  end.

(** What [authentication_classes] make of a request: no credentials;
    the user of a session that passes the CSRF check, or of valid basic
    credentials; a session that fails the CSRF check of
    [SessionAuthentication] (which a POST, PUT, PATCH or DELETE can).
    A request that presents a token has no outcome here. *)
Inductive Auth : Type :=
| Anonymous
| Authenticated (user : User.t)
| CsrfFailed.

Module Request.
Record t : Type := mk { method : Method; auth : Auth; data : dict }.

(** [request.user] when it is a [User]. *)
Definition user (request : t) : option User.t :=
  match auth request with
  | Authenticated u => Some u
  | _ => None
  end.
End Request.

Module Response.
Record t : Type := mk { status_code : Z; data : option json }.
End Response.

Definition HTTP_200_OK : Z := 200.
Definition HTTP_201_CREATED : Z := 201.
Definition HTTP_204_NO_CONTENT : Z := 204.
Definition HTTP_400_BAD_REQUEST : Z := 400.
Definition HTTP_401_UNAUTHORIZED : Z := 401.
Definition HTTP_403_FORBIDDEN : Z := 403.
Definition HTTP_404_NOT_FOUND : Z := 404.
Definition HTTP_405_METHOD_NOT_ALLOWED : Z := 405.
Definition HTTP_500_INTERNAL_SERVER_ERROR : Z := 500.

Inductive Permission : Type := AllowAny | IsAuthenticated.

Definition has_permission (perm : Permission) (request : Request.t) : bool :=
  match perm with
  | AllowAny => true
  | IsAuthenticated =>
      match Request.user request with
      | Some _ => true
      | None => false
      end
  end.

Definition handler : Type := Request.t -> Z -> M Response.t.

(** A view class: its permissions and the handlers it has, by method. *)
Record APIView : Type := {
  get_permissions : Request.t -> list Permission;
  get : option handler;
  post : option handler;
  put : option handler;
  patch : option handler;
  delete : option handler
}.

(** [APIView.initial]: [perform_authentication], then
    [check_permissions].  A refused permission on a request that no
    authenticator accepted is [NotAuthenticated]. *)
Definition initial (view : APIView) (request : Request.t) : M unit :=
  match Request.auth request with
  | CsrfFailed => raise PermissionDenied
  | _ =>
      if forallb (fun perm => has_permission perm request)
                 (get_permissions view request)
      then ret tt
      else raise NotAuthenticated
  end.

Definition handler_of (view : APIView) (m : Method) : option handler :=
  match m with
  | GET => get view
  | POST => post view
  | PUT => put view
  | PATCH => patch view
  | DELETE => delete view
  end.

(** The [try] block of [APIView.dispatch]; [now] is the server clock
    during the request. *)
Definition dispatch (view : APIView) (request : Request.t) (now : Z)
  : M Response.t :=
  initial view request ;;;
  match handler_of view (Request.method request) with
  | Some h => h request now
  | None => raise MethodNotAllowed
  end.

Definition error_body (errors : list (string * string)) : json :=
  JObj (map (fun e => (fst e, JList [JStr (snd e)])) errors).

(** [APIView.handle_exception] with the default [exception_handler]: the
    API exceptions and [Http404] become responses, anything else is
    raised again.  An authentication error is 401 when
    [get_authenticate_header] gives a header and 403 when it gives none,
    as it does here. *)
Definition authentication_error_status : Z :=
  match get_authenticate_header with
  | Some _ => HTTP_401_UNAUTHORIZED
  | None => HTTP_403_FORBIDDEN
  end.

Definition handle_exception (e : exn) : exn + Response.t :=
  match e with
  | ValidationError errors =>
      inr (Response.mk HTTP_400_BAD_REQUEST (Some (error_body errors)))
  | Http404 =>
      inr (Response.mk HTTP_404_NOT_FOUND
             (Some (JObj [("detail", JStr "not_found")])))
  | NotAuthenticated =>
      inr (Response.mk authentication_error_status
             (Some (JObj [("detail", JStr "not_authenticated")])))
  | AuthenticationFailed =>
      inr (Response.mk authentication_error_status
             (Some (JObj [("detail", JStr "authentication_failed")])))
  | PermissionDenied =>
      inr (Response.mk HTTP_403_FORBIDDEN
             (Some (JObj [("detail", JStr "permission_denied")])))
  | MethodNotAllowed =>
      inr (Response.mk HTTP_405_METHOD_NOT_ALLOWED
             (Some (JObj [("detail", JStr "method_not_allowed")])))
  | _ => inl e
  end.

(** What the client gets: the response of the view, or the server error
    Django makes of an exception the view did not handle. *)
Inductive Outcome : Type :=
| Responded (response : Response.t)
| ServerError (e : exn).

Definition http_status (o : Outcome) : Z :=
  match o with
  | Responded r => Response.status_code r
  | ServerError _ => HTTP_500_INTERNAL_SERVER_ERROR
  end.

Definition body (o : Outcome) : option json :=
  match o with
  | Responded r => Response.data r
  | ServerError _ => None
  end.

Definition as_view (view : APIView) (request : Request.t) (now : Z) (db : DB)
  : Outcome * DB :=
  match dispatch view request now db with
  | (inr r, db') => (Responded r, db')
  | (inl e, db') =>
      match handle_exception e with
      | inr r => (Responded r, db')
      | inl e' => (ServerError e', db')
      end
  end.

(** ** Generic views *)

(** [serializer.is_valid(raise_exception=True)] *)
Definition is_valid {V : Type} (r : list (string * string) + V) : M V :=
  match r with
  | inl errors => raise (ValidationError errors)
  | inr v => ret v
  end.

(** [get_object_or_404] *)
Definition get_object_or_404 {A : Type} (q : Q A) : Q A := fun db =>
  match q db with
  | inl (DoesNotExist _) => inl Http404
  | r => r
  end.

(** [CreateModelMixin.create]; [perform_create] saves the serializer and
    leaves the new instance in it. *)
Definition CreateModelMixin_create {V I : Type}
    (to_internal_value : dict -> Q (list (string * string) + V))
    (perform_create : V -> M I)
    (to_representation : I -> Q dict)
    (request : Request.t) : M Response.t :=
  r <- liftQ (to_internal_value (Request.data request)) ;;
  v <- is_valid r ;;
  instance <- perform_create v ;;
  data <- liftQ (to_representation instance) ;;
  ret (Response.mk HTTP_201_CREATED (Some (JObj data))).

(** [ListModelMixin.list]; no filter backend and no pagination class are
    configured. *)
Definition ListModelMixin_list {I : Type}
    (get_queryset : Q (list I))
    (to_representation : I -> Q dict) : M Response.t :=
  queryset <- liftQ get_queryset ;;
  data <- liftQ (mapQ to_representation queryset) ;;
  ret (Response.mk HTTP_200_OK (Some (JList (map JObj data)))).

(** [RetrieveModelMixin.retrieve] *)
Definition RetrieveModelMixin_retrieve {I : Type}
    (get_object : Q I)
    (to_representation : I -> Q dict) : M Response.t :=
  instance <- liftQ get_object ;;
  data <- liftQ (to_representation instance) ;;
  ret (Response.mk HTTP_200_OK (Some (JObj data))).

(** [UpdateModelMixin.update]; [partial_update] is [update] with
    [partial=True]. *)
Definition UpdateModelMixin_update {V I : Type}
    (partial : bool)
    (get_object : Q I)
    (to_internal_value : bool -> dict -> Q (list (string * string) + V))
    (perform_update : I -> V -> M I)
    (to_representation : I -> Q dict)
    (request : Request.t) : M Response.t :=
  instance <- liftQ get_object ;;
  r <- liftQ (to_internal_value partial (Request.data request)) ;;
  v <- is_valid r ;;
  instance' <- perform_update instance v ;;
  data <- liftQ (to_representation instance') ;;
  ret (Response.mk HTTP_200_OK (Some (JObj data))).

(** ** Views *)

(** [class ClientListCreateView(generics.ListCreateAPIView)] *)
Module ClientListCreateView.
(** [queryset = Client.objects.all()] *)
Definition queryset : Q (list Client.t) := Client_objects_all.

(** [def get_serializer_class(self)] *)
Definition get_serializer_class (request : Request.t) : ClientSerializerClass :=
  match Request.method request with
  | POST => ClientCreateSerializer_class
  | _ => ClientListSerializer_class
  end.

(** [def get_permissions(self)] *)
Definition get_permissions (request : Request.t) : list Permission :=
  match Request.method request with
  | POST => [IsAuthenticated]
  | _ => [AllowAny]
  end.

(** [def perform_create(self, serializer)]; a foreign key refuses the
    anonymous user with [ValueError]. *)
Definition perform_create (request : Request.t) (now : Z)
    (serializer : option string) : M Client.t :=
  match Request.user request with
  | Some user => Client_serializer_create now serializer user
  | None => raise ValueError
  end.

(** [ListCreateAPIView.get] *)
Definition list : handler := fun request _ =>
  ListModelMixin_list queryset
    (to_representation (get_serializer_class request)).

(** [ListCreateAPIView.post] *)
Definition create : handler := fun request now =>
  CreateModelMixin_create
    (fun data => ret (to_internal_value (get_serializer_class request) false data))
    (perform_create request now)
    (to_representation (get_serializer_class request))
    request.

Definition view : APIView :=
  Build_APIView get_permissions (Some list) (Some create) None None None.
End ClientListCreateView.

(** [class ClientDetailView(generics.RetrieveUpdateDestroyAPIView)] *)
Module ClientDetailView.
(** [serializer_class = ClientSerializer] *)
Definition serializer_class : ClientSerializerClass := ClientSerializer_class.

(** [def get_permissions(self)] *)
Definition get_permissions (request : Request.t) : list Permission :=
  match Request.method request with
  | PUT | PATCH | DELETE => [IsAuthenticated]
  | _ => [AllowAny]
  end.

(** [GenericAPIView.get_object] on [queryset = Client.objects.all()] *)
Definition get_object (pk : Z) : Q Client.t :=
  get_object_or_404 (Client_objects_get pk).

(** [def perform_update(self, serializer)] *)
Definition perform_update (now : Z) (instance : Client.t)
    (serializer : option string) : M Client.t :=
  Client_serializer_update now instance serializer.

(** [DestroyModelMixin.perform_destroy] *)
Definition perform_destroy (instance : Client.t) : M unit :=
  Client_delete instance.

Definition retrieve (pk : Z) : handler := fun _ _ =>
  RetrieveModelMixin_retrieve (get_object pk)
    (to_representation serializer_class).

Definition update (partial : bool) (pk : Z) : handler := fun request now =>
  UpdateModelMixin_update partial (get_object pk)
    (fun partial data => ret (to_internal_value serializer_class partial data))
    (perform_update now)
    (to_representation serializer_class)
    request.

(** [def destroy(self, request, *args, **kwargs)] *)
Definition destroy (pk : Z) : handler := fun _ _ =>
  instance <- liftQ (get_object pk) ;;
  perform_destroy instance ;;;
  ret (Response.mk HTTP_204_NO_CONTENT None).

Definition view (pk : Z) : APIView :=
  Build_APIView get_permissions (Some (retrieve pk)) None (Some (update false pk)) (Some (update true pk)) (Some (destroy pk)).
End ClientDetailView.

(** [response.data[key]] *)
Definition subscript (data : option json) (key : string) : M json :=
  match data with
  | Some (JObj d) =>
      match dict_get key d with
      | Some v => ret v
      | None => raise (KeyError key)
      end
  | _ => raise TypeError
  end.

(** [Project.objects.get(pk=value)] for a value taken from a response. *)
Definition Project_objects_get_value (value : json) : Q Project.t :=
  match value with
  | JInt pk => Project_objects_get pk
  | JStr s =>
      match int_of_str s with
      | Some pk => Project_objects_get pk
      | None => raiseQ ValueError
      end
  | _ => raiseQ TypeError
  end.

(** [class ProjectCreateView(generics.CreateAPIView)] *)
Module ProjectCreateView.
(** [permission_classes = [IsAuthenticated]] *)
Definition permission_classes : list Permission := [IsAuthenticated].

(** [def perform_create(self, serializer)] *)
Definition perform_create (pk : Z) (request : Request.t) (now : Z)
    (serializer : ProjectCreateSerializer.validated_data) : M Project.t :=
  client <- liftQ (Client_objects_get pk) ;;
  match Request.user request with
  | Some user => ProjectCreateSerializer.save now serializer client user
  | None => raise ValueError
  end.

(** [super().create(request, *args, **kwargs)], with
    [serializer_class = ProjectCreateSerializer] *)
Definition super_create (pk : Z) : handler := fun request now =>
  CreateModelMixin_create
    (ProjectCreateSerializer.to_internal_value false)
    (perform_create pk request now)
    ProjectCreateSerializer.to_representation
    request.

(** [def create(self, request, *args, **kwargs)] *)
Definition create (pk : Z) : handler := fun request now =>
  response <- super_create pk request now ;;
  id <- subscript (Response.data response) "id" ;;
  project <- liftQ (Project_objects_get_value id) ;;
  data <- liftQ (ProjectSerializer.to_representation project) ;;
  ret (Response.mk HTTP_201_CREATED (Some (JObj data))).

Definition view (pk : Z) : APIView :=
  Build_APIView (fun _ => permission_classes) None (Some (create pk)) None None None.
End ProjectCreateView.

(** [class UserProjectsView(generics.ListAPIView)] *)
Module UserProjectsView.
(** [permission_classes = [IsAuthenticated]] *)
Definition permission_classes : list Permission := [IsAuthenticated].

(** [def get_queryset(self)]; the anonymous user has no
    [assigned_projects]. *)
Definition get_queryset (request : Request.t) : Q (list Project.t) :=
  match Request.user request with
  | Some user => User_assigned_projects_all user
  | None => raiseQ AttributeError
  end.

(** [ListAPIView.get], with [serializer_class = ProjectSerializer] *)
Definition list : handler := fun request _ =>
  ListModelMixin_list (get_queryset request)
    ProjectSerializer.to_representation.

Definition view : APIView :=
  Build_APIView (fun _ => permission_classes) (Some list) None None None None.
End UserProjectsView.

(** ** URLs *)

(** The four API paths of [urlpatterns] ([admin/] and [api-token-auth/]
    belong to the framework). *)
Inductive Path : Type :=
| clients                      (* 'clients/' *)
| clients_pk (pk : Z)          (* 'clients/<int:pk>/' *)
| clients_pk_projects (pk : Z) (* 'clients/<int:pk>/projects/' *)
| projects.                    (* 'projects/' *)

Definition urlpatterns (path : Path) : APIView :=
  match path with
  | clients => ClientListCreateView.view
  | clients_pk pk => ClientDetailView.view pk
  | clients_pk_projects pk => ProjectCreateView.view pk
  | projects => UserProjectsView.view
  end.

(** One request to the application: the response (or server error) and
    the database it leaves. *)
Definition application (path : Path) (request : Request.t) (now : Z) (db : DB)
  : Outcome * DB :=
  as_view (urlpatterns path) request now db.

(** ** The constraints of the schema *)

(** What the relational store guarantees of the four tables: primary keys
    are unique and below the auto-increment counters, a junction row
    occurs once, and every foreign key that is not null refers to a row
    ([Project.client] is required and cascades; the two [created_by] are
    set to null when their user goes). *)
Record wf (db : DB) : Prop := mk_wf {
  wf_user_pk : NoDup (map User.id (auth_user db));
  wf_client_pk : NoDup (map Client.id (client_table db));
  wf_project_pk : NoDup (map Project.id (project_table db));
  wf_junction_unique : NoDup (project_users db);
  wf_client_autoinc :
    forall c, In c (client_table db) -> Client.id c < client_autoinc db;
  wf_project_autoinc :
    forall p, In p (project_table db) -> Project.id p < project_autoinc db;
  wf_project_client :
    forall p, In p (project_table db) ->
      In (Project.client p) (map Client.id (client_table db));
  wf_project_created_by :
    forall p pk, In p (project_table db) -> Project.created_by p = Some pk ->
      In pk (map User.id (auth_user db));
  wf_client_created_by :
    forall c pk, In c (client_table db) -> Client.created_by c = Some pk ->
      In pk (map User.id (auth_user db));
  wf_junction_fk :
    forall r, In r (project_users db) ->
      In (fst r) (map Project.id (project_table db)) /\
      In (snd r) (map User.id (auth_user db))
}.

(** The request comes from a user of [auth_user] (or from nobody). *)
Definition known_user (request : Request.t) (db : DB) : Prop :=
  match Request.auth request with
  | Authenticated u => In u (auth_user db)
  | _ => True
  end.

(** [user] is in the assignment set of [p]: the junction table has the
    row that links them. *)
Definition assigned (db : DB) (user : User.t) (p : Project.t) : bool :=
  existsb (fun r => (fst r =? Project.id p) && (snd r =? User.id user))
          (project_users db).


(** The invariant: the constraints hold and the users are [users]. *)
Definition inv (users : list User.t) (db : DB) : Prop :=
  wf db /\ auth_user db = users.

(** The row [ModelSerializer.update] and [save] make of [c]: the
    validated name, if there is one, and the clock in [updated_at]. *)
Definition updated (now : Z) (c : Client.t) (v : option string) : Client.t :=
  Client.mk (Client.id c)
            (match v with Some name => name | None => Client.client_name c end)
            (Client.created_at c) (Client.created_by c) now.

(** ** A Hoare triple for views *)

(** [hoare P c Qn Qe]: run from a database that satisfies [P], [c] either
    returns [a] and leaves a database that satisfies [Qn a], or raises and
    leaves one that satisfies [Qe]. *)
Definition hoare {A : Type} (P : DB -> Prop) (c : M A)
    (Qn : A -> DB -> Prop) (Qe : DB -> Prop) : Prop :=
  forall db, P db ->
    match c db with
    | (inr a, db') => Qn a db'
    | (inl _, db') => Qe db'
    end.

(** ** A worked scenario: Acme, its creator alice, and two more users *)

Definition alice : User.t := User.mk 1 "alice".
Definition bob : User.t := User.mk 2 "bob".
Definition carol : User.t := User.mk 3 "carol".

Definition db_users : DB := mkDB [alice; bob; carol] [] [] [] 1 1.

Definition acme : Client.t := Client.mk 1 "Acme" 100 (Some 1) 100.

Definition db_acme : DB := mkDB [alice; bob; carol] [acme] [] [] 2 1.

Definition website : Project.t := Project.mk 1 "Website" 1 200 (Some 1).

Definition db_website : DB :=
  mkDB [alice; bob; carol] [acme] [website] [(1, 2); (1, 3)] 2 2.

(** A project whose creator was removed ([on_delete=models.SET_NULL]). *)
Definition orphaned : Project.t := Project.mk 2 "Legacy" 1 150 None.

Definition db_orphaned : DB :=
  mkDB [alice; bob; carol] [acme] [website; orphaned] [(1, 2); (1, 3); (2, 3)] 2 3.

Definition post_acme : Request.t :=
  Request.mk POST (Authenticated alice) [("client_name", JStr "Acme")].

Definition post_padded_acme : Request.t :=
  Request.mk POST (Authenticated alice) [("client_name", JStr " Acme ")].

Definition post_website : Request.t :=
  Request.mk POST (Authenticated alice)
    [("project_name", JStr "Website"); ("users", JList [JInt 2; JInt 3])].

Definition post_website_unknown_user : Request.t :=
  Request.mk POST (Authenticated alice)
    [("project_name", JStr "Website"); ("users", JList [JInt 2; JInt 9])].

(** ** Notions used by the further properties *)

(** The creator a row refers to: the user of that key, or nobody when the
    column is null. *)
Definition creator_of (db : DB) (fk : option Z) (creator : option User.t) : Prop :=
  match fk, creator with
  | Some pk, Some u => In u (auth_user db) /\ User.id u = pk
  | None, None => True
  | _, _ => False
  end.

(** * Properties *)

(** ** The Python helpers on examples *)

Example strip_examples :
  strip "  Acme  " = "Acme" /\ strip "   " = "" /\ strip "a b" = "a b".
Proof. repeat split. Qed.

Example int_of_str_examples :
  int_of_str " 12 " = Some 12 /\ int_of_str "-1_2" = Some (-12) /\
  int_of_str "007" = Some 7 /\ int_of_str "1__2" = None /\
  int_of_str "" = None /\ int_of_str "0x10" = None /\ int_of_str "+" = None.
Proof. repeat split. Qed.

Example str_of_int_examples :
  str_of_int 0 = "0" /\ str_of_int 42 = "42" /\ str_of_int (-7) = "-7".
Proof. repeat split. Qed.

Example dict_iter_example :
  dict_iter [("a", JInt 1); ("b", JInt 2); ("a", JInt 3)] = ["a"; "b"].
Proof. reflexivity. Qed.

Example dict_set_examples :
  dict_set "b" (JInt 9) [("a", JInt 1); ("b", JInt 2)]
    = [("a", JInt 1); ("b", JInt 9)] /\
  dict_set "c" (JInt 9) [("a", JInt 1)] = [("a", JInt 1); ("c", JInt 9)].
Proof. split; reflexivity. Qed.

(** ** Lookups by primary key *)

Section PrimaryKey.
Context {A : Type} (key : A -> Z).

Lemma filter_key_absent (rows : list A) (pk : Z) :
  ~ In pk (map key rows) -> filter (fun r => key r =? pk) rows = [].
Proof.
  induction rows as [|a rows IH]; simpl; intros Hnot; [reflexivity|].
  destruct (Z.eqb_spec (key a) pk) as [Heq|Hne].
  - exfalso. apply Hnot. now left.
  - apply IH. intros Hin. apply Hnot. now right.
Qed.

Lemma filter_key_unique (rows : list A) (x : A) :
  NoDup (map key rows) -> In x rows ->
  filter (fun r => key r =? key x) rows = [x].
Proof.
  induction rows as [|a rows IH]; simpl; intros Hnd Hin; [contradiction|].
  inversion Hnd as [|k ks Hfresh Hnd']; subst.
  destruct Hin as [->|Hin].
  - rewrite Z.eqb_refl. f_equal. now apply filter_key_absent.
  - destruct (Z.eqb_spec (key a) (key x)) as [Heq|Hne].
    + exfalso. apply Hfresh. rewrite Heq. now apply in_map.
    + now apply IH.
Qed.

Lemma in_map_key (rows : list A) (pk : Z) :
  In pk (map key rows) -> exists x, In x rows /\ key x = pk.
Proof.
  intros Hin. apply in_map_iff in Hin as (x & Hx & Hin). now exists x.
Qed.

Lemma get_one_found (model : string) (rows : list A) (x : A) :
  NoDup (map key rows) -> In x rows ->
  get_one model (filter (fun r => key r =? key x) rows) = inr x.
Proof. intros Hnd Hin. now rewrite filter_key_unique. Qed.

Lemma get_one_absent (model : string) (rows : list A) (pk : Z) :
  ~ In pk (map key rows) ->
  get_one model (filter (fun r => key r =? pk) rows) = inl (DoesNotExist model).
Proof. intros Hnot. now rewrite filter_key_absent. Qed.

End PrimaryKey.

Lemma User_objects_get_found (db : DB) (u : User.t) :
  NoDup (map User.id (auth_user db)) -> In u (auth_user db) ->
  User_objects_get (User.id u) db = inr u.
Proof. intros. unfold User_objects_get. now apply get_one_found. Qed.

Lemma User_objects_get_absent (db : DB) (pk : Z) :
  ~ In pk (map User.id (auth_user db)) ->
  User_objects_get pk db = inl (DoesNotExist "User").
Proof. intros. unfold User_objects_get. now apply get_one_absent. Qed.

Lemma Client_objects_get_found (db : DB) (c : Client.t) :
  NoDup (map Client.id (client_table db)) -> In c (client_table db) ->
  Client_objects_get (Client.id c) db = inr c.
Proof. intros. unfold Client_objects_get. now apply get_one_found. Qed.

Lemma Client_objects_get_absent (db : DB) (pk : Z) :
  ~ In pk (map Client.id (client_table db)) ->
  Client_objects_get pk db = inl (DoesNotExist "Client").
Proof. intros. unfold Client_objects_get. now apply get_one_absent. Qed.

(** ** Running a list of queries *)

Lemma mapQ_total {A B : Type} (f : A -> Q B) (l : list A) (db : DB) :
  (forall a, In a l -> exists b, f a db = inr b) ->
  exists bs, mapQ f l db = inr bs /\ Forall2 (fun a b => f a db = inr b) l bs.
Proof.
  induction l as [|a l IH]; intros Hall.
  - exists []. split; [reflexivity|constructor].
  - destruct (Hall a (or_introl eq_refl)) as [b Hb].
    destruct IH as (bs & Hbs & Hall2).
    { intros a' Ha'. apply Hall. now right. }
    exists (b :: bs). split.
    + simpl. rewrite Hb. fold (mapQ f l). rewrite Hbs. reflexivity.
    + now constructor.
Qed.

(** ** Rendering *)

Lemma UserSerializer_many (us : list User.t) (db : DB) :
  mapQ UserSerializer.to_representation us db =
  inr (map (fun u => [("id", JInt (User.id u)); ("username", JStr (User.username u))]) us).
Proof.
  induction us as [|u us IH]; [reflexivity|].
  simpl. fold (mapQ UserSerializer.to_representation us). rewrite IH. reflexivity.
Qed.

(** The representation [ProjectSerializer] makes of a project whose
    client is [c] and whose creator, if any, is [creator]. *)
Lemma ProjectSerializer_to_representation_eq
    (p : Project.t) (db : DB) (c : Client.t) (creator : option User.t) :
  Project_client p db = inr c ->
  created_by_user (Project.created_by p) db = inr creator ->
  ProjectSerializer.to_representation p db =
  inr [("id", JInt (Project.id p));
       ("project_name", JStr (Project.project_name p));
       ("client", JStr (Client.client_name c));
       ("users",
        JList (map JObj
          (map (fun u => [("id", JInt (User.id u)); ("username", JStr (User.username u))])
               (Project_users db p))));
       ("created_at", JInt (Project.created_at p));
       ("created_by",
        match creator with Some u => JStr (User.username u) | None => JNull end)].
Proof.
  intros Hc Hu.
  unfold ProjectSerializer.to_representation, Serializer_to_representation,
    ProjectSerializer.fields.
  cbn. rewrite Hc. unfold Project_users_all. rewrite UserSerializer_many, Hu.
  reflexivity.
Qed.

Lemma Project_client_total (db : DB) (p : Project.t) :
  wf db -> In p (project_table db) ->
  exists c, In c (client_table db) /\ Client.id c = Project.client p /\
            Project_client p db = inr c.
Proof.
  intros Hwf Hp.
  destruct (in_map_key Client.id _ _ (wf_project_client db Hwf p Hp))
    as (c & Hc & Hid).
  exists c. repeat split; try assumption.
  unfold Project_client. rewrite <- Hid.
  apply Client_objects_get_found; [apply Hwf|assumption].
Qed.

Lemma created_by_user_total (db : DB) (fk : option Z) :
  NoDup (map User.id (auth_user db)) ->
  (forall pk, fk = Some pk -> In pk (map User.id (auth_user db))) ->
  exists creator, created_by_user fk db = inr creator /\
    match fk, creator with
    | Some pk, Some u => In u (auth_user db) /\ User.id u = pk
    | None, None => True
    | _, _ => False
    end.
Proof.
  intros Hnd Hfk. destruct fk as [pk|].
  - destruct (in_map_key User.id _ _ (Hfk pk eq_refl)) as (u & Hu & Hid).
    exists (Some u). split; [|now split].
    cbn. rewrite <- Hid, User_objects_get_found by assumption. reflexivity.
  - exists None. split; [reflexivity|exact I].
Qed.

Lemma created_by_user_found (db : DB) (u : User.t) :
  NoDup (map User.id (auth_user db)) -> In u (auth_user db) ->
  created_by_user (Some (User.id u)) db = inr (Some u).
Proof.
  intros Hnd Hu. unfold created_by_user. cbn -[User_objects_get].
  now rewrite User_objects_get_found.
Qed.

Lemma ProjectSerializer_total (db : DB) (p : Project.t) :
  wf db -> In p (project_table db) ->
  exists rep, ProjectSerializer.to_representation p db = inr rep.
Proof.
  intros Hwf Hp.
  destruct (Project_client_total db p Hwf Hp) as (c & _ & _ & Hc).
  destruct (created_by_user_total db (Project.created_by p)) as (creator & Hu & _).
  { apply Hwf. }
  { intros pk. now apply (wf_project_created_by db Hwf). }
  eexists. now apply (ProjectSerializer_to_representation_eq p db c creator).
Qed.

(** The representation [ClientSerializer] makes of a client, given the
    representations of its projects. *)
Lemma ClientSerializer_to_representation_eq
    (c : Client.t) (db : DB) (creator : option User.t) (reps : list dict) :
  created_by_user (Client.created_by c) db = inr creator ->
  mapQ ProjectSerializer.to_representation (Client_projects db c) db = inr reps ->
  ClientSerializer.to_representation c db =
  inr [("id", JInt (Client.id c));
       ("client_name", JStr (Client.client_name c));
       ("created_at", JInt (Client.created_at c));
       ("created_by",
        match creator with Some u => JStr (User.username u) | None => JNull end);
       ("updated_at", JInt (Client.updated_at c));
       ("projects", JList (map JObj reps))].
Proof.
  intros Hu Hps.
  unfold ClientSerializer.to_representation, Serializer_to_representation,
    ClientSerializer.fields.
  cbn. rewrite Hu. unfold Client_projects_all. rewrite Hps.
  destruct creator; reflexivity.
Qed.

Lemma Client_projects_rendered (db : DB) (c : Client.t) :
  wf db ->
  exists reps,
    mapQ ProjectSerializer.to_representation (Client_projects db c) db = inr reps /\
    Forall2 (fun p rep => ProjectSerializer.to_representation p db = inr rep)
            (Client_projects db c) reps.
Proof.
  intros Hwf. apply mapQ_total. intros p Hp.
  apply ProjectSerializer_total; [assumption|].
  unfold Client_projects in Hp. now apply filter_In in Hp.
Qed.

(** ** The writes keep the constraints *)

Lemma NoDup_map_filter {A B : Type} (key : A -> B) (f : A -> bool) (l : list A) :
  NoDup (map key l) -> NoDup (map key (filter f l)).
Proof.
  induction l as [|a l IH]; simpl; intros Hnd; [constructor|].
  inversion Hnd as [|k ks Hfresh Hnd']; subst.
  destruct (f a); simpl; [|now apply IH].
  constructor; [|now apply IH].
  intros Hin. apply Hfresh.
  apply in_map_iff in Hin as (x & Hx & Hin). apply filter_In in Hin as [Hin _].
  rewrite <- Hx. now apply in_map.
Qed.

Lemma NoDup_map_snoc {A : Type} (key : A -> Z) (l : list A) (a : A) :
  NoDup (map key l) -> ~ In (key a) (map key l) -> NoDup (map key (l ++ [a])).
Proof.
  intros Hnd Hfresh. rewrite map_app. simpl.
  apply NoDup_app; [assumption|repeat constructor; intros []|].
  intros k Hk [<-|[]]. now apply Hfresh.
Qed.

Lemma fresh_below {A : Type} (key : A -> Z) (l : list A) (bound : Z) :
  (forall a, In a l -> key a < bound) -> ~ In bound (map key l).
Proof.
  intros Hlt Hin. apply in_map_iff in Hin as (a & Ha & Hin).
  specialize (Hlt a Hin). lia.
Qed.

Lemma wf_Client_objects_create (now : Z) (name : string) (u : User.t) (db : DB) :
  wf db -> In u (auth_user db) ->
  wf (snd (Client_objects_create now name (Some (User.id u)) db)).
Proof.
  intros Hwf Hu. destruct Hwf. constructor; simpl; try assumption.
  - apply NoDup_map_snoc; [assumption|]. now apply fresh_below.
  - intros c Hc. apply in_app_or in Hc as [Hc|[<-|[]]]; simpl.
    + specialize (wf_client_autoinc0 c Hc). lia.
    + lia.
  - intros p Hp. rewrite map_app. apply in_or_app. left. now apply wf_project_client0.
  - intros c pk Hc Hpk. apply in_app_or in Hc as [Hc|[<-|[]]].
    + now apply (wf_client_created_by0 c).
    + simpl in Hpk. injection Hpk as <-. now apply in_map.
Qed.

Lemma wf_set_client_table (rows : list Client.t) (db : DB) :
  wf db ->
  map Client.id rows = map Client.id (client_table db) ->
  (forall c pk, In c rows -> Client.created_by c = Some pk ->
                In pk (map User.id (auth_user db))) ->
  wf (set_client_table rows db).
Proof.
  intros Hwf Hids Hfk. destruct Hwf. constructor; simpl; try assumption.
  - now rewrite Hids.
  - intros c Hc.
    assert (Hin : In (Client.id c) (map Client.id (client_table db))).
    { rewrite <- Hids. now apply in_map. }
    apply in_map_iff in Hin as (r & Hr & Hin). rewrite <- Hr.
    now apply wf_client_autoinc0.
  - intros p Hp. rewrite Hids. now apply wf_project_client0.
Qed.

Lemma wf_Client_save (now : Z) (c : Client.t) (db : DB) :
  wf db -> In (Client.id c) (map Client.id (client_table db)) ->
  (forall pk, Client.created_by c = Some pk -> In pk (map User.id (auth_user db))) ->
  wf (snd (Client_save now c db)).
Proof.
  intros Hwf Hin Hfk. unfold Client_save.
  set (c' := Client.mk _ _ _ _ now).
  set (hit := fun r => Client.id r =? Client.id c).
  assert (Hex : existsb hit (client_table db) = true).
  { apply existsb_exists. apply in_map_iff in Hin as (x & Hx & Hin).
    exists x. split; [assumption|]. now apply Z.eqb_eq. }
  rewrite Hex. cbn [snd]. apply wf_set_client_table; [assumption| |].
  - rewrite map_map. apply map_ext. intros r. unfold hit.
    destruct (Z.eqb_spec (Client.id r) (Client.id c)) as [Heq|_]; [|reflexivity].
    now rewrite Heq.
  - intros x pk Hx Hpk. apply in_map_iff in Hx as (r & Hr & Hx).
    subst x. destruct (Client.id r =? Client.id c).
    + apply Hfk. exact Hpk.
    + now apply (wf_client_created_by db Hwf r).
Qed.

Lemma wf_Client_delete (c : Client.t) (db : DB) :
  wf db -> wf (snd (Client_delete c db)).
Proof.
  intros Hwf. destruct Hwf. unfold Client_delete. constructor; simpl.
  - assumption.
  - now apply NoDup_map_filter.
  - now apply NoDup_map_filter.
  - now apply NoDup_filter.
  - intros x Hx. apply filter_In in Hx as [Hx _]. now apply wf_client_autoinc0.
  - intros p Hp. apply filter_In in Hp as [Hp _]. now apply wf_project_autoinc0.
  - intros p Hp. apply filter_In in Hp as [Hp Hkeep].
    specialize (wf_project_client0 p Hp).
    apply in_map_iff in wf_project_client0 as (x & Hx & Hin).
    apply in_map_iff. exists x. split; [assumption|].
    apply filter_In. split; [assumption|]. now rewrite Hx.
  - intros p pk Hp. apply filter_In in Hp as [Hp _]. now apply wf_project_created_by0.
  - intros x pk Hx. apply filter_In in Hx as [Hx _]. now apply wf_client_created_by0.
  - intros r Hr. apply filter_In in Hr as [Hr Hkeep].
    destruct (wf_junction_fk0 r Hr) as [Hp Hu]. split; [|assumption].
    apply in_map_iff in Hp as (p & Hpid & Hp).
    apply in_map_iff. exists p. split; [assumption|].
    apply filter_In. split; [assumption|].
    destruct (Project.client p =? Client.id c) eqn:Hdoomed; [|reflexivity].
    exfalso. apply negb_true_iff in Hkeep.
    assert (Hex : existsb (Z.eqb (fst r))
              (map Project.id
                 (filter (fun p => Project.client p =? Client.id c) (project_table db)))
            = true).
    { apply existsb_exists. exists (Project.id p). split.
      - apply in_map. apply filter_In. now split.
      - apply Z.eqb_eq. now symmetry. }
    congruence.
Qed.

(** ** The scenario satisfies the constraints *)

Ltac concrete_nodup :=
  simpl; repeat (apply NoDup_cons; [simpl; intuition (discriminate || congruence)|]);
  apply NoDup_nil.

Ltac concrete_wf :=
  constructor; try concrete_nodup;
  simpl; intros;
  repeat match goal with
         | H : _ \/ _ |- _ => destruct H
         | H : False |- _ => destruct H
         | H : _ = Some _ |- _ => progress (subst; simpl in H); try discriminate
         end;
  subst; simpl in *;
  repeat match goal with
         | H : Some _ = Some _ |- _ => injection H as <-
         end;
  try lia; try discriminate; try (split; tauto); tauto.

Lemma wf_db_users : wf db_users.
Proof. concrete_wf. Qed.

Lemma wf_db_acme : wf db_acme.
Proof. concrete_wf. Qed.

Lemma wf_db_website : wf db_website.
Proof. concrete_wf. Qed.

Lemma wf_db_orphaned : wf db_orphaned.
Proof. concrete_wf. Qed.

(** ** Authentication *)



(** ** DELETE /clients/{id}/ *)

Lemma get_object_found (db : DB) (c : Client.t) :
  NoDup (map Client.id (client_table db)) -> In c (client_table db) ->
  ClientDetailView.get_object (Client.id c) db = inr c.
Proof.
  intros Hnd Hc. unfold ClientDetailView.get_object, get_object_or_404.
  now rewrite Client_objects_get_found.
Qed.

Lemma get_object_absent (db : DB) (pk : Z) :
  ~ In pk (map Client.id (client_table db)) ->
  ClientDetailView.get_object pk db = inl Http404.
Proof.
  intros Hnot. unfold ClientDetailView.get_object, get_object_or_404.
  now rewrite Client_objects_get_absent.
Qed.

Lemma destroy_found (c : Client.t) (user : User.t) (data : dict) (now : Z) (db : DB) :
  ClientDetailView.get_object (Client.id c) db = inr c ->
  application (clients_pk (Client.id c))
    (Request.mk DELETE (Authenticated user) data) now db
  = (Responded (Response.mk HTTP_204_NO_CONTENT None), snd (Client_delete c db)).
Proof.
  intros Hget. unfold application, as_view, dispatch.
  cbn -[ClientDetailView.get_object Client_delete].
  rewrite Hget. reflexivity.
Qed.

Lemma detail_absent (m : Method) (pk : Z) (user : User.t) (data : dict)
    (now : Z) (db : DB) :
  m <> POST ->
  ClientDetailView.get_object pk db = inl Http404 ->
  application (clients_pk pk) (Request.mk m (Authenticated user) data) now db
  = (Responded (Response.mk HTTP_404_NOT_FOUND
                  (Some (JObj [("detail", JStr "not_found")]))), db).
Proof.
  intros Hm Hget. unfold application, as_view, dispatch.
  destruct m; try congruence;
    cbn -[ClientDetailView.get_object]; rewrite Hget; reflexivity.
Qed.

(** C5.  An authenticated DELETE /clients/{id}/ on an existing client
    answers 204 with no body and leaves the client table without that
    client and the project table without the projects that referred to
    it; when no client has the id the answer is 404 and nothing
    changes. *)
Theorem client_delete_cascades
    (pk : Z) (user : User.t) (data : dict) (now : Z) (db : DB) :
  NoDup (map Client.id (client_table db)) ->
  let result :=
    application (clients_pk pk) (Request.mk DELETE (Authenticated user) data) now db in
  (In pk (map Client.id (client_table db)) ->
     fst result = Responded (Response.mk HTTP_204_NO_CONTENT None) /\
     client_table (snd result)
       = filter (fun c => negb (Client.id c =? pk)) (client_table db) /\
     project_table (snd result)
       = filter (fun p => negb (Project.client p =? pk)) (project_table db) /\
     auth_user (snd result) = auth_user db)
  /\
  (~ In pk (map Client.id (client_table db)) ->
     http_status (fst result) = HTTP_404_NOT_FOUND /\ snd result = db).
Proof.
  intros Hnd result. subst result. split.
  - intros Hin. apply in_map_key in Hin as (c & Hc & Hid). subst pk.
    rewrite destroy_found by now apply get_object_found.
    repeat split.
  - intros Hnot.
    rewrite detail_absent by (discriminate || now apply get_object_absent).
    split; reflexivity.
Qed.

Lemma client_delete_cascades_witness :
  NoDup (map Client.id (client_table db_website)) /\
  fst (application (clients_pk 1) (Request.mk DELETE (Authenticated bob) []) 300 db_website)
    = Responded (Response.mk HTTP_204_NO_CONTENT None) /\
  client_table
    (snd (application (clients_pk 1) (Request.mk DELETE (Authenticated bob) []) 300 db_website))
    = [] /\
  project_table
    (snd (application (clients_pk 1) (Request.mk DELETE (Authenticated bob) []) 300 db_website))
    = [].
Proof.
  assert (Hnd : NoDup (map Client.id (client_table db_website))) by concrete_nodup.
  split; [exact Hnd|].
  destruct (client_delete_cascades 1 bob [] 300 db_website Hnd) as [Hfound _].
  destruct Hfound as (Hresp & Hclients & Hprojects & _).
  { simpl. now left. }
  repeat split; assumption.
Defined.

(** ** The project detail shape *)

(** C10.  [ProjectSerializer.to_representation] returns a representation
    for every project of the table, with the six names of [Meta.fields];
    its [created_by] is null when the project has no creator and the
    creator's username otherwise. *)
Theorem project_representation_total (p : Project.t) (db : DB) :
  wf db -> In p (project_table db) ->
  exists rep,
    ProjectSerializer.to_representation p db = inr rep /\
    dict_keys rep = ProjectSerializer.fields /\
    match Project.created_by p with
    | None => dict_get "created_by" rep = Some JNull
    | Some pk =>
        exists u, In u (auth_user db) /\ User.id u = pk /\
                  dict_get "created_by" rep = Some (JStr (User.username u))
    end.
Proof.
  intros Hwf Hp.
  destruct (Project_client_total db p Hwf Hp) as (c & _ & _ & Hc).
  destruct (created_by_user_total db (Project.created_by p)) as (creator & Hu & Hrel).
  { apply Hwf. }
  { intros pk. now apply (wf_project_created_by db Hwf). }
  eexists. split; [now apply (ProjectSerializer_to_representation_eq p db c creator)|].
  split; [reflexivity|].
  destruct (Project.created_by p) as [pk|], creator as [u|]; try contradiction.
  - exists u. destruct Hrel as [Hin Hid]. now repeat split.
  - reflexivity.
Qed.

Lemma project_representation_total_witness :
  wf db_orphaned /\ In orphaned (project_table db_orphaned) /\
  exists rep,
    ProjectSerializer.to_representation orphaned db_orphaned = inr rep /\
    dict_get "created_by" rep = Some JNull.
Proof.
  split; [exact wf_db_orphaned|]. split; [simpl; tauto|].
  destruct (project_representation_total orphaned db_orphaned wf_db_orphaned)
    as (rep & Hrep & _ & Hnull).
  { simpl. tauto. }
  exists rep. split; assumption.
Defined.

(** ** GET /projects/ *)

Lemma at_most_one {A : Type} (v : A) (l : list A) :
  NoDup l -> (forall x, In x l -> x = v) -> l = [] \/ l = [v].
Proof.
  intros Hnd Hall. destruct l as [|a [|b l]].
  - now left.
  - right. f_equal. apply Hall. now left.
  - exfalso. inversion Hnd as [|? ? Hfresh _]; subst. apply Hfresh.
    rewrite (Hall a), (Hall b); simpl; tauto.
Qed.

Lemma existsb_filter {A : Type} (f : A -> bool) (l : list A) :
  existsb f l = match filter f l with [] => false | _ :: _ => true end.
Proof.
  induction l as [|a l IH]; simpl; [reflexivity|].
  destruct (f a); simpl; [reflexivity|exact IH].
Qed.

Lemma links_assigned (db : DB) (p : Project.t) (u : User.t) :
  NoDup (project_users db) ->
  map (fun _ => p) (links db p u) = if assigned db u p then [p] else [].
Proof.
  intros Hnd. unfold assigned. rewrite existsb_filter. fold (links db p u).
  destruct (at_most_one (Project.id p, User.id u) (links db p u)) as [-> | ->];
    try reflexivity.
  - unfold links. now apply NoDup_filter.
  - intros [a b] Hin. unfold links in Hin. apply filter_In in Hin as [_ Hab].
    apply andb_true_iff in Hab as [Ha Hb]. simpl in Ha, Hb.
    apply Z.eqb_eq in Ha, Hb. now subst.
Qed.

Lemma assigned_projects_filter (db : DB) (u : User.t) :
  NoDup (project_users db) ->
  User_assigned_projects db u = filter (assigned db u) (project_table db).
Proof.
  intros Hnd. unfold User_assigned_projects.
  induction (project_table db) as [|p ps IH]; simpl; [reflexivity|].
  rewrite links_assigned, IH by assumption.
  destruct (assigned db u p); reflexivity.
Qed.

Lemma links_assigned_user (db : DB) (p : Project.t) (u : User.t) :
  NoDup (project_users db) ->
  map (fun _ => u) (links db p u) = if assigned db u p then [u] else [].
Proof.
  intros Hnd. unfold assigned. rewrite existsb_filter. fold (links db p u).
  destruct (at_most_one (Project.id p, User.id u) (links db p u)) as [-> | ->];
    try reflexivity.
  - unfold links. now apply NoDup_filter.
  - intros [a b] Hin. unfold links in Hin. apply filter_In in Hin as [_ Hab].
    apply andb_true_iff in Hab as [Ha Hb]. simpl in Ha, Hb.
    apply Z.eqb_eq in Ha, Hb. now subst.
Qed.

(** [project.users.all()] is the users in the assignment set of the
    project, in the order of the user table. *)
Lemma Project_users_filter (db : DB) (p : Project.t) :
  NoDup (project_users db) ->
  Project_users db p = filter (fun u => assigned db u p) (auth_user db).
Proof.
  intros Hnd. unfold Project_users.
  induction (auth_user db) as [|u us IH]; simpl; [reflexivity|].
  rewrite links_assigned_user, IH by assumption.
  destruct (assigned db u p); reflexivity.
Qed.

Lemma Forall2_impl_In {A B : Type} (P Q : A -> B -> Prop) (l : list A) (l' : list B) :
  (forall a b, In a l -> P a b -> Q a b) -> Forall2 P l l' -> Forall2 Q l l'.
Proof.
  intros Himpl Hall. induction Hall as [|a b l l' Hab Hall IH]; constructor.
  - apply Himpl; [now left|assumption].
  - apply IH. intros x y Hx. apply Himpl. now right.
Qed.

(** C7.  An authenticated GET /projects/ answers 200 with one
    representation for each project whose assignment set contains the
    caller, and for no other project, in the order of the project table;
    the database is unchanged.  Each representation is the one
    [ProjectSerializer] makes, and it is the detail shape: the key and
    the name of the project, the name of its client, the key and the
    username of each user in its assignment set, the instant of creation
    and the username of the creator, null when there is none. *)
Theorem user_projects_are_the_assigned
    (user : User.t) (data : dict) (now : Z) (db : DB) :
  wf db ->
  exists reps,
    application projects (Request.mk GET (Authenticated user) data) now db
    = (Responded (Response.mk HTTP_200_OK (Some (JList (map JObj reps)))), db) /\
    Forall2
      (fun p rep =>
         ProjectSerializer.to_representation p db = inr rep /\
         exists c creator,
           In c (client_table db) /\ Client.id c = Project.client p /\
           creator_of db (Project.created_by p) creator /\
           rep = [("id", JInt (Project.id p));
                  ("project_name", JStr (Project.project_name p));
                  ("client", JStr (Client.client_name c));
                  ("users",
                   JList (map (fun u => JObj [("id", JInt (User.id u));
                                              ("username", JStr (User.username u))])
                              (filter (fun u => assigned db u p) (auth_user db))));
                  ("created_at", JInt (Project.created_at p));
                  ("created_by",
                   match creator with
                   | Some u => JStr (User.username u)
                   | None => JNull
                   end)])
      (filter (assigned db user) (project_table db)) reps.
Proof.
  intros Hwf.
  destruct (mapQ_total ProjectSerializer.to_representation
              (filter (assigned db user) (project_table db)) db)
    as (reps & Hreps & Hall).
  { intros p Hp. apply filter_In in Hp as [Hp _].
    now apply ProjectSerializer_total. }
  exists reps. split.
  - unfold application, as_view, dispatch.
    cbn -[User_assigned_projects mapQ ProjectSerializer.to_representation].
    rewrite assigned_projects_filter by apply Hwf.
    rewrite Hreps. reflexivity.
  - revert Hall. apply Forall2_impl_In. intros p rep Hp Hrep.
    split; [assumption|]. apply filter_In in Hp as [Hp _].
    destruct (Project_client_total db p Hwf Hp) as (c & Hc & Hcid & Hclient).
    destruct (created_by_user_total db (Project.created_by p))
      as (creator & Hu & Hrel).
    { apply Hwf. }
    { intros pk. now apply (wf_project_created_by db Hwf). }
    exists c, creator. repeat split; try assumption.
    rewrite (ProjectSerializer_to_representation_eq p db c creator Hclient Hu) in Hrep.
    inversion Hrep; subst rep.
    rewrite Project_users_filter by apply Hwf. now rewrite map_map.
Qed.

Lemma user_projects_are_the_assigned_witness :
  wf db_orphaned /\
  exists reps,
    application projects (Request.mk GET (Authenticated bob) []) 300 db_orphaned
    = (Responded (Response.mk HTTP_200_OK (Some (JList (map JObj reps)))),
       db_orphaned) /\
    Forall2
      (fun p rep =>
         ProjectSerializer.to_representation p db_orphaned = inr rep /\
         exists c creator,
           In c (client_table db_orphaned) /\ Client.id c = Project.client p /\
           creator_of db_orphaned (Project.created_by p) creator /\
           rep = [("id", JInt (Project.id p));
                  ("project_name", JStr (Project.project_name p));
                  ("client", JStr (Client.client_name c));
                  ("users",
                   JList (map (fun u => JObj [("id", JInt (User.id u));
                                              ("username", JStr (User.username u))])
                              (filter (fun u => assigned db_orphaned u p)
                                      (auth_user db_orphaned))));
                  ("created_at", JInt (Project.created_at p));
                  ("created_by",
                   match creator with
                   | Some u => JStr (User.username u)
                   | None => JNull
                   end)])
      (filter (assigned db_orphaned bob) (project_table db_orphaned)) reps.
Proof.
  split; [exact wf_db_orphaned|].
  exact (user_projects_are_the_assigned bob [] 300 db_orphaned wf_db_orphaned).
Defined.

(** What bob and alice see in the scenario: bob is assigned to the
    website only, alice to nothing. *)
Example user_projects_scenario :
  body (fst (application projects (Request.mk GET (Authenticated bob) []) 300 db_orphaned))
  = Some (JList
       [JObj [("id", JInt 1); ("project_name", JStr "Website");
              ("client", JStr "Acme");
              ("users", JList [JObj [("id", JInt 2); ("username", JStr "bob")];
                               JObj [("id", JInt 3); ("username", JStr "carol")]]);
              ("created_at", JInt 200); ("created_by", JStr "alice")]]) /\
  body (fst (application projects (Request.mk GET (Authenticated alice) []) 300 db_orphaned))
  = Some (JList []).
Proof. split; reflexivity. Qed.

(** ** POST /clients/ *)

Lemma CharField_valid_str (max_length : nat) (partial : bool) (s : string) :
  strip s <> "" ->
  (String.length (strip s) <= max_length)%nat ->
  ~ In zero (list_ascii_of_string (strip s)) ->
  CharField_run_validation max_length partial (Some (JStr s)) = Valid (strip s).
Proof.
  intros Hblank Hlen Hnul. unfold CharField_run_validation, str_is_blank.
  destruct (strip s) as [|a r] eqn:Hs; [congruence|].
  unfold CharField_run_validators.
  replace (Nat.ltb max_length (String.length (String a r))) with false
    by (symmetry; apply Nat.ltb_ge; exact Hlen).
  destruct (existsb (Ascii.eqb zero) (list_ascii_of_string (String a r))) eqn:Hex;
    [|reflexivity].
  exfalso. apply Hnul. apply existsb_exists in Hex as (x & Hx & Heq).
  apply Ascii.eqb_eq in Heq. now subst x.
Qed.

Lemma CharField_blank_str (max_length : nat) (partial : bool) (s : string) :
  strip s = "" ->
  CharField_run_validation max_length partial (Some (JStr s)) = Invalid "blank".
Proof.
  intros Hs. unfold CharField_run_validation, str_is_blank. now rewrite Hs.
Qed.

Lemma client_create_valid
    (user : User.t) (data : dict) (now : Z) (db : DB) (name : string) :
  CharField_run_validation 255 false (dict_get "client_name" data) = Valid name ->
  application clients (Request.mk POST (Authenticated user) data) now db
  = (Responded (Response.mk HTTP_201_CREATED (Some (JObj [("client_name", JStr name)]))),
     snd (Client_objects_create now name (Some (User.id user)) db)).
Proof.
  intros Hvalid. unfold application, as_view, dispatch.
  cbn -[CharField_run_validation].
  unfold ClientCreateSerializer.to_internal_value, Client_to_internal_value.
  rewrite Hvalid. reflexivity.
Qed.

Lemma client_create_invalid
    (user : User.t) (data : dict) (now : Z) (db : DB) (code : string) :
  CharField_run_validation 255 false (dict_get "client_name" data) = Invalid code ->
  application clients (Request.mk POST (Authenticated user) data) now db
  = (Responded (Response.mk HTTP_400_BAD_REQUEST
                  (Some (error_body [("client_name", code)]))), db).
Proof.
  intros Hinvalid. unfold application, as_view, dispatch.
  cbn -[CharField_run_validation].
  unfold ClientCreateSerializer.to_internal_value, Client_to_internal_value.
  rewrite Hinvalid. reflexivity.
Qed.

(** C3, as the claim has it, fails: the body of the 201 is what
    [ClientCreateSerializer] renders, the one name [client_name], not the
    six names of the detail representation. *)
Lemma client_create_body_counterexample :
  ~ (exists rep,
       body (fst (application clients post_acme 100 db_users)) = Some (JObj rep) /\
       dict_keys rep = ClientSerializer.fields).
Proof.
  intros (rep & Hbody & Hkeys). vm_compute in Hbody.
  injection Hbody as <-. discriminate Hkeys.
Qed.

(** C3, amended.  An authenticated POST /clients/ whose [client_name] is a
    string that is not blank, has at most 255 characters once its
    surrounding whitespace is stripped and holds no NUL inserts one client
    (the next key, the stripped name, [created_by] the caller, both
    timestamps the server clock) and answers 201 with the body
    [{client_name}]; a missing or blank [client_name] is answered 400 and
    nothing is inserted. *)
Theorem client_create_contract
    (user : User.t) (data : dict) (now : Z) (db : DB) (s : string) :
  let result := application clients (Request.mk POST (Authenticated user) data) now db in
  (dict_get "client_name" data = Some (JStr s) ->
   strip s <> "" ->
   (String.length (strip s) <= 255)%nat ->
   ~ In zero (list_ascii_of_string (strip s)) ->
     fst result
       = Responded (Response.mk HTTP_201_CREATED
                      (Some (JObj [("client_name", JStr (strip s))]))) /\
     snd result
       = set_client_autoinc (client_autoinc db + 1)
           (set_client_table
              (client_table db ++
               [Client.mk (client_autoinc db) (strip s) now (Some (User.id user)) now])
              db))
  /\
  (dict_get "client_name" data = None \/
   (dict_get "client_name" data = Some (JStr s) /\ strip s = "") ->
     http_status (fst result) = HTTP_400_BAD_REQUEST /\ snd result = db).
Proof.
  intros result. subst result. split.
  - intros Hget Hblank Hlen Hnul.
    rewrite (client_create_valid user data now db (strip s)).
    + split; reflexivity.
    + rewrite Hget. now apply CharField_valid_str.
  - intros [Hmissing | [Hget Hblank]].
    + rewrite (client_create_invalid user data now db "required").
      * split; reflexivity.
      * now rewrite Hmissing.
    + rewrite (client_create_invalid user data now db "blank").
      * split; reflexivity.
      * rewrite Hget. now apply CharField_blank_str.
Qed.

Lemma client_create_contract_witness :
  (dict_get "client_name" (Request.data post_padded_acme) = Some (JStr " Acme ") /\
   strip " Acme " <> "" /\
   (String.length (strip " Acme ") <= 255)%nat /\
   ~ In zero (list_ascii_of_string (strip " Acme "))) /\
  fst (application clients post_padded_acme 100 db_users)
    = Responded (Response.mk HTTP_201_CREATED (Some (JObj [("client_name", JStr "Acme")]))) /\
  snd (application clients post_padded_acme 100 db_users) = db_acme /\
  http_status
    (fst (application clients (Request.mk POST (Authenticated alice) []) 100 db_users))
    = HTTP_400_BAD_REQUEST.
Proof.
  assert (H1 : dict_get "client_name" (Request.data post_padded_acme)
               = Some (JStr " Acme ")) by reflexivity.
  assert (H2 : strip " Acme " <> "") by (vm_compute; discriminate).
  assert (H3 : (String.length (strip " Acme ") <= 255)%nat) by (vm_compute; lia).
  assert (H4 : ~ In zero (list_ascii_of_string (strip " Acme "))).
  { vm_compute. intuition discriminate. }
  split; [repeat split; assumption|].
  destruct (client_create_contract alice (Request.data post_padded_acme) 100 db_users
              " Acme ") as [Hcreated _].
  destruct (Hcreated H1 H2 H3 H4) as [Hresp Hdb].
  destruct (client_create_contract alice [] 100 db_users "") as [_ Hrejected].
  destruct Hrejected as [Hstatus _]; [now left|].
  repeat split; assumption.
Defined.

(** ** GET /clients/{id}/ *)

Lemma ClientSerializer_total (db : DB) (c : Client.t) :
  wf db ->
  (forall pk, Client.created_by c = Some pk -> In pk (map User.id (auth_user db))) ->
  exists creator reps,
    created_by_user (Client.created_by c) db = inr creator /\
    mapQ ProjectSerializer.to_representation (Client_projects db c) db = inr reps /\
    ClientSerializer.to_representation c db =
    inr [("id", JInt (Client.id c));
         ("client_name", JStr (Client.client_name c));
         ("created_at", JInt (Client.created_at c));
         ("created_by",
          match creator with Some u => JStr (User.username u) | None => JNull end);
         ("updated_at", JInt (Client.updated_at c));
         ("projects", JList (map JObj reps))].
Proof.
  intros Hwf Hfk.
  destruct (created_by_user_total db (Client.created_by c)) as (creator & Hu & _);
    [apply Hwf|assumption|].
  destruct (Client_projects_rendered db c Hwf) as (reps & Hreps & _).
  exists creator, reps. repeat split; try assumption.
  now apply ClientSerializer_to_representation_eq.
Qed.

Lemma retrieve_found
    (viewer : Auth) (pk : Z) (data : dict) (now : Z) (db : DB)
    (c : Client.t) (rep : dict) :
  Request.auth (Request.mk GET viewer data) = viewer ->
  viewer = Anonymous \/ (exists u, viewer = Authenticated u) ->
  ClientDetailView.get_object pk db = inr c ->
  ClientSerializer.to_representation c db = inr rep ->
  application (clients_pk pk) (Request.mk GET viewer data) now db
  = (Responded (Response.mk HTTP_200_OK (Some (JObj rep))), db).
Proof.
  intros _ Hviewer Hget Hrep. unfold application, as_view, dispatch.
  destruct Hviewer as [-> | [u ->]];
    cbn -[ClientDetailView.get_object ClientSerializer.to_representation];
    rewrite Hget, Hrep; reflexivity.
Qed.

(** C9, as the claim has it, fails on a name with surrounding
    whitespace: the client is stored, and read back, under the stripped
    name. *)
Lemma client_name_roundtrip_counterexample :
  http_status (fst (application clients post_padded_acme 100 db_users))
    = HTTP_201_CREATED /\
  exists rep,
    body (fst (application (clients_pk 1) (Request.mk GET Anonymous []) 300
                 (snd (application clients post_padded_acme 100 db_users))))
      = Some (JObj rep) /\
    dict_get "client_name" rep
      <> dict_get "client_name" (Request.data post_padded_acme).
Proof.
  split; [reflexivity|]. eexists. split; [vm_compute; reflexivity|].
  vm_compute. discriminate.
Qed.

(** C9, amended.  After an authenticated POST /clients/ has created a
    client from a [client_name] string, a GET /clients/{id}/ for the new
    key, by an anonymous or an authenticated caller, answers 200 with the
    six names of the detail representation: the key, the given name with
    its surrounding whitespace stripped (the given name itself when it has
    none), the creation instant twice, the creator's username and an empty
    list of projects. *)
Theorem client_create_then_retrieve
    (user : User.t) (viewer : Auth) (data data' : dict) (now now' : Z)
    (db : DB) (s : string) :
  wf db -> In user (auth_user db) ->
  viewer = Anonymous \/ (exists u, viewer = Authenticated u) ->
  dict_get "client_name" data = Some (JStr s) ->
  strip s <> "" ->
  (String.length (strip s) <= 255)%nat ->
  ~ In zero (list_ascii_of_string (strip s)) ->
  let db' := snd (application clients (Request.mk POST (Authenticated user) data) now db) in
  application (clients_pk (client_autoinc db)) (Request.mk GET viewer data') now' db'
  = (Responded (Response.mk HTTP_200_OK (Some (JObj
       [("id", JInt (client_autoinc db));
        ("client_name", JStr (strip s));
        ("created_at", JInt now);
        ("created_by", JStr (User.username user));
        ("updated_at", JInt now);
        ("projects", JList [])]))),
     db').
Proof.
  intros Hwf Huser Hviewer Hget Hblank Hlen Hnul db'. subst db'.
  rewrite (client_create_valid user data now db (strip s))
    by (rewrite Hget; now apply CharField_valid_str).
  set (c := Client.mk (client_autoinc db) (strip s) now (Some (User.id user)) now).
  set (db' := snd (Client_objects_create now (strip s) (Some (User.id user)) db)).
  assert (Hwf' : wf db') by now apply wf_Client_objects_create.
  assert (Hc : In c (client_table db')).
  { simpl. apply in_or_app. right. now left. }
  apply (retrieve_found viewer (Client.id c) data' now' db' c);
    [reflexivity|assumption| |].
  - apply get_object_found; [apply Hwf'|assumption].
  - assert (Hcreator : created_by_user (Client.created_by c) db' = inr (Some user)).
    { apply (created_by_user_found db' user); [apply Hwf'|exact Huser]. }
    assert (Hnone : Client_projects db' c = []).
    { unfold Client_projects. simpl. apply filter_key_absent.
      intros Hin. apply in_map_iff in Hin as (p & Hp & Hin).
      pose proof (wf_project_client db Hwf p Hin) as Hfk.
      apply in_map_iff in Hfk as (x & Hx & Hxin).
      pose proof (wf_client_autoinc db Hwf x Hxin). lia. }
    rewrite (ClientSerializer_to_representation_eq c db' (Some user) []);
      [reflexivity|assumption|now rewrite Hnone].
Qed.

Lemma client_create_then_retrieve_witness :
  (wf db_users /\ In alice (auth_user db_users) /\
   (Anonymous = Anonymous \/ exists u, Anonymous = Authenticated u) /\
   dict_get "client_name" (Request.data post_padded_acme) = Some (JStr " Acme ") /\
   strip " Acme " <> "" /\
   (String.length (strip " Acme ") <= 255)%nat /\
   ~ In zero (list_ascii_of_string (strip " Acme "))) /\
  application (clients_pk 1) (Request.mk GET Anonymous []) 300
    (snd (application clients post_padded_acme 100 db_users))
  = (Responded (Response.mk HTTP_200_OK (Some (JObj
       [("id", JInt 1);
        ("client_name", JStr "Acme");
        ("created_at", JInt 100);
        ("created_by", JStr "alice");
        ("updated_at", JInt 100);
        ("projects", JList [])]))),
     db_acme).
Proof.
  assert (H1 : In alice (auth_user db_users)) by (simpl; tauto).
  assert (H2 : Anonymous = Anonymous \/ exists u, Anonymous = Authenticated u)
    by (left; reflexivity).
  assert (H3 : dict_get "client_name" (Request.data post_padded_acme)
               = Some (JStr " Acme ")) by reflexivity.
  assert (H4 : strip " Acme " <> "") by (vm_compute; discriminate).
  assert (H5 : (String.length (strip " Acme ") <= 255)%nat) by (vm_compute; lia).
  assert (H6 : ~ In zero (list_ascii_of_string (strip " Acme "))).
  { vm_compute. intuition discriminate. }
  split; [exact (conj wf_db_users (conj H1 (conj H2 (conj H3 (conj H4 (conj H5 H6))))))|].
  exact (client_create_then_retrieve alice Anonymous
           (Request.data post_padded_acme) [] 100 300 db_users " Acme "
           wf_db_users H1 H2 H3 H4 H5 H6).
Defined.

(** ** PUT and PATCH /clients/{id}/ *)

Lemma Client_serializer_update_eq (now : Z) (c : Client.t) (v : option string) (db : DB) :
  In c (client_table db) ->
  Client_serializer_update now c v db
  = (inr (updated now c v),
     set_client_table
       (map (fun r => if Client.id r =? Client.id c then updated now c v else r)
            (client_table db))
       db).
Proof.
  intros Hc. unfold Client_serializer_update, Client_save.
  assert (Hex : forall c', Client.id c' = Client.id c ->
            existsb (fun r => Client.id r =? Client.id c') (client_table db) = true).
  { intros c' Hid. apply existsb_exists. exists c. split; [assumption|].
    apply Z.eqb_eq. now symmetry. }
  destruct v as [name|]; cbn [Client.id Client.client_name Client.created_at
                               Client.created_by Client.updated_at];
    rewrite Hex by reflexivity; reflexivity.
Qed.

Lemma update_invalid
    (partial : bool) (pk : Z) (user : User.t) (data : dict) (now : Z) (db : DB)
    (c : Client.t) (errors : list (string * string)) :
  ClientDetailView.get_object pk db = inr c ->
  Client_to_internal_value partial data = inl errors ->
  application (clients_pk pk)
    (Request.mk (if partial then PATCH else PUT) (Authenticated user) data) now db
  = (Responded (Response.mk HTTP_400_BAD_REQUEST (Some (error_body errors))), db).
Proof.
  intros Hget Hinvalid. unfold application, as_view, dispatch.
  destruct partial;
    cbn -[ClientDetailView.get_object Client_to_internal_value];
    rewrite Hget; unfold ClientSerializer.to_internal_value;
    rewrite Hinvalid; reflexivity.
Qed.

Lemma update_valid
    (partial : bool) (pk : Z) (user : User.t) (data : dict) (now : Z) (db db' : DB)
    (c c' : Client.t) (v : option string) (rep : dict) :
  ClientDetailView.get_object pk db = inr c ->
  Client_to_internal_value partial data = inr v ->
  Client_serializer_update now c v db = (inr c', db') ->
  ClientSerializer.to_representation c' db' = inr rep ->
  application (clients_pk pk)
    (Request.mk (if partial then PATCH else PUT) (Authenticated user) data) now db
  = (Responded (Response.mk HTTP_200_OK (Some (JObj rep))), db').
Proof.
  intros Hget Hvalid Hsave Hrep. unfold application, as_view, dispatch.
  destruct partial;
    cbn -[ClientDetailView.get_object Client_to_internal_value
          Client_serializer_update ClientSerializer.to_representation];
    rewrite Hget; unfold ClientSerializer.to_internal_value;
    rewrite Hvalid; unfold ClientDetailView.perform_update;
    cbn -[Client_serializer_update ClientSerializer.to_representation];
    rewrite Hsave, Hrep; reflexivity.
Qed.

(** C6.  An authenticated PUT ([partial = false]) or PATCH
    ([partial = true]) on /clients/{id}/ reads nothing of the body but
    [client_name].  On an existing client [c], a body that fails
    validation is answered 400 and changes nothing; any other body is
    answered 200 and changes one thing, the row of [c], which keeps its
    key, [created_at] and [created_by], takes the validated name when the
    body gave one, and has the clock in [updated_at]; the other tables,
    so the projects of the client, are as they were.  When no client has
    the id the answer is 404 and nothing changes. *)
Theorem client_update_frame
    (partial : bool) (pk : Z) (user : User.t) (data : dict) (now : Z) (db : DB) :
  wf db ->
  let result :=
    application (clients_pk pk)
      (Request.mk (if partial then PATCH else PUT) (Authenticated user) data) now db in
  (forall c, In c (client_table db) -> Client.id c = pk ->
     match Client_to_internal_value partial data with
     | inl errors =>
         result = (Responded (Response.mk HTTP_400_BAD_REQUEST
                                (Some (error_body errors))), db)
     | inr v =>
         (exists rep,
            fst result = Responded (Response.mk HTTP_200_OK (Some (JObj rep))) /\
            dict_keys rep = ClientSerializer.fields /\
            dict_get "id" rep = Some (JInt (Client.id c)) /\
            dict_get "created_at" rep = Some (JInt (Client.created_at c)) /\
            dict_get "updated_at" rep = Some (JInt now)) /\
         snd result
           = set_client_table
               (map (fun r => if Client.id r =? pk then updated now c v else r)
                    (client_table db))
               db /\
         Client_projects (snd result) (updated now c v) = Client_projects db c
     end)
  /\
  (~ In pk (map Client.id (client_table db)) ->
     http_status (fst result) = HTTP_404_NOT_FOUND /\ snd result = db).
Proof.
  intros Hwf result. subst result. split.
  - intros c Hc Hid. subst pk.
    pose proof (get_object_found db c (wf_client_pk db Hwf) Hc) as Hget.
    destruct (Client_to_internal_value partial data) as [errors|v] eqn:Hv.
    + now apply (update_invalid partial (Client.id c) user data now db c).
    + pose proof (Client_serializer_update_eq now c v db Hc) as Hsave.
      set (db' := set_client_table _ db) in Hsave.
      assert (Hwf' : wf db').
      { replace db' with (snd (Client_serializer_update now c v db))
          by now rewrite Hsave.
        unfold Client_serializer_update. apply wf_Client_save; [assumption| |].
        - destruct v; simpl; now apply in_map.
        - intros k Hk. apply (wf_client_created_by db Hwf c); [assumption|].
          now destruct v. }
      destruct (ClientSerializer_total db' (updated now c v) Hwf')
        as (creator & reps & _ & _ & Hrep).
      { intros k Hk. now apply (wf_client_created_by db Hwf c). }
      rewrite (update_valid partial (Client.id c) user data now db db' c
                 (updated now c v) v _ Hget Hv Hsave Hrep).
      split; [|split; reflexivity].
      eexists. split; [reflexivity|]. repeat split.
  - intros Hnot.
    rewrite detail_absent; [split; reflexivity| |now apply get_object_absent].
    destruct partial; discriminate.
Qed.

Lemma client_update_frame_witness :
  wf db_website /\
  (In acme (client_table db_website) /\ Client.id acme = 1) /\
  snd (application (clients_pk 1)
         (Request.mk PATCH (Authenticated bob)
            [("client_name", JStr "Acme Ltd"); ("id", JInt 7);
             ("created_at", JInt 0); ("created_by", JStr "bob");
             ("projects", JList [])])
         300 db_website)
  = mkDB [alice; bob; carol] [Client.mk 1 "Acme Ltd" 100 (Some 1) 300]
         [website] [(1, 2); (1, 3)] 2 2.
Proof.
  assert (Hin : In acme (client_table db_website)) by (simpl; tauto).
  split; [exact wf_db_website|]. split; [split; [exact Hin|reflexivity]|].
  destruct (client_update_frame true 1 bob
              [("client_name", JStr "Acme Ltd"); ("id", JInt 7);
               ("created_at", JInt 0); ("created_by", JStr "bob");
               ("projects", JList [])]
              300 db_website wf_db_website) as [Hfound _].
  destruct (Hfound acme Hin eq_refl) as (_ & Hdb & _).
  exact Hdb.
Defined.

(** ** POST /clients/{id}/projects/ *)

Lemma pk_lookup_total (db : DB) (n : Z) :
  NoDup (map User.id (auth_user db)) ->
  (exists u, In u (auth_user db) /\ User.id u = n /\ pk_lookup n db = inr (Valid u)) \/
  (~ In n (map User.id (auth_user db)) /\
   pk_lookup n db = inr (Invalid "does_not_exist")).
Proof.
  intros Hnd. unfold pk_lookup.
  destruct (in_dec Z.eq_dec n (map User.id (auth_user db))) as [Hin|Hnot].
  - left. apply in_map_key in Hin as (u & Hu & Hid). exists u.
    repeat split; try assumption. subst n.
    now rewrite User_objects_get_found.
  - right. split; [assumption|]. now rewrite User_objects_get_absent.
Qed.

(** Validating one item never raises and never skips, and a validated
    item is a user of the table. *)
Lemma PrimaryKeyRelatedField_total (db : DB) (item : json) :
  NoDup (map User.id (auth_user db)) ->
  (exists u, In u (auth_user db) /\
             PrimaryKeyRelatedField_to_internal_value item db = inr (Valid u)) \/
  (exists code, PrimaryKeyRelatedField_to_internal_value item db = inr (Invalid code)).
Proof.
  intros Hnd.
  assert (Hlookup : forall n,
    (exists u, In u (auth_user db) /\ pk_lookup n db = inr (Valid u)) \/
    (exists code, pk_lookup n db = inr (Invalid code))).
  { intros n. destruct (pk_lookup_total db n Hnd) as [(u & Hu & _ & Hv)|[_ Hv]].
    - left. now exists u.
    - right. eexists. exact Hv. }
  destruct item as [|b|n|s|l|kvs]; simpl;
    try (right; eexists; reflexivity); try apply Hlookup.
  destruct s as [|a s]; [right; eexists; reflexivity|].
  destruct (int_of_str (String a s)); [apply Hlookup|right; eexists; reflexivity].
Qed.

Lemma run_child_relation_total (db : DB) (items : list json) :
  NoDup (map User.id (auth_user db)) ->
  (exists us, Forall (fun u => In u (auth_user db)) us /\
              run_child_relation items db = inr (Valid us)) \/
  (exists code, run_child_relation items db = inr (Invalid code)).
Proof.
  intros Hnd. induction items as [|item items IH].
  - left. exists []. split; [constructor|reflexivity].
  - cbn -[PrimaryKeyRelatedField_to_internal_value].
    destruct (PrimaryKeyRelatedField_total db item Hnd) as [(u & Hu & ->)|(code & ->)].
    + fold run_child_relation.
      destruct IH as [(us & Hus & ->)|(code & ->)].
      * left. exists (u :: us). split; [now constructor|reflexivity].
      * right. now exists code.
    + right. now exists code.
Qed.

Lemma run_child_relation_invalid (db : DB) (items : list json) (item : json)
    (code : string) :
  NoDup (map User.id (auth_user db)) ->
  In item items ->
  PrimaryKeyRelatedField_to_internal_value item db = inr (Invalid code) ->
  exists code', run_child_relation items db = inr (Invalid code').
Proof.
  intros Hnd Hin Hitem. induction items as [|x items IH]; [contradiction|].
  cbn -[PrimaryKeyRelatedField_to_internal_value].
  destruct Hin as [->|Hin].
  - rewrite Hitem. now exists code.
  - destruct (PrimaryKeyRelatedField_total db x Hnd) as [(u & _ & ->)|(c & ->)].
    + fold run_child_relation. destruct (IH Hin) as (code' & ->). now exists code'.
    + now exists c.
Qed.

Lemma project_create_invalid
    (pk : Z) (user : User.t) (data : dict) (now : Z) (db : DB)
    (errors : list (string * string)) :
  ProjectCreateSerializer.to_internal_value false data db = inr (inl errors) ->
  application (clients_pk_projects pk) (Request.mk POST (Authenticated user) data) now db
  = (Responded (Response.mk HTTP_400_BAD_REQUEST (Some (error_body errors))), db).
Proof.
  intros Hinvalid. unfold application, as_view, dispatch.
  cbn -[ProjectCreateSerializer.to_internal_value].
  rewrite Hinvalid. reflexivity.
Qed.

(** C4.  An authenticated POST /clients/{id}/projects/ whose [users] list
    holds a number that is the key of no user is answered 400, with an
    error under [users], and leaves the database as it was: no project
    row and no junction row is written. *)
Theorem project_create_unknown_user
    (pk : Z) (user : User.t) (data : dict) (items : list json) (n : Z)
    (now : Z) (db : DB) :
  NoDup (map User.id (auth_user db)) ->
  dict_get "users" data = Some (JList items) ->
  In (JInt n) items ->
  ~ In n (map User.id (auth_user db)) ->
  exists errors,
    application (clients_pk_projects pk)
      (Request.mk POST (Authenticated user) data) now db
    = (Responded (Response.mk HTTP_400_BAD_REQUEST (Some (error_body errors))), db) /\
    In "users" (map fst errors).
Proof.
  intros Hnd Husers Hin Hunknown.
  assert (Hitem : PrimaryKeyRelatedField_to_internal_value (JInt n) db
                  = inr (Invalid "does_not_exist")).
  { simpl. now destruct (pk_lookup_total db n Hnd) as [(u & Hu & <- & _)|[_ ->]];
      [exfalso; apply Hunknown; apply in_map|]. }
  destruct (run_child_relation_invalid db items (JInt n) _ Hnd Hin Hitem)
    as (code & Hcode).
  exists (field_errors "project_name"
            (CharField_run_validation 255 false (dict_get "project_name" data))
          ++ [("users", code)]).
  split.
  - apply project_create_invalid.
    unfold ProjectCreateSerializer.to_internal_value.
    rewrite Husers. cbn -[CharField_run_validation run_child_relation].
    rewrite Hcode.
    destruct (field_errors "project_name" _) as [|e es]; reflexivity.
  - rewrite map_app. apply in_or_app. right. now left.
Qed.

Lemma project_create_unknown_user_witness :
  (NoDup (map User.id (auth_user db_acme)) /\
   dict_get "users" (Request.data post_website_unknown_user)
     = Some (JList [JInt 2; JInt 9]) /\
   In (JInt 9) [JInt 2; JInt 9] /\
   ~ In 9 (map User.id (auth_user db_acme))) /\
  exists errors,
    application (clients_pk_projects 1) post_website_unknown_user 200 db_acme
    = (Responded (Response.mk HTTP_400_BAD_REQUEST (Some (error_body errors))),
       db_acme) /\
    In "users" (map fst errors).
Proof.
  assert (H1 : NoDup (map User.id (auth_user db_acme))) by concrete_nodup.
  assert (H2 : dict_get "users" (Request.data post_website_unknown_user)
               = Some (JList [JInt 2; JInt 9])) by reflexivity.
  assert (H3 : In (JInt 9) [JInt 2; JInt 9]) by (simpl; tauto).
  assert (H4 : ~ In 9 (map User.id (auth_user db_acme))).
  { simpl. intuition discriminate. }
  split; [exact (conj H1 (conj H2 (conj H3 H4)))|].
  exact (project_create_unknown_user 1 alice
           (Request.data post_website_unknown_user) [JInt 2; JInt 9] 9 200 db_acme
           H1 H2 H3 H4).
Defined.

Lemma ProjectCreateSerializer_save_total
    (now : Z) (v : ProjectCreateSerializer.validated_data) (client : Client.t)
    (user : User.t) (db : DB) :
  exists p db', ProjectCreateSerializer.save now v client user db = (inr p, db').
Proof.
  unfold ProjectCreateSerializer.save. destruct v as [name [us|]];
    cbn; eexists; eexists; reflexivity.
Qed.

(** What [CreateModelMixin.create] hands back to [ProjectCreateView.create]
    has the two names of [ProjectCreateSerializer.Meta.fields]; [id] is
    not among them. *)
Lemma ProjectCreateSerializer_data_has_no_id (p : Project.t) (db : DB) :
  exists rep,
    ProjectCreateSerializer.to_representation p db = inr rep /\
    dict_keys rep = ProjectCreateSerializer.fields /\
    dict_get "id" rep = None.
Proof. eexists. split; [reflexivity|split; reflexivity]. Qed.

(** Whenever the body is valid and the client exists, the project is
    written and the view then raises [KeyError]. *)
Lemma project_create_valid_raises
    (pk : Z) (user : User.t) (data : dict) (now : Z) (db : DB)
    (v : ProjectCreateSerializer.validated_data) (client : Client.t) :
  ProjectCreateSerializer.to_internal_value false data db = inr (inr v) ->
  Client_objects_get pk db = inr client ->
  application (clients_pk_projects pk) (Request.mk POST (Authenticated user) data) now db
  = (ServerError (KeyError "id"),
     snd (ProjectCreateSerializer.save now v client user db)).
Proof.
  intros Hvalid Hclient.
  destruct (ProjectCreateSerializer_save_total now v client user db)
    as (p & db' & Hsave).
  unfold application, as_view, dispatch.
  cbn -[ProjectCreateSerializer.to_internal_value Client_objects_get
        ProjectCreateSerializer.save].
  rewrite Hvalid.
  cbn -[Client_objects_get ProjectCreateSerializer.save].
  rewrite Hclient, Hsave. reflexivity.
Qed.

(** Whenever the body is valid and no client has the id, the view raises
    [Client.DoesNotExist]; nothing is written. *)
Lemma project_create_absent_client_raises
    (pk : Z) (user : User.t) (data : dict) (now : Z) (db : DB)
    (v : ProjectCreateSerializer.validated_data) :
  ProjectCreateSerializer.to_internal_value false data db = inr (inr v) ->
  ~ In pk (map Client.id (client_table db)) ->
  application (clients_pk_projects pk) (Request.mk POST (Authenticated user) data) now db
  = (ServerError (DoesNotExist "Client"), db).
Proof.
  intros Hvalid Habsent.
  unfold application, as_view, dispatch.
  cbn -[ProjectCreateSerializer.to_internal_value Client_objects_get
        ProjectCreateSerializer.save].
  rewrite Hvalid.
  cbn -[Client_objects_get ProjectCreateSerializer.save].
  now rewrite Client_objects_get_absent.
Qed.

(** C1, at the scenario of the specification: alice posts the project
    Website with users 2 and 3 under Acme.  The project and its two
    junction rows are written, and then [response.data['id']] raises
    [KeyError]: the client gets a server error, not the 201 with the
    detail representation. *)
Theorem project_create_scenario_raises_KeyError :
  application (clients_pk_projects 1) post_website 200 db_acme
    = (ServerError (KeyError "id"), db_website) /\
  http_status (fst (application (clients_pk_projects 1) post_website 200 db_acme))
    = HTTP_500_INTERNAL_SERVER_ERROR.
Proof. split; reflexivity. Qed.

(** C2, at a concrete request: the same body posted under the id of no
    client.  [Client.objects.get] raises [DoesNotExist], which no handler
    turns into a 404: the client gets a server error. *)
Theorem project_create_absent_client_scenario :
  ~ In 7 (map Client.id (client_table db_acme)) /\
  application (clients_pk_projects 7) post_website 200 db_acme
    = (ServerError (DoesNotExist "Client"), db_acme) /\
  http_status (fst (application (clients_pk_projects 7) post_website 200 db_acme))
    <> HTTP_404_NOT_FOUND.
Proof.
  split; [simpl; intuition discriminate|].
  split; [reflexivity|discriminate].
Qed.

(** *** The view has no successful path *)

Lemma get_one_raises {A : Type} (model : string) (rows : list A) (e : exn) :
  get_one model rows = inl e ->
  e = DoesNotExist model \/ e = MultipleObjectsReturned model.
Proof.
  destruct rows as [|a [|b rows]]; simpl; intros H; inversion H; auto.
Qed.

Lemma pk_lookup_raises (n : Z) (db : DB) (e : exn) :
  pk_lookup n db = inl e -> e = MultipleObjectsReturned "User".
Proof.
  unfold pk_lookup. destruct (User_objects_get n db) as [e'|u] eqn:Hget;
    [|discriminate].
  apply get_one_raises in Hget as [-> | ->]; [discriminate|].
  intros H. now inversion H.
Qed.

Lemma PrimaryKeyRelatedField_raises (item : json) (db : DB) (e : exn) :
  PrimaryKeyRelatedField_to_internal_value item db = inl e ->
  e = MultipleObjectsReturned "User".
Proof.
  destruct item as [|b|n|s|l|kvs]; simpl; try discriminate;
    try apply pk_lookup_raises.
  destruct s as [|a s]; [discriminate|].
  destruct (int_of_str (String a s)); [apply pk_lookup_raises|discriminate].
Qed.

Lemma run_child_relation_raises (items : list json) (db : DB) (e : exn) :
  run_child_relation items db = inl e -> e = MultipleObjectsReturned "User".
Proof.
  induction items as [|item items IH]; [discriminate|].
  cbn -[PrimaryKeyRelatedField_to_internal_value].
  destruct (PrimaryKeyRelatedField_to_internal_value item db) as [e'|r] eqn:Hitem.
  - intros H. inversion H; subst. now apply (PrimaryKeyRelatedField_raises item db).
  - destruct r as [|u|code]; try discriminate.
    fold run_child_relation.
    destruct (run_child_relation items db) as [e'|rs]; [|destruct rs; discriminate].
    intros H. inversion H; subst. now apply IH.
Qed.

Lemma ProjectCreateSerializer_raises (data : dict) (db : DB) (e : exn) :
  ProjectCreateSerializer.to_internal_value false data db = inl e ->
  e = MultipleObjectsReturned "User".
Proof.
  unfold ProjectCreateSerializer.to_internal_value, ManyRelatedField_run_validation.
  cbn -[CharField_run_validation run_child_relation].
  destruct (dict_get "users" data) as [[|b|n|s|l|kvs]|];
    cbn -[CharField_run_validation run_child_relation];
    try (destruct (field_errors "project_name" _ ++ _); discriminate).
  - destruct (run_child_relation l db) as [e'|r] eqn:Hrun.
    + intros H. inversion H; subst. now apply (run_child_relation_raises l db).
    + destruct (field_errors "project_name" _ ++ _); discriminate.
  - destruct (run_child_relation _ db) as [e'|r] eqn:Hrun.
    + intros H. inversion H; subst. revert Hrun. apply run_child_relation_raises.
    + destruct (field_errors "project_name" _ ++ _); discriminate.
Qed.

(** Whatever the request, POST /clients/{id}/projects/ is answered 400,
    401, 403 or with a server error: never 201 and never 404. *)
Theorem project_create_statuses
    (pk : Z) (a : Auth) (data : dict) (now : Z) (db : DB) :
  let status :=
    http_status (fst (application (clients_pk_projects pk)
                        (Request.mk POST a data) now db)) in
  status = HTTP_400_BAD_REQUEST \/ status = HTTP_401_UNAUTHORIZED \/
  status = HTTP_403_FORBIDDEN \/ status = HTTP_500_INTERNAL_SERVER_ERROR.
Proof.
  intros status. subst status.
  destruct a as [|user|];
    [right; right; left; reflexivity| |right; right; left; reflexivity].
  destruct (ProjectCreateSerializer.to_internal_value false data db)
    as [e|[errors|v]] eqn:Hv.
  - apply ProjectCreateSerializer_raises in Hv as He. subst e.
    right. right. right. unfold application, as_view, dispatch.
    cbn -[ProjectCreateSerializer.to_internal_value]. rewrite Hv. reflexivity.
  - left. now rewrite (project_create_invalid pk user data now db errors).
  - right. right. right.
    destruct (Client_objects_get pk db) as [e|client] eqn:Hclient.
    + unfold application, as_view, dispatch.
      cbn -[ProjectCreateSerializer.to_internal_value Client_objects_get].
      rewrite Hv. cbn -[Client_objects_get]. rewrite Hclient.
      apply get_one_raises in Hclient as [-> | ->]; reflexivity.
    + now rewrite (project_create_valid_raises pk user data now db v client).
Qed.

(** ** The constraints are an invariant of the application *)

Lemma hoare_ret {A : Type} (P : DB -> Prop) (a : A)
    (Qn : A -> DB -> Prop) (Qe : DB -> Prop) :
  (forall db, P db -> Qn a db) -> hoare P (ret a) Qn Qe.
Proof. intros H db HP. simpl. now apply H. Qed.

Lemma hoare_raise {A : Type} (P : DB -> Prop) (e : exn)
    (Qn : A -> DB -> Prop) (Qe : DB -> Prop) :
  (forall db, P db -> Qe db) -> hoare P (raise e) Qn Qe.
Proof. intros H db HP. simpl. now apply H. Qed.

Lemma hoare_liftQ {A : Type} (P : DB -> Prop) (c : Q A)
    (Qn : A -> DB -> Prop) (Qe : DB -> Prop) :
  (forall db, P db -> Qe db) ->
  (forall db a, P db -> c db = inr a -> Qn a db) ->
  hoare P (liftQ c) Qn Qe.
Proof.
  intros He Hn db HP. unfold liftQ. destruct (c db) as [e|a] eqn:Hc.
  - now apply He.
  - now apply Hn.
Qed.

Lemma hoare_bind {A B : Type} (Qm : A -> DB -> Prop) (P : DB -> Prop)
    (c : M A) (k : A -> M B) (Qn : B -> DB -> Prop) (Qe : DB -> Prop) :
  hoare P c Qm Qe ->
  (forall a, hoare (Qm a) (k a) Qn Qe) ->
  hoare P (x <- c ;; k x) Qn Qe.
Proof.
  intros Hc Hk db HP. specialize (Hc db HP). simpl.
  destruct (c db) as [[e|a] db']; [exact Hc|].
  exact (Hk a db' Hc).
Qed.

Lemma hoare_is_valid {V : Type} (P : DB -> Prop)
    (r : list (string * string) + V) (Qn : V -> DB -> Prop) (Qe : DB -> Prop) :
  (forall db, P db -> Qe db) ->
  (forall db v, P db -> r = inr v -> Qn v db) ->
  hoare P (is_valid r) Qn Qe.
Proof.
  intros He Hn db HP. destruct r as [errors|v]; simpl.
  - now apply He.
  - now apply Hn.
Qed.

Lemma NoDup_map_pair (a : Z) (l : list Z) :
  NoDup l -> NoDup (map (fun u => (a, u)) l).
Proof.
  induction 1 as [|x l Hfresh Hnd IH]; simpl; constructor; [|assumption].
  intros Hin. apply in_map_iff in Hin as (y & Hy & Hin). now inversion Hy; subst.
Qed.

Lemma insert_key_Permutation (x : Z) (l : list Z) :
  Permutation (insert_key x l) (x :: l).
Proof.
  induction l as [|y l IH]; simpl; [reflexivity|].
  destruct (x <=? y); [reflexivity|].
  rewrite IH. apply perm_swap.
Qed.

(** [key_set l] has the keys of [l], each once. *)
Lemma key_set_Permutation (l : list Z) :
  Permutation (key_set l) (nodup Z.eq_dec l).
Proof.
  unfold key_set. induction (nodup Z.eq_dec l) as [|x l' IH]; simpl; [reflexivity|].
  rewrite insert_key_Permutation. now constructor.
Qed.

Lemma key_set_In (x : Z) (l : list Z) : In x (key_set l) <-> In x l.
Proof.
  rewrite <- (nodup_In Z.eq_dec l x). split; apply Permutation_in.
  - apply key_set_Permutation.
  - symmetry. apply key_set_Permutation.
Qed.

Lemma key_set_NoDup (l : list Z) : NoDup (key_set l).
Proof.
  apply (Permutation_NoDup (l := nodup Z.eq_dec l)).
  - symmetry. apply key_set_Permutation.
  - apply NoDup_nodup.
Qed.

Lemma wf_Project_users_set (p : Project.t) (objs : list User.t) (db : DB) :
  wf db -> In p (project_table db) ->
  Forall (fun u => In u (auth_user db)) objs ->
  wf (snd (Project_users_set p objs db)).
Proof.
  intros Hwf Hp Hobjs. unfold Project_users_set. cbn [snd].
  set (ids := key_set (map User.id objs)).
  set (mine := fun r : Z * Z => fst r =? Project.id p).
  set (kept := filter _ (project_users db)).
  set (old_ids := map snd (filter mine kept)).
  assert (Hkept : forall r, In r kept -> In r (project_users db)).
  { intros r Hr. unfold kept in Hr. now apply filter_In in Hr. }
  destruct Hwf. constructor; simpl; try assumption.
  - apply NoDup_app.
    + unfold kept. now apply NoDup_filter.
    + apply NoDup_map_pair. apply NoDup_filter. apply key_set_NoDup.
    + intros r Hr Hadded. apply in_map_iff in Hadded as (u & <- & Hu).
      apply filter_In in Hu as [_ Hnew]. apply negb_true_iff in Hnew.
      assert (Hold : existsb (Z.eqb u) old_ids = true); [|congruence].
      apply existsb_exists. exists u. split; [|apply Z.eqb_refl].
      unfold old_ids. change u with (snd (Project.id p, u)). apply in_map.
      apply filter_In. split; [assumption|]. unfold mine. apply Z.eqb_refl.
  - intros r Hr. apply in_app_or in Hr as [Hr|Hr].
    + apply wf_junction_fk0. now apply Hkept.
    + apply in_map_iff in Hr as (u & <- & Hu). simpl. split.
      * now apply in_map.
      * apply filter_In in Hu as [Hu _]. unfold ids in Hu.
        rewrite key_set_In in Hu. apply in_map_iff in Hu as (obj & <- & Hobj).
        apply in_map. rewrite Forall_forall in Hobjs. now apply Hobjs.
Qed.

Lemma wf_Project_objects_create
    (now : Z) (name : string) (client : Client.t) (u : User.t) (db : DB) :
  wf db -> In client (client_table db) -> In u (auth_user db) ->
  wf (snd (Project_objects_create now name client (Some (User.id u)) db)).
Proof.
  intros Hwf Hclient Hu. destruct Hwf. constructor; simpl; try assumption.
  - apply NoDup_map_snoc; [assumption|]. now apply fresh_below.
  - intros p Hp. apply in_app_or in Hp as [Hp|[<-|[]]]; simpl.
    + specialize (wf_project_autoinc0 p Hp). lia.
    + lia.
  - intros p Hp. apply in_app_or in Hp as [Hp|[<-|[]]].
    + now apply wf_project_client0.
    + simpl. now apply in_map.
  - intros p pk Hp Hpk. apply in_app_or in Hp as [Hp|[<-|[]]].
    + now apply (wf_project_created_by0 p).
    + simpl in Hpk. injection Hpk as <-. now apply in_map.
  - intros r Hr. destruct (wf_junction_fk0 r Hr) as [Hproject Huser].
    split; [|assumption]. rewrite map_app. apply in_or_app. now left.
Qed.

Lemma wf_ProjectCreateSerializer_save
    (now : Z) (v : ProjectCreateSerializer.validated_data) (client : Client.t)
    (u : User.t) (db : DB) :
  wf db -> In client (client_table db) -> In u (auth_user db) ->
  (forall us, ProjectCreateSerializer.users v = Some us ->
              Forall (fun x => In x (auth_user db)) us) ->
  wf (snd (ProjectCreateSerializer.save now v client u db)) /\
  auth_user (snd (ProjectCreateSerializer.save now v client u db)) = auth_user db.
Proof.
  intros Hwf Hclient Hu Hus. unfold ProjectCreateSerializer.save.
  set (name := match ProjectCreateSerializer.project_name v with
               | Some s => s | None => "" end).
  pose proof (wf_Project_objects_create now name client u db Hwf Hclient Hu) as Hwf1.
  destruct (ProjectCreateSerializer.users v) as [us|]; cbn -[Project_users_set].
  - split; [|reflexivity].
    apply wf_Project_users_set; [exact Hwf1| |now apply Hus].
    simpl. apply in_or_app. right. now left.
  - split; [exact Hwf1|reflexivity].
Qed.

Lemma get_one_In {A : Type} (model : string) (f : A -> bool) (rows : list A) (a : A) :
  get_one model (filter f rows) = inr a -> In a rows.
Proof.
  intros Hget.
  assert (Hin : In a (filter f rows)).
  { destruct (filter f rows) as [|x [|y l]]; try discriminate.
    inversion Hget. now left. }
  now apply filter_In in Hin.
Qed.

Lemma get_object_In (pk : Z) (db : DB) (c : Client.t) :
  ClientDetailView.get_object pk db = inr c -> In c (client_table db).
Proof.
  unfold ClientDetailView.get_object, get_object_or_404.
  destruct (Client_objects_get pk db) as [e|c'] eqn:Hget.
  - destruct e; discriminate.
  - intros H. inversion H; subst. unfold Client_objects_get in Hget.
    now apply get_one_In in Hget.
Qed.

Lemma validated_users_known (data : dict) (db : DB)
    (v : ProjectCreateSerializer.validated_data) (us : list User.t) :
  NoDup (map User.id (auth_user db)) ->
  ProjectCreateSerializer.to_internal_value false data db = inr (inr v) ->
  ProjectCreateSerializer.users v = Some us ->
  Forall (fun u => In u (auth_user db)) us.
Proof.
  intros Hnd. unfold ProjectCreateSerializer.to_internal_value.
  cbn -[CharField_run_validation ManyRelatedField_run_validation].
  destruct (ManyRelatedField_run_validation false (dict_get "users" data) db)
    as [e|r] eqn:Hmany; [discriminate|].
  destruct (field_errors "project_name" _ ++ field_errors "users" r);
    [|discriminate].
  intros Hv Hus. inversion Hv; subst v. simpl in Hus.
  destruct r as [|us'|code]; try discriminate. simpl in Hus. inversion Hus; subst us'.
  unfold ManyRelatedField_run_validation in Hmany.
  assert (Hrun : forall items, run_child_relation items db = inr (Valid us) ->
                               Forall (fun u => In u (auth_user db)) us).
  { intros items Hitems.
    destruct (run_child_relation_total db items Hnd) as [(us' & Hall & Heq)|(c & Heq)];
      rewrite Heq in Hitems; inversion Hitems; now subst. }
  destruct (dict_get "users" data) as [[|b|n|s|l|kvs]|]; try discriminate;
    now apply Hrun in Hmany.
Qed.

Section Invariant.
Variable users : list User.t.

Local Abbreviation I := (inv users).

Ltac read_step :=
  apply (hoare_bind (fun _ => I)); [apply hoare_liftQ; auto|intros ?].

Lemma list_inv {T : Type} (q : Q (list T)) (r : T -> Q dict) :
  hoare I (ListModelMixin_list q r) (fun _ => I) I.
Proof.
  unfold ListModelMixin_list. do 2 read_step. now apply hoare_ret.
Qed.

Lemma retrieve_inv {T : Type} (q : Q T) (r : T -> Q dict) :
  hoare I (RetrieveModelMixin_retrieve q r) (fun _ => I) I.
Proof.
  unfold RetrieveModelMixin_retrieve. do 2 read_step. now apply hoare_ret.
Qed.

Lemma client_create_inv (request : Request.t) (now : Z) :
  (forall u, Request.user request = Some u -> In u users) ->
  hoare I (ClientListCreateView.create request now) (fun _ => I) I.
Proof.
  intros Hknown. unfold ClientListCreateView.create, CreateModelMixin_create.
  read_step.
  apply (hoare_bind (fun _ => I)); [apply hoare_is_valid; auto|intros v].
  apply (hoare_bind (fun _ => I)); [|intros c; read_step; now apply hoare_ret].
  unfold ClientListCreateView.perform_create.
  destruct (Request.user request) as [u|]; [|now apply hoare_raise].
  intros db [Hwf Husers]. unfold Client_serializer_create. split.
  - apply wf_Client_objects_create; [assumption|].
    rewrite Husers. now apply Hknown.
  - exact Husers.
Qed.

Lemma client_update_inv (partial : bool) (pk : Z) (request : Request.t) (now : Z) :
  hoare I (ClientDetailView.update partial pk request now) (fun _ => I) I.
Proof.
  unfold ClientDetailView.update, UpdateModelMixin_update.
  apply (hoare_bind (fun c db => In c (client_table db) /\ I db)).
  { apply hoare_liftQ; [auto|]. intros db c HI Hget. split; [|assumption].
    now apply (get_object_In pk). }
  intros c.
  apply (hoare_bind (fun _ db => In c (client_table db) /\ I db)).
  { apply hoare_liftQ; [now intros db [_ HI]|auto]. }
  intros r.
  apply (hoare_bind (fun _ db => In c (client_table db) /\ I db)).
  { apply hoare_is_valid; [now intros db [_ HI]|auto]. }
  intros v.
  apply (hoare_bind (fun _ => I)); [|intros c'; read_step; now apply hoare_ret].
  unfold ClientDetailView.perform_update, Client_serializer_update.
  intros db [Hc [Hwf Husers]].
  pose proof (wf_Client_save now
                (match v with
                 | Some name =>
                     Client.mk (Client.id c) name (Client.created_at c)
                               (Client.created_by c) (Client.updated_at c)
                 | None => c
                 end) db Hwf) as Hsave.
  destruct (Client_save now _ db) as [[e|c'] db'] eqn:Hrun;
    (assert (Hdb' : wf db' /\ auth_user db' = users);
     [|exact Hdb']);
    (split;
     [apply Hsave;
      [destruct v; simpl; now apply in_map
      |intros k Hk; apply (wf_client_created_by db Hwf c); [assumption|now destruct v]]
     |unfold Client_save in Hrun; inversion Hrun;
      destruct (existsb _ (client_table db)); exact Husers]).
Qed.

Lemma client_destroy_inv (pk : Z) (request : Request.t) (now : Z) :
  hoare I (ClientDetailView.destroy pk request now) (fun _ => I) I.
Proof.
  unfold ClientDetailView.destroy. read_step.
  apply (hoare_bind (fun _ => I)); [|intros []; now apply hoare_ret].
  unfold ClientDetailView.perform_destroy.
  intros db [Hwf Husers]. split; [now apply wf_Client_delete|exact Husers].
Qed.

Lemma project_create_inv (pk : Z) (request : Request.t) (now : Z) :
  (forall u, Request.user request = Some u -> In u users) ->
  hoare I (ProjectCreateView.create pk request now) (fun _ => I) I.
Proof.
  intros Hknown. unfold ProjectCreateView.create.
  apply (hoare_bind (fun _ => I));
    [|intros response;
      apply (hoare_bind (fun _ => I));
      [unfold subscript;
       destruct (Response.data response) as [[| | | | |d]|];
       try (now apply hoare_raise);
       destruct (dict_get "id" d); [now apply hoare_ret|now apply hoare_raise]
      |intros id; do 2 read_step; now apply hoare_ret]].
  unfold ProjectCreateView.super_create, CreateModelMixin_create.
  apply (hoare_bind
           (fun r db => ProjectCreateSerializer.to_internal_value false
                          (Request.data request) db = inr r /\ I db)).
  { apply hoare_liftQ; auto. }
  intros r.
  apply (hoare_bind
           (fun v db => ProjectCreateSerializer.to_internal_value false
                          (Request.data request) db = inr (inr v) /\ I db)).
  { apply hoare_is_valid; [now intros db [_ HI]|].
    intros db v [Hr HI] ->. now split. }
  intros v.
  apply (hoare_bind (fun _ => I)); [|intros p; read_step; now apply hoare_ret].
  unfold ProjectCreateView.perform_create.
  apply (hoare_bind
           (fun client db =>
              In client (client_table db) /\
              ProjectCreateSerializer.to_internal_value false
                (Request.data request) db = inr (inr v) /\ I db)).
  { apply hoare_liftQ; [now intros db [_ HI]|].
    intros db client [Hv HI] Hget. split; [|now split].
    unfold Client_objects_get in Hget. now apply get_one_In in Hget. }
  intros client.
  destruct (Request.user request) as [u|] eqn:Huser;
    [|apply hoare_raise; now intros db (_ & _ & HI)].
  intros db (Hclient & Hv & Hwf & Husers).
  destruct (wf_ProjectCreateSerializer_save now v client u db Hwf Hclient)
    as [Hwf' Husers'].
  { rewrite Husers. now apply Hknown. }
  { intros us Hus. apply (validated_users_known (Request.data request) db v us);
      [apply Hwf|assumption|assumption]. }
  destruct (ProjectCreateSerializer_save_total now v client u db)
    as (p & db' & Hsave).
  rewrite Hsave in *. simpl in *. split; [assumption|congruence].
Qed.

Lemma initial_inv (view : APIView) (request : Request.t) :
  hoare I (initial view request) (fun _ => I) I.
Proof.
  unfold initial. destruct (Request.auth request);
    try (now apply hoare_raise);
    destruct (forallb _ _); (now apply hoare_ret) || (now apply hoare_raise).
Qed.

Lemma dispatch_inv (path : Path) (request : Request.t) (now : Z) :
  (forall u, Request.user request = Some u -> In u users) ->
  hoare I (dispatch (urlpatterns path) request now) (fun _ => I) I.
Proof.
  intros Hknown. unfold dispatch.
  apply (hoare_bind (fun _ => I)); [apply initial_inv|intros _].
  destruct path as [|pk|pk|], (Request.method request); simpl;
    try (now apply hoare_raise).
  - apply list_inv.
  - now apply client_create_inv.
  - apply retrieve_inv.
  - apply client_update_inv.
  - apply client_update_inv.
  - apply client_destroy_inv.
  - now apply project_create_inv.
  - apply list_inv.
Qed.

End Invariant.

(** Every request leaves the constraints in place and the users as they
    were, whatever the answer. *)
Theorem application_preserves_wf
    (path : Path) (request : Request.t) (now : Z) (db : DB) :
  wf db -> known_user request db ->
  wf (snd (application path request now db)) /\
  auth_user (snd (application path request now db)) = auth_user db.
Proof.
  intros Hwf Hknown.
  assert (Hu : forall u, Request.user request = Some u -> In u (auth_user db)).
  { intros u. unfold Request.user, known_user in *.
    destruct (Request.auth request); try discriminate.
    intros H. now inversion H; subst. }
  pose proof (dispatch_inv (auth_user db) path request now Hu db (conj Hwf eq_refl))
    as Hinv.
  unfold application, as_view.
  destruct (dispatch (urlpatterns path) request now db) as [[e|r] db'];
    [destruct (handle_exception e)|]; exact Hinv.
Qed.

(** * Further properties of the views *)

(** ** Reads *)

Lemma list_readonly {T : Type} (q : Q (list T)) (r : T -> Q dict) (db : DB) :
  snd (ListModelMixin_list q r db) = db.
Proof.
  unfold ListModelMixin_list. cbn -[mapQ]. unfold liftQ.
  destruct (q db) as [e|rows]; [reflexivity|].
  destruct (mapQ r rows db); reflexivity.
Qed.

Lemma retrieve_readonly {T : Type} (q : Q T) (r : T -> Q dict) (db : DB) :
  snd (RetrieveModelMixin_retrieve q r db) = db.
Proof.
  unfold RetrieveModelMixin_retrieve. cbn. unfold liftQ.
  destruct (q db) as [e|row]; [reflexivity|].
  destruct (r row db); reflexivity.
Qed.

Lemma as_view_snd (view : APIView) (request : Request.t) (now : Z) (db : DB) :
  snd (as_view view request now db) = snd (dispatch view request now db).
Proof.
  unfold as_view.
  destruct (dispatch view request now db) as [[e|r] db']; [|reflexivity].
  destruct (handle_exception e); reflexivity.
Qed.

(** A GET, on any of the four paths and from any caller, leaves the
    database as it found it. *)
Theorem get_is_safe (path : Path) (a : Auth) (data : dict) (now : Z) (db : DB) :
  snd (application path (Request.mk GET a data) now db) = db.
Proof.
  unfold application. rewrite as_view_snd. unfold dispatch.
  destruct path as [|pk|pk|], a as [|u|]; try reflexivity;
    cbn -[ListModelMixin_list RetrieveModelMixin_retrieve];
    first [apply list_readonly | apply retrieve_readonly].
Qed.

(** ** Methods a view does not have *)

(** A method for which the view class has no handler is answered 405 to a
    caller that passes the permission check, and nothing is written. *)
Theorem unsupported_method_405
    (path : Path) (m : Method) (user : User.t) (data : dict) (now : Z) (db : DB) :
  handler_of (urlpatterns path) m = None ->
  application path (Request.mk m (Authenticated user) data) now db
  = (Responded (Response.mk HTTP_405_METHOD_NOT_ALLOWED
                  (Some (JObj [("detail", JStr "method_not_allowed")]))), db).
Proof.
  destruct path, m; simpl; intros H; try discriminate H; reflexivity.
Qed.

Lemma unsupported_method_405_witness :
  handler_of (urlpatterns clients) DELETE = None /\
  application clients (Request.mk DELETE (Authenticated bob) []) 300 db_website
  = (Responded (Response.mk HTTP_405_METHOD_NOT_ALLOWED
                  (Some (JObj [("detail", JStr "method_not_allowed")]))), db_website).
Proof.
  split; [reflexivity|].
  apply (unsupported_method_405 clients DELETE bob [] 300 db_website). reflexivity.
Defined.

(** ** Who the caller is *)

(** On /clients/{id}/ the answer and the database left do not depend on
    which user is authenticated: whoever may update or delete one client
    may update or delete every client, also one created by another
    user. *)
Theorem detail_ignores_caller
    (pk : Z) (m : Method) (u1 u2 : User.t) (data : dict) (now : Z) (db : DB) :
  application (clients_pk pk) (Request.mk m (Authenticated u1) data) now db
  = application (clients_pk pk) (Request.mk m (Authenticated u2) data) now db.
Proof. destruct m; reflexivity. Qed.

(** ** GET /clients/ and GET /clients/{id}/ *)

Lemma mapQ_Forall2 {A B : Type} (f : A -> Q B) (l : list A) (db : DB) (bs : list B) :
  mapQ f l db = inr bs -> Forall2 (fun a b => f a db = inr b) l bs.
Proof.
  revert bs. induction l as [|a l IH]; simpl; intros bs H.
  - inversion H. constructor.
  - destruct (f a db) as [e|b] eqn:Hb; [discriminate|].
    fold (mapQ f l) in H.
    destruct (mapQ f l db) as [e|bs'] eqn:Hbs; [discriminate|].
    inversion H; subst. constructor; [assumption|now apply IH].
Qed.

Lemma ClientListSerializer_to_representation_eq
    (c : Client.t) (db : DB) (creator : option User.t) :
  created_by_user (Client.created_by c) db = inr creator ->
  ClientListSerializer.to_representation c db =
  inr [("id", JInt (Client.id c));
       ("client_name", JStr (Client.client_name c));
       ("created_at", JInt (Client.created_at c));
       ("created_by",
        match creator with Some u => JStr (User.username u) | None => JNull end)].
Proof.
  intros Hu.
  unfold ClientListSerializer.to_representation, Serializer_to_representation,
    ClientListSerializer.fields.
  cbn. rewrite Hu. destruct creator; reflexivity.
Qed.

(** GET /clients/ is open to anonymous callers: it answers 200 with one
    compact record per client, in the order of the table, made of the
    key, the name, the creation instant and the creator's username (null
    when the client has no creator). *)
Theorem client_list_compact
    (a : Auth) (data : dict) (now : Z) (db : DB) :
  wf db ->
  a = Anonymous \/ (exists u, a = Authenticated u) ->
  exists reps,
    application clients (Request.mk GET a data) now db
    = (Responded (Response.mk HTTP_200_OK (Some (JList (map JObj reps)))), db) /\
    Forall2
      (fun c rep =>
         exists creator,
           creator_of db (Client.created_by c) creator /\
           rep = [("id", JInt (Client.id c));
                  ("client_name", JStr (Client.client_name c));
                  ("created_at", JInt (Client.created_at c));
                  ("created_by",
                   match creator with
                   | Some u => JStr (User.username u)
                   | None => JNull
                   end)])
      (client_table db) reps.
Proof.
  intros Hwf Ha.
  assert (Hrow : forall c, In c (client_table db) ->
            exists creator,
              creator_of db (Client.created_by c) creator /\
              ClientListSerializer.to_representation c db =
              inr [("id", JInt (Client.id c));
                   ("client_name", JStr (Client.client_name c));
                   ("created_at", JInt (Client.created_at c));
                   ("created_by",
                    match creator with
                    | Some u => JStr (User.username u)
                    | None => JNull
                    end)]).
  { intros c Hc.
    destruct (created_by_user_total db (Client.created_by c)) as (creator & Hu & Hrel).
    - apply Hwf.
    - intros pk. now apply (wf_client_created_by db Hwf).
    - exists creator. split; [exact Hrel|].
      now apply ClientListSerializer_to_representation_eq. }
  destruct (mapQ_total ClientListSerializer.to_representation (client_table db) db)
    as (reps & Hreps & Hall).
  { intros c Hc. destruct (Hrow c Hc) as (creator & _ & Heq). eexists. exact Heq. }
  exists reps. split.
  - unfold application, as_view, dispatch.
    destruct Ha as [-> | [u ->]];
      cbn -[mapQ ClientListSerializer.to_representation];
      unfold Client_objects_all;
      cbn -[mapQ ClientListSerializer.to_representation];
      rewrite Hreps; reflexivity.
  - clear Hreps. induction Hall as [|c rep cs reps' Hc Hall IH]; constructor.
    + destruct (Hrow c (or_introl eq_refl)) as (creator & Hrel & Heq).
      exists creator. split; [assumption|]. congruence.
    + apply IH. intros c' Hc'. apply Hrow. now right.
Qed.

Lemma client_list_compact_witness :
  (wf db_website /\ (Anonymous = Anonymous \/ exists u, Anonymous = Authenticated u)) /\
  exists reps,
    application clients (Request.mk GET Anonymous []) 300 db_website
    = (Responded (Response.mk HTTP_200_OK (Some (JList (map JObj reps)))),
       db_website) /\
    Forall2
      (fun c rep =>
         exists creator,
           creator_of db_website (Client.created_by c) creator /\
           rep = [("id", JInt (Client.id c));
                  ("client_name", JStr (Client.client_name c));
                  ("created_at", JInt (Client.created_at c));
                  ("created_by",
                   match creator with
                   | Some u => JStr (User.username u)
                   | None => JNull
                   end)])
      (client_table db_website) reps.
Proof.
  assert (Ha : Anonymous = Anonymous \/ exists u, Anonymous = Authenticated u)
    by (left; reflexivity).
  split; [exact (conj wf_db_website Ha)|].
  exact (client_list_compact Anonymous [] 300 db_website wf_db_website Ha).
Defined.

Lemma retrieve_absent
    (viewer : Auth) (pk : Z) (data : dict) (now : Z) (db : DB) :
  viewer = Anonymous \/ (exists u, viewer = Authenticated u) ->
  ~ In pk (map Client.id (client_table db)) ->
  application (clients_pk pk) (Request.mk GET viewer data) now db
  = (Responded (Response.mk HTTP_404_NOT_FOUND
                  (Some (JObj [("detail", JStr "not_found")]))), db).
Proof.
  intros Hviewer Habsent. apply get_object_absent in Habsent.
  unfold application, as_view, dispatch.
  destruct Hviewer as [-> | [u ->]];
    cbn -[ClientDetailView.get_object]; rewrite Habsent; reflexivity.
Qed.

(** GET /clients/{id}/ is open to anonymous callers.  For an existing
    client it answers 200 with the six names of the detail
    representation, where [projects] holds, in table order, the
    [ProjectSerializer] representation of each project whose client is
    this one, and of no other; for an id no client has it answers 404. *)
Theorem client_retrieve_detail
    (viewer : Auth) (pk : Z) (data : dict) (now : Z) (db : DB) :
  wf db ->
  viewer = Anonymous \/ (exists u, viewer = Authenticated u) ->
  (forall c, In c (client_table db) -> Client.id c = pk ->
     exists creator reps,
       application (clients_pk pk) (Request.mk GET viewer data) now db
       = (Responded (Response.mk HTTP_200_OK (Some (JObj
            [("id", JInt (Client.id c));
             ("client_name", JStr (Client.client_name c));
             ("created_at", JInt (Client.created_at c));
             ("created_by",
              match creator with Some u => JStr (User.username u) | None => JNull end);
             ("updated_at", JInt (Client.updated_at c));
             ("projects", JList (map JObj reps))]))),
          db) /\
       creator_of db (Client.created_by c) creator /\
       Forall2 (fun p rep => ProjectSerializer.to_representation p db = inr rep)
               (filter (fun p => Project.client p =? pk) (project_table db)) reps)
  /\
  (~ In pk (map Client.id (client_table db)) ->
     application (clients_pk pk) (Request.mk GET viewer data) now db
     = (Responded (Response.mk HTTP_404_NOT_FOUND
                     (Some (JObj [("detail", JStr "not_found")]))), db)).
Proof.
  intros Hwf Hviewer. split; [|now apply retrieve_absent].
  intros c Hc Hid. subst pk.
  destruct (created_by_user_total db (Client.created_by c)) as (creator & Hu & Hrel).
  { apply Hwf. }
  { intros k. now apply (wf_client_created_by db Hwf). }
  destruct (Client_projects_rendered db c Hwf) as (reps & Hreps & Hall).
  exists creator, reps. split; [|split; assumption].
  apply (retrieve_found viewer (Client.id c) data now db c);
    [reflexivity|assumption| |].
  - apply get_object_found; [apply Hwf|assumption].
  - now apply ClientSerializer_to_representation_eq.
Qed.

Lemma client_retrieve_detail_witness :
  (wf db_orphaned /\ (Anonymous = Anonymous \/ exists u, Anonymous = Authenticated u) /\
   In acme (client_table db_orphaned) /\ Client.id acme = 1) /\
  exists creator reps,
    application (clients_pk 1) (Request.mk GET Anonymous []) 300 db_orphaned
    = (Responded (Response.mk HTTP_200_OK (Some (JObj
         [("id", JInt 1);
          ("client_name", JStr "Acme");
          ("created_at", JInt 100);
          ("created_by",
           match creator with Some u => JStr (User.username u) | None => JNull end);
          ("updated_at", JInt 100);
          ("projects", JList (map JObj reps))]))),
       db_orphaned) /\
    creator_of db_orphaned (Some 1) creator /\
    Forall2 (fun p rep => ProjectSerializer.to_representation p db_orphaned = inr rep)
            [website; orphaned] reps.
Proof.
  assert (Ha : Anonymous = Anonymous \/ exists u, Anonymous = Authenticated u)
    by (left; reflexivity).
  assert (Hin : In acme (client_table db_orphaned)) by (simpl; tauto).
  split; [exact (conj wf_db_orphaned (conj Ha (conj Hin eq_refl)))|].
  destruct (client_retrieve_detail Anonymous 1 [] 300 db_orphaned wf_db_orphaned Ha)
    as [Hfound _].
  exact (Hfound acme Hin eq_refl).
Defined.

(** ** PUT and PATCH /clients/{id}/, continued *)

(** One valid update, in full: the database it leaves, and the answer. *)
Lemma update_run
    (partial : bool) (c : Client.t) (user : User.t) (data : dict) (now : Z)
    (db : DB) (v : option string) :
  wf db -> In c (client_table db) ->
  Client_to_internal_value partial data = inr v ->
  exists db' creator reps,
    db' = set_client_table
            (map (fun r => if Client.id r =? Client.id c then updated now c v else r)
                 (client_table db))
            db /\
    wf db' /\
    In (updated now c v) (client_table db') /\
    ClientSerializer.to_representation (updated now c v) db' =
      inr [("id", JInt (Client.id c));
           ("client_name", JStr (Client.client_name (updated now c v)));
           ("created_at", JInt (Client.created_at c));
           ("created_by",
            match creator with Some u => JStr (User.username u) | None => JNull end);
           ("updated_at", JInt now);
           ("projects", JList (map JObj reps))] /\
    application (clients_pk (Client.id c))
      (Request.mk (if partial then PATCH else PUT) (Authenticated user) data) now db
    = (Responded (Response.mk HTTP_200_OK (Some (JObj
         [("id", JInt (Client.id c));
          ("client_name", JStr (Client.client_name (updated now c v)));
          ("created_at", JInt (Client.created_at c));
          ("created_by",
           match creator with Some u => JStr (User.username u) | None => JNull end);
          ("updated_at", JInt now);
          ("projects", JList (map JObj reps))]))),
       db').
Proof.
  intros Hwf Hc Hv.
  pose proof (get_object_found db c (wf_client_pk db Hwf) Hc) as Hget.
  pose proof (Client_serializer_update_eq now c v db Hc) as Hsave.
  set (db' := set_client_table _ db) in *.
  assert (Hwf' : wf db').
  { replace db' with (snd (Client_serializer_update now c v db))
      by now rewrite Hsave.
    unfold Client_serializer_update. apply wf_Client_save; [assumption| |].
    - destruct v; simpl; now apply in_map.
    - intros k Hk. apply (wf_client_created_by db Hwf c); [assumption|].
      now destruct v. }
  destruct (ClientSerializer_total db' (updated now c v) Hwf')
    as (creator & reps & _ & _ & Hrep).
  { intros k Hk. now apply (wf_client_created_by db Hwf c). }
  exists db', creator, reps. split; [reflexivity|]. split; [assumption|].
  split; [|split; [exact Hrep|]].
  - unfold db'. simpl. apply in_map_iff. exists c. split; [|assumption].
    now rewrite Z.eqb_refl.
  - exact (update_valid partial (Client.id c) user data now db db' c
             (updated now c v) v _ Hget Hv Hsave Hrep).
Qed.

(** A GET /clients/{id}/ that follows a successful PUT or PATCH answers
    with the very response the update gave: the new name, the clock of
    the update in [updated_at], the rest as before. *)
Theorem update_then_retrieve
    (partial : bool) (c : Client.t) (user : User.t) (viewer : Auth)
    (data data' : dict) (now now' : Z) (db : DB) (v : option string) :
  wf db -> In c (client_table db) ->
  Client_to_internal_value partial data = inr v ->
  viewer = Anonymous \/ (exists u, viewer = Authenticated u) ->
  let result :=
    application (clients_pk (Client.id c))
      (Request.mk (if partial then PATCH else PUT) (Authenticated user) data) now db in
  application (clients_pk (Client.id c)) (Request.mk GET viewer data') now' (snd result)
    = result /\
  exists rep,
    body (fst result) = Some (JObj rep) /\
    dict_get "client_name" rep
      = Some (JStr (match v with Some name => name | None => Client.client_name c end)) /\
    dict_get "created_at" rep = Some (JInt (Client.created_at c)) /\
    dict_get "updated_at" rep = Some (JInt now).
Proof.
  intros Hwf Hc Hv Hviewer result. subst result.
  destruct (update_run partial c user data now db v Hwf Hc Hv)
    as (db' & creator & reps & _ & Hwf' & Hin & Hrep & ->).
  cbn [fst snd]. split.
  - apply (retrieve_found viewer (Client.id c) data' now' db' (updated now c v));
      [reflexivity|assumption| |exact Hrep].
    change (Client.id c) with (Client.id (updated now c v)).
    apply get_object_found; [apply Hwf'|assumption].
  - eexists. split; [reflexivity|]. repeat split.
Qed.

Lemma update_then_retrieve_witness :
  (wf db_website /\ In acme (client_table db_website) /\
   Client_to_internal_value false [("client_name", JStr " Acme Ltd ")]
     = inr (Some "Acme Ltd") /\
   (Anonymous = Anonymous \/ exists u, Anonymous = Authenticated u)) /\
  application (clients_pk 1) (Request.mk GET Anonymous []) 400
    (snd (application (clients_pk 1)
            (Request.mk PUT (Authenticated bob) [("client_name", JStr " Acme Ltd ")])
            300 db_website))
  = application (clients_pk 1)
      (Request.mk PUT (Authenticated bob) [("client_name", JStr " Acme Ltd ")])
      300 db_website.
Proof.
  assert (Hin : In acme (client_table db_website)) by (simpl; tauto).
  assert (Hv : Client_to_internal_value false [("client_name", JStr " Acme Ltd ")]
               = inr (Some "Acme Ltd")) by reflexivity.
  assert (Ha : Anonymous = Anonymous \/ exists u, Anonymous = Authenticated u)
    by (left; reflexivity).
  split; [exact (conj wf_db_website (conj Hin (conj Hv Ha)))|].
  exact (proj1 (update_then_retrieve false acme bob Anonymous
                  [("client_name", JStr " Acme Ltd ")] [] 300 400 db_website
                  (Some "Acme Ltd") wf_db_website Hin Hv Ha)).
Defined.

(** Without [client_name] in the body, PUT is answered 400 and writes
    nothing, while PATCH is answered 200 and rewrites the row with nothing
    changed but [updated_at], which takes the clock. *)
Theorem update_without_name
    (c : Client.t) (user : User.t) (data : dict) (now : Z) (db : DB) :
  wf db -> In c (client_table db) ->
  dict_get "client_name" data = None ->
  application (clients_pk (Client.id c))
    (Request.mk PUT (Authenticated user) data) now db
  = (Responded (Response.mk HTTP_400_BAD_REQUEST
                  (Some (error_body [("client_name", "required")]))), db) /\
  http_status (fst (application (clients_pk (Client.id c))
                      (Request.mk PATCH (Authenticated user) data) now db))
    = HTTP_200_OK /\
  snd (application (clients_pk (Client.id c))
         (Request.mk PATCH (Authenticated user) data) now db)
  = set_client_table
      (map (fun r => if Client.id r =? Client.id c
                     then Client.mk (Client.id c) (Client.client_name c)
                                    (Client.created_at c) (Client.created_by c) now
                     else r)
           (client_table db))
      db.
Proof.
  intros Hwf Hc Hmissing.
  pose proof (get_object_found db c (wf_client_pk db Hwf) Hc) as Hget.
  split.
  - apply (update_invalid false (Client.id c) user data now db c); [assumption|].
    unfold Client_to_internal_value. now rewrite Hmissing.
  - assert (Hv : Client_to_internal_value true data = inr None).
    { unfold Client_to_internal_value. now rewrite Hmissing. }
    destruct (update_run true c user data now db None Hwf Hc Hv)
      as (db' & creator & reps & -> & _ & _ & _ & Happ).
    cbn [negb] in Happ. rewrite Happ. split; reflexivity.
Qed.

Lemma update_without_name_witness :
  (wf db_website /\ In acme (client_table db_website) /\
   dict_get "client_name" [("id", JInt 7)] = None) /\
  application (clients_pk 1) (Request.mk PUT (Authenticated bob) [("id", JInt 7)])
    300 db_website
  = (Responded (Response.mk HTTP_400_BAD_REQUEST
                  (Some (error_body [("client_name", "required")]))), db_website) /\
  snd (application (clients_pk 1) (Request.mk PATCH (Authenticated bob) [("id", JInt 7)])
         300 db_website)
  = mkDB [alice; bob; carol] [Client.mk 1 "Acme" 100 (Some 1) 300]
         [website] [(1, 2); (1, 3)] 2 2.
Proof.
  assert (Hin : In acme (client_table db_website)) by (simpl; tauto).
  assert (Hm : dict_get "client_name" [("id", JInt 7)] = None) by reflexivity.
  split; [exact (conj wf_db_website (conj Hin Hm))|].
  destruct (update_without_name acme bob [("id", JInt 7)] 300 db_website
              wf_db_website Hin Hm) as (Hput & _ & Hpatch).
  split; [exact Hput|exact Hpatch].
Defined.

(** A project shows its client by name ([StringRelatedField], so
    [Client.__str__]): once an update has renamed the client, every
    project of that client is rendered under the new name. *)
Theorem rename_reaches_projects
    (partial : bool) (c : Client.t) (p : Project.t) (user : User.t)
    (data : dict) (now : Z) (db : DB) (name : string) :
  wf db -> In c (client_table db) ->
  In p (project_table db) -> Project.client p = Client.id c ->
  Client_to_internal_value partial data = inr (Some name) ->
  exists rep,
    ProjectSerializer.to_representation p
      (snd (application (clients_pk (Client.id c))
              (Request.mk (if partial then PATCH else PUT) (Authenticated user) data)
              now db))
    = inr rep /\
    dict_get "client" rep = Some (JStr name).
Proof.
  intros Hwf Hc Hp Hfk Hv.
  destruct (update_run partial c user data now db (Some name) Hwf Hc Hv)
    as (db' & creator & reps & Hdb' & Hwf' & Hin & _ & ->).
  cbn [snd].
  assert (Hp' : In p (project_table db')) by now subst db'.
  assert (Hclient : Project_client p db' = inr (updated now c (Some name))).
  { unfold Project_client. rewrite Hfk.
    change (Client.id c) with (Client.id (updated now c (Some name))).
    apply Client_objects_get_found; [apply Hwf'|assumption]. }
  destruct (created_by_user_total db' (Project.created_by p)) as (who & Hu & _).
  { apply Hwf'. }
  { intros k. now apply (wf_project_created_by db' Hwf'). }
  eexists. split.
  - exact (ProjectSerializer_to_representation_eq p db'
             (updated now c (Some name)) who Hclient Hu).
  - reflexivity.
Qed.

Lemma rename_reaches_projects_witness :
  (wf db_website /\ In acme (client_table db_website) /\
   In website (project_table db_website) /\ Project.client website = Client.id acme /\
   Client_to_internal_value true [("client_name", JStr "Acme Ltd")]
     = inr (Some "Acme Ltd")) /\
  exists rep,
    ProjectSerializer.to_representation website
      (snd (application (clients_pk 1)
              (Request.mk PATCH (Authenticated bob) [("client_name", JStr "Acme Ltd")])
              300 db_website))
    = inr rep /\
    dict_get "client" rep = Some (JStr "Acme Ltd").
Proof.
  assert (Hc : In acme (client_table db_website)) by (simpl; tauto).
  assert (Hp : In website (project_table db_website)) by (simpl; tauto).
  assert (Hv : Client_to_internal_value true [("client_name", JStr "Acme Ltd")]
               = inr (Some "Acme Ltd")) by reflexivity.
  split; [exact (conj wf_db_website (conj Hc (conj Hp (conj eq_refl Hv))))|].
  exact (rename_reaches_projects true acme website bob
           [("client_name", JStr "Acme Ltd")] 300 db_website "Acme Ltd"
           wf_db_website Hc Hp eq_refl Hv).
Defined.

(** ** What the body of a create may set *)

(** POST /clients/ reads [client_name] from the body and nothing else:
    two bodies that agree on it get the same answer and leave the same
    database, so no [id], [created_by] or timestamp in the body has any
    effect. *)
Theorem client_create_reads_only_name
    (a : Auth) (data1 data2 : dict) (now : Z) (db : DB) :
  dict_get "client_name" data1 = dict_get "client_name" data2 ->
  application clients (Request.mk POST a data1) now db
  = application clients (Request.mk POST a data2) now db.
Proof.
  intros Hsame. unfold application, as_view, dispatch.
  destruct a as [|u|]; try reflexivity.
  cbn -[CharField_run_validation].
  unfold ClientCreateSerializer.to_internal_value, Client_to_internal_value.
  now rewrite Hsame.
Qed.

Lemma client_create_reads_only_name_witness :
  dict_get "client_name"
    [("client_name", JStr "Acme"); ("id", JInt 99); ("created_by", JInt 2)]
  = dict_get "client_name" [("client_name", JStr "Acme")] /\
  application clients
    (Request.mk POST (Authenticated alice)
       [("client_name", JStr "Acme"); ("id", JInt 99); ("created_by", JInt 2)])
    100 db_users
  = application clients post_acme 100 db_users.
Proof.
  split; [reflexivity|].
  apply (client_create_reads_only_name (Authenticated alice)
           [("client_name", JStr "Acme"); ("id", JInt 99); ("created_by", JInt 2)]
           [("client_name", JStr "Acme")] 100 db_users).
  reflexivity.
Defined.

(** POST /clients/{id}/projects/ reads [project_name] and [users] from
    the body and nothing else: a [client] or [created_by] in the body has
    no effect, the client comes from the path and the creator is the
    caller. *)
Theorem project_create_reads_only_declared
    (pk : Z) (a : Auth) (data1 data2 : dict) (now : Z) (db : DB) :
  dict_get "project_name" data1 = dict_get "project_name" data2 ->
  dict_get "users" data1 = dict_get "users" data2 ->
  application (clients_pk_projects pk) (Request.mk POST a data1) now db
  = application (clients_pk_projects pk) (Request.mk POST a data2) now db.
Proof.
  intros Hname Husers. unfold application, as_view, dispatch.
  destruct a as [|u|]; try reflexivity.
  cbn -[ProjectCreateSerializer.to_internal_value].
  assert (Hsame : ProjectCreateSerializer.to_internal_value false data1 db
                  = ProjectCreateSerializer.to_internal_value false data2 db).
  { unfold ProjectCreateSerializer.to_internal_value. now rewrite Hname, Husers. }
  now rewrite Hsame.
Qed.

Lemma project_create_reads_only_declared_witness :
  (dict_get "project_name"
     (("client", JInt 5) :: ("created_by", JInt 3) :: Request.data post_website)
   = dict_get "project_name" (Request.data post_website) /\
   dict_get "users"
     (("client", JInt 5) :: ("created_by", JInt 3) :: Request.data post_website)
   = dict_get "users" (Request.data post_website)) /\
  application (clients_pk_projects 1)
    (Request.mk POST (Authenticated alice)
       (("client", JInt 5) :: ("created_by", JInt 3) :: Request.data post_website))
    200 db_acme
  = application (clients_pk_projects 1)
      (Request.mk POST (Authenticated alice) (Request.data post_website)) 200 db_acme.
Proof.
  split; [split; reflexivity|].
  apply (project_create_reads_only_declared 1 (Authenticated alice)
           (("client", JInt 5) :: ("created_by", JInt 3) :: Request.data post_website)
           (Request.data post_website) 200 db_acme); reflexivity.
Defined.

(** ** Bodies that fail validation *)

Lemma CharField_too_long (partial : bool) (s : string) :
  (255 < String.length (strip s))%nat ->
  CharField_run_validation 255 partial (Some (JStr s)) = Invalid "max_length".
Proof.
  intros Hlen. unfold CharField_run_validation, str_is_blank.
  destruct (strip s) as [|a r] eqn:Hs; [simpl in Hlen; lia|].
  unfold CharField_run_validators.
  replace (Nat.ltb 255 (String.length (String a r))) with true
    by (symmetry; apply Nat.ltb_lt; exact Hlen).
  reflexivity.
Qed.

(** [max_length=255] of the model reaches the API: a [client_name] of
    more than 255 characters, counted after the surrounding whitespace is
    stripped, is answered 400 by POST /clients/ and by PUT and PATCH on an
    existing client, and nothing is written. *)
Theorem client_name_too_long
    (user : User.t) (data : dict) (now : Z) (db : DB) (s : string) :
  dict_get "client_name" data = Some (JStr s) ->
  (255 < String.length (strip s))%nat ->
  application clients (Request.mk POST (Authenticated user) data) now db
  = (Responded (Response.mk HTTP_400_BAD_REQUEST
                  (Some (error_body [("client_name", "max_length")]))), db) /\
  (forall (partial : bool) (c : Client.t),
     NoDup (map Client.id (client_table db)) -> In c (client_table db) ->
     application (clients_pk (Client.id c))
       (Request.mk (if partial then PATCH else PUT) (Authenticated user) data) now db
     = (Responded (Response.mk HTTP_400_BAD_REQUEST
                     (Some (error_body [("client_name", "max_length")]))), db)).
Proof.
  intros Hget Hlen. split.
  - apply client_create_invalid. rewrite Hget. now apply CharField_too_long.
  - intros partial c Hnd Hc.
    apply (update_invalid partial (Client.id c) user data now db c).
    + now apply get_object_found.
    + unfold Client_to_internal_value. rewrite Hget.
      now rewrite CharField_too_long.
Qed.

Lemma client_name_too_long_witness :
  (dict_get "client_name"
     [("client_name", JStr (string_of_list_ascii (repeat "a"%char 256)))]
   = Some (JStr (string_of_list_ascii (repeat "a"%char 256))) /\
   (255 < String.length (strip (string_of_list_ascii (repeat "a"%char 256))))%nat) /\
  application clients
    (Request.mk POST (Authenticated alice)
       [("client_name", JStr (string_of_list_ascii (repeat "a"%char 256)))])
    100 db_users
  = (Responded (Response.mk HTTP_400_BAD_REQUEST
                  (Some (error_body [("client_name", "max_length")]))), db_users).
Proof.
  assert (H1 : dict_get "client_name"
                 [("client_name", JStr (string_of_list_ascii (repeat "a"%char 256)))]
               = Some (JStr (string_of_list_ascii (repeat "a"%char 256))))
    by reflexivity.
  assert (H2 : (255 < String.length
                        (strip (string_of_list_ascii (repeat "a"%char 256))))%nat)
    by (vm_compute; lia).
  split; [exact (conj H1 H2)|].
  exact (proj1 (client_name_too_long alice
                  [("client_name", JStr (string_of_list_ascii (repeat "a"%char 256)))]
                  100 db_users _ H1 H2)).
Defined.

(** A [client_name] that is JSON null, a boolean, an array or an object
    is answered 400 by POST /clients/ and nothing is written. *)
Theorem client_name_of_wrong_type
    (user : User.t) (data : dict) (now : Z) (db : DB) (d : json) :
  dict_get "client_name" data = Some d ->
  (forall s, d <> JStr s) -> (forall n, d <> JInt n) ->
  application clients (Request.mk POST (Authenticated user) data) now db
  = (Responded (Response.mk HTTP_400_BAD_REQUEST
                  (Some (error_body
                     [("client_name",
                       match d with JNull => "null" | _ => "invalid" end)]))), db).
Proof.
  intros Hget Hstr Hint. apply client_create_invalid. rewrite Hget.
  destruct d as [|b|n|s|l|kvs]; try reflexivity.
  - now destruct (Hint n).
  - now destruct (Hstr s).
Qed.

Lemma client_name_of_wrong_type_witness :
  (dict_get "client_name" [("client_name", JList [JStr "Acme"])]
   = Some (JList [JStr "Acme"]) /\
   (forall s, JList [JStr "Acme"] <> JStr s) /\
   (forall n, JList [JStr "Acme"] <> JInt n)) /\
  application clients
    (Request.mk POST (Authenticated alice) [("client_name", JList [JStr "Acme"])])
    100 db_users
  = (Responded (Response.mk HTTP_400_BAD_REQUEST
                  (Some (error_body [("client_name", "invalid")]))), db_users).
Proof.
  assert (H1 : dict_get "client_name" [("client_name", JList [JStr "Acme"])]
               = Some (JList [JStr "Acme"])) by reflexivity.
  assert (H2 : forall s, JList [JStr "Acme"] <> JStr s) by (intros s; discriminate).
  assert (H3 : forall n, JList [JStr "Acme"] <> JInt n) by (intros n; discriminate).
  split; [exact (conj H1 (conj H2 H3))|].
  exact (client_name_of_wrong_type alice [("client_name", JList [JStr "Acme"])]
           100 db_users (JList [JStr "Acme"]) H1 H2 H3).
Defined.

Lemma ManyRelatedField_total (partial : bool) (data : option json) (db : DB) :
  NoDup (map User.id (auth_user db)) ->
  exists r, ManyRelatedField_run_validation partial data db = inr r.
Proof.
  intros Hnd.
  assert (Hrun : forall items, exists r, run_child_relation items db = inr r).
  { intros items.
    destruct (run_child_relation_total db items Hnd) as [(us & _ & ->)|(c & ->)];
      eexists; reflexivity. }
  destruct data as [[|b|n|s|l|kvs]|]; simpl;
    try (eexists; reflexivity); apply Hrun.
Qed.

(** The body of POST /clients/{id}/projects/ is validated before the
    client of the path is looked up: a body without [project_name] or
    without [users] is answered 400, with [required] under each missing
    name, whether or not a client has the id; nothing is written. *)
Theorem project_create_missing_field
    (pk : Z) (user : User.t) (data : dict) (now : Z) (db : DB) :
  NoDup (map User.id (auth_user db)) ->
  dict_get "project_name" data = None \/ dict_get "users" data = None ->
  exists errors,
    application (clients_pk_projects pk)
      (Request.mk POST (Authenticated user) data) now db
    = (Responded (Response.mk HTTP_400_BAD_REQUEST (Some (error_body errors))), db) /\
    (dict_get "project_name" data = None -> In ("project_name", "required") errors) /\
    (dict_get "users" data = None -> In ("users", "required") errors).
Proof.
  intros Hnd Hmissing.
  destruct (ManyRelatedField_total false (dict_get "users" data) db Hnd) as (r & Hr).
  set (name := CharField_run_validation 255 false (dict_get "project_name" data)).
  exists (field_errors "project_name" name ++ field_errors "users" r).
  assert (Hname : dict_get "project_name" data = None ->
            field_errors "project_name" name = [("project_name", "required")]).
  { intros H. unfold name. now rewrite H. }
  assert (Husers : dict_get "users" data = None ->
            field_errors "users" r = [("users", "required")]).
  { intros H. rewrite H in Hr. simpl in Hr. inversion Hr. reflexivity. }
  split; [|split].
  - apply project_create_invalid.
    unfold ProjectCreateSerializer.to_internal_value. fold name.
    cbn -[CharField_run_validation ManyRelatedField_run_validation name].
    rewrite Hr.
    destruct Hmissing as [H|H].
    + rewrite (Hname H). reflexivity.
    + rewrite (Husers H). destruct (field_errors "project_name" name); reflexivity.
  - intros H. rewrite (Hname H). now left.
  - intros H. rewrite (Husers H). apply in_or_app. right. now left.
Qed.

Lemma project_create_missing_field_witness :
  (NoDup (map User.id (auth_user db_acme)) /\
   (dict_get "project_name" [("users", JList [JInt 2])] = None \/
    dict_get "users" [("users", JList [JInt 2])] = None)) /\
  exists errors,
    application (clients_pk_projects 7)
      (Request.mk POST (Authenticated alice) [("users", JList [JInt 2])]) 200 db_acme
    = (Responded (Response.mk HTTP_400_BAD_REQUEST (Some (error_body errors))),
       db_acme) /\
    (dict_get "project_name" [("users", JList [JInt 2])] = None ->
     In ("project_name", "required") errors) /\
    (dict_get "users" [("users", JList [JInt 2])] = None ->
     In ("users", "required") errors).
Proof.
  assert (H1 : NoDup (map User.id (auth_user db_acme))) by concrete_nodup.
  assert (H2 : dict_get "project_name" [("users", JList [JInt 2])] = None \/
               dict_get "users" [("users", JList [JInt 2])] = None)
    by (left; reflexivity).
  split; [exact (conj H1 H2)|].
  exact (project_create_missing_field 7 alice [("users", JList [JInt 2])] 200 db_acme
           H1 H2).
Defined.

(** ** What POST /clients/{id}/projects/ writes *)

Lemma run_child_relation_ints (db : DB) (ids : list Z) :
  NoDup (map User.id (auth_user db)) ->
  (forall n, In n ids -> In n (map User.id (auth_user db))) ->
  exists us, run_child_relation (map JInt ids) db = inr (Valid us) /\
             map User.id us = ids.
Proof.
  intros Hnd. induction ids as [|n ids IH]; intros Hknown.
  - exists []. split; reflexivity.
  - destruct IH as (us & Hus & Hids).
    { intros k Hk. apply Hknown. now right. }
    destruct (pk_lookup_total db n Hnd) as [(u & _ & Hid & Hu)|[Habsent _]].
    + exists (u :: us). split.
      * cbn -[pk_lookup]. rewrite Hu. fold run_child_relation.
        fold (map JInt ids). rewrite Hus. reflexivity.
      * simpl. now rewrite Hid, Hids.
    + exfalso. apply Habsent. apply Hknown. now left.
Qed.

Lemma filter_keeps_every_row {T : Type} (keep : T -> bool) (rows : list T) :
  (forall r, In r rows -> keep r = true) -> filter keep rows = rows.
Proof.
  intros Hkeep. induction rows as [|r rows IH]; [reflexivity|].
  simpl. rewrite (Hkeep r (or_introl eq_refl)). f_equal.
  apply IH. intros x Hx. apply Hkeep. now right.
Qed.

Lemma filter_drops_every_row {T : Type} (keep : T -> bool) (rows : list T) :
  (forall r, In r rows -> keep r = false) -> filter keep rows = [].
Proof.
  intros Hdrop. induction rows as [|r rows IH]; [reflexivity|].
  simpl. rewrite (Hdrop r (or_introl eq_refl)).
  apply IH. intros x Hx. apply Hdrop. now right.
Qed.

(** In a database that satisfies the constraints no junction row refers
    to the next project key. *)
Lemma junction_below_autoinc (db : DB) (r : Z * Z) :
  wf db -> In r (project_users db) -> fst r < project_autoinc db.
Proof.
  intros Hwf Hr. destruct (wf_junction_fk db Hwf r Hr) as [Hp _].
  apply in_map_iff in Hp as (p & <- & Hp). now apply (wf_project_autoinc db Hwf).
Qed.

Lemma ProjectCreateSerializer_save_eq
    (now : Z) (name : string) (us : list User.t) (client : Client.t)
    (user : User.t) (db : DB) :
  wf db ->
  snd (ProjectCreateSerializer.save now
         (ProjectCreateSerializer.mk (Some name) (Some us)) client user db)
  = mkDB (auth_user db) (client_table db)
         (project_table db ++
          [Project.mk (project_autoinc db) name (Client.id client) now
                      (Some (User.id user))])
         (project_users db ++
          map (fun u => (project_autoinc db, u)) (key_set (map User.id us)))
         (client_autoinc db) (project_autoinc db + 1).
Proof.
  intros Hwf. unfold ProjectCreateSerializer.save.
  cbn -[key_set filter existsb].
  unfold set_project_users, set_project_autoinc, set_project_table.
  cbn -[key_set filter existsb].
  f_equal.
  assert (Hkept : filter
            (fun r : Z * Z =>
               negb (fst r =? project_autoinc db)
               || existsb (Z.eqb (snd r)) (key_set (map User.id us)))
            (project_users db) = project_users db).
  { apply filter_keeps_every_row. intros r Hr.
    pose proof (junction_below_autoinc db r Hwf Hr).
    replace (fst r =? project_autoinc db) with false
      by (symmetry; apply Z.eqb_neq; lia).
    reflexivity. }
  rewrite Hkept.
  assert (Hmine : filter (fun r : Z * Z => fst r =? project_autoinc db)
                         (project_users db) = []).
  { apply filter_drops_every_row. intros r Hr.
    pose proof (junction_below_autoinc db r Hwf Hr). apply Z.eqb_neq. lia. }
  rewrite Hmine. simpl map at 2. f_equal. f_equal.
  apply filter_keeps_every_row. reflexivity.
Qed.

Lemma project_body_valid
    (data : dict) (db : DB) (s : string) (ids : list Z) :
  NoDup (map User.id (auth_user db)) ->
  dict_get "project_name" data = Some (JStr s) ->
  strip s <> "" ->
  (String.length (strip s) <= 255)%nat ->
  ~ In zero (list_ascii_of_string (strip s)) ->
  dict_get "users" data = Some (JList (map JInt ids)) ->
  (forall n, In n ids -> In n (map User.id (auth_user db))) ->
  exists us,
    map User.id us = ids /\
    ProjectCreateSerializer.to_internal_value false data db
    = inr (inr (ProjectCreateSerializer.mk (Some (strip s)) (Some us))).
Proof.
  intros Hnd Hname Hblank Hlen Hnul Husers Hknown.
  destruct (run_child_relation_ints db ids Hnd Hknown) as (us & Hus & Hids).
  exists us. split; [assumption|].
  unfold ProjectCreateSerializer.to_internal_value.
  rewrite Hname, Husers, CharField_valid_str by assumption.
  cbn -[run_child_relation]. rewrite Hus. reflexivity.
Qed.

(** A valid POST /clients/{id}/projects/ under an existing client commits
    its writes although the answer is a server error: the project table
    gains one row (the next key, the stripped name, the client of the
    path, the caller as creator), and the junction table gains, after the
    rows it had, one row per distinct user of the body (none when the list
    is empty); the order among the new rows is left open. *)
Theorem project_create_commits
    (client : Client.t) (user : User.t) (data : dict) (now : Z) (db : DB)
    (s : string) (ids : list Z) :
  wf db -> In client (client_table db) ->
  dict_get "project_name" data = Some (JStr s) ->
  strip s <> "" ->
  (String.length (strip s) <= 255)%nat ->
  ~ In zero (list_ascii_of_string (strip s)) ->
  dict_get "users" data = Some (JList (map JInt ids)) ->
  (forall n, In n ids -> In n (map User.id (auth_user db))) ->
  exists added,
    application (clients_pk_projects (Client.id client))
      (Request.mk POST (Authenticated user) data) now db
    = (ServerError (KeyError "id"),
       mkDB (auth_user db) (client_table db)
            (project_table db ++
             [Project.mk (project_autoinc db) (strip s) (Client.id client) now
                         (Some (User.id user))])
            (project_users db ++ added)
            (client_autoinc db) (project_autoinc db + 1)) /\
    Permutation added
      (map (fun u => (project_autoinc db, u)) (nodup Z.eq_dec ids)).
Proof.
  intros Hwf Hclient Hname Hblank Hlen Hnul Husers Hknown.
  destruct (project_body_valid data db s ids (wf_user_pk db Hwf)
              Hname Hblank Hlen Hnul Husers Hknown) as (us & Hids & Hvalid).
  exists (map (fun u => (project_autoinc db, u)) (key_set ids)). split.
  - rewrite (project_create_valid_raises (Client.id client) user data now db _ client
               Hvalid).
    + rewrite ProjectCreateSerializer_save_eq by assumption. now rewrite Hids.
    + apply Client_objects_get_found; [apply Hwf|assumption].
  - apply Permutation_map, key_set_Permutation.
Qed.

Lemma project_create_commits_witness :
  (wf db_acme /\ In acme (client_table db_acme) /\
   dict_get "project_name" 
     [("project_name", JStr "Website"); ("users", JList (map JInt [3; 2]))]
   = Some (JStr "Website") /\
   strip "Website" <> "" /\
   (String.length (strip "Website") <= 255)%nat /\
   ~ In zero (list_ascii_of_string (strip "Website")) /\
   dict_get "users" 
     [("project_name", JStr "Website"); ("users", JList (map JInt [3; 2]))]
   = Some (JList (map JInt [3; 2])) /\
   (forall n, In n [3; 2] -> In n (map User.id (auth_user db_acme)))) /\
  exists added,
    application (clients_pk_projects 1)
      (Request.mk POST (Authenticated alice) 
     [("project_name", JStr "Website"); ("users", JList (map JInt [3; 2]))])
      200 db_acme
    = (ServerError (KeyError "id"),
       mkDB [alice; bob; carol] [acme]
            [Project.mk 1 "Website" 1 200 (Some 1)]
            ([] ++ added) 2 2) /\
    Permutation added [(1, 3); (1, 2)].
Proof.
  assert (H0 : In acme (client_table db_acme)) by (simpl; tauto).
  assert (H1 : dict_get "project_name" 
     [("project_name", JStr "Website"); ("users", JList (map JInt [3; 2]))]
               = Some (JStr "Website")) by reflexivity.
  assert (H2 : strip "Website" <> "") by (vm_compute; discriminate).
  assert (H3 : (String.length (strip "Website") <= 255)%nat) by (vm_compute; lia).
  assert (H4 : ~ In zero (list_ascii_of_string (strip "Website"))).
  { vm_compute. intuition discriminate. }
  assert (H5 : dict_get "users" 
     [("project_name", JStr "Website"); ("users", JList (map JInt [3; 2]))]
               = Some (JList (map JInt [3; 2]))) by reflexivity.
  assert (H6 : forall n, In n [3; 2] -> In n (map User.id (auth_user db_acme))).
  { simpl. intros n Hn. intuition. }
  split; [exact (conj wf_db_acme (conj H0 (conj H1 (conj H2 (conj H3 (conj H4
                  (conj H5 H6)))))))|].
  exact (project_create_commits acme alice 
     [("project_name", JStr "Website"); ("users", JList (map JInt [3; 2]))]
           200 db_acme "Website" [3; 2] wf_db_acme H0 H1 H2 H3 H4 H5 H6).
Defined.

(** ** A project on the lists of its assignees *)

Lemma user_projects_run (user : User.t) (data : dict) (now : Z) (db : DB) :
  wf db ->
  exists reps,
    application projects (Request.mk GET (Authenticated user) data) now db
    = (Responded (Response.mk HTTP_200_OK (Some (JList (map JObj reps)))), db) /\
    Forall2 (fun p rep => ProjectSerializer.to_representation p db = inr rep)
            (filter (assigned db user) (project_table db)) reps.
Proof.
  intros Hwf.
  destruct (mapQ_total ProjectSerializer.to_representation
              (filter (assigned db user) (project_table db)) db)
    as (reps & Hreps & Hall).
  { intros p Hp. apply filter_In in Hp as [Hp _].
    now apply ProjectSerializer_total. }
  exists reps. split; [|assumption].
  unfold application, as_view, dispatch.
  cbn -[User_assigned_projects mapQ ProjectSerializer.to_representation].
  rewrite assigned_projects_filter by apply Hwf.
  rewrite Hreps. reflexivity.
Qed.

Lemma existsb_pair_key_set (a x : Z) (ids : list Z) :
  existsb (fun r : Z * Z => (fst r =? a) && (snd r =? x))
          (map (fun u => (a, u)) (key_set ids))
  = existsb (Z.eqb x) ids.
Proof.
  destruct (existsb (Z.eqb x) ids) eqn:Hx.
  - apply existsb_exists in Hx as (y & Hy & Heq). apply Z.eqb_eq in Heq. subst y.
    apply existsb_exists. exists (a, x). split.
    + apply in_map. now apply key_set_In.
    + simpl. now rewrite !Z.eqb_refl.
  - destruct (existsb _ (map _ _)) eqn:Hex; [|reflexivity].
    apply existsb_exists in Hex as ([b y] & Hin & Heq).
    apply in_map_iff in Hin as (z & Hz & Hin). inversion Hz; subst.
    rewrite key_set_In in Hin. apply andb_true_iff in Heq as [_ Heq]. simpl in Heq.
    apply Z.eqb_eq in Heq. subst y.
    assert (existsb (Z.eqb x) ids = true); [|congruence].
    apply existsb_exists. exists x. split; [assumption|apply Z.eqb_refl].
Qed.

Lemma existsb_false {A : Type} (f : A -> bool) (l : list A) :
  (forall a, In a l -> f a = false) -> existsb f l = false.
Proof.
  induction l as [|a l IH]; simpl; intros H; [reflexivity|].
  rewrite (H a (or_introl eq_refl)). apply IH. intros x Hx. apply H. now right.
Qed.

(** The database a valid project creation leaves keeps the constraints,
    and the assignments in it are the old ones and, for the new project,
    the users of the body. *)
Lemma project_create_assignments
    (client : Client.t) (user : User.t) (now : Z) (db : DB)
    (name : string) (us : list User.t) :
  wf db -> In client (client_table db) -> In user (auth_user db) ->
  Forall (fun u => In u (auth_user db)) us ->
  let newp := Project.mk (project_autoinc db) name (Client.id client) now
                         (Some (User.id user)) in
  let db' := snd (ProjectCreateSerializer.save now
                    (ProjectCreateSerializer.mk (Some name) (Some us)) client user db) in
  wf db' /\
  project_table db' = project_table db ++ [newp] /\
  forall u,
    filter (assigned db' u) (project_table db')
    = filter (assigned db u) (project_table db)
      ++ (if existsb (Z.eqb (User.id u)) (map User.id us) then [newp] else []).
Proof.
  intros Hwf Hclient Huser Hus newp db'.
  assert (Hwf' : wf db').
  { apply wf_ProjectCreateSerializer_save; try assumption.
    intros us' H. inversion H. now subst. }
  assert (Hdb' : db' = mkDB (auth_user db) (client_table db)
                   (project_table db ++ [newp])
                   (project_users db ++
                    map (fun u => (project_autoinc db, u))
                        (key_set (map User.id us)))
                   (client_autoinc db) (project_autoinc db + 1))
    by now apply ProjectCreateSerializer_save_eq.
  split; [assumption|]. rewrite Hdb'. cbn [project_table]. split; [reflexivity|].
  intros u. rewrite filter_app. f_equal.
  - apply filter_ext_in. intros p Hp. unfold assigned. cbn [project_users].
    rewrite existsb_app.
    replace (existsb _ (map _ (key_set (map User.id us)))) with false;
      [apply orb_false_r|].
    symmetry. apply existsb_false. intros r Hr.
    apply in_map_iff in Hr as (x & <- & _). simpl.
    pose proof (wf_project_autoinc db Hwf p Hp).
    replace (project_autoinc db =? Project.id p) with false
      by (symmetry; apply Z.eqb_neq; lia).
    reflexivity.
  - simpl. unfold assigned at 1. cbn [project_users]. rewrite existsb_app.
    replace (existsb _ (project_users db)) with false.
    + cbn [orb]. subst newp. cbn [Project.id]. rewrite existsb_pair_key_set.
      destruct (existsb (Z.eqb (User.id u)) (map User.id us)); reflexivity.
    + symmetry. apply existsb_false. intros r Hr.
      pose proof (junction_below_autoinc db r Hwf Hr). subst newp. cbn [Project.id].
      replace (fst r =? project_autoinc db) with false
        by (symmetry; apply Z.eqb_neq; lia).
      reflexivity.
Qed.

(** After a valid POST /clients/{id}/projects/, GET /projects/ answers
    each user with the projects it listed before and, exactly when the
    user's key is in the [users] of the body, the new project after
    them. *)
Theorem created_project_on_assignee_lists
    (client : Client.t) (user viewer : User.t) (data data' : dict) (now now' : Z)
    (db : DB) (s : string) (ids : list Z) :
  wf db -> In client (client_table db) -> In user (auth_user db) ->
  dict_get "project_name" data = Some (JStr s) ->
  strip s <> "" ->
  (String.length (strip s) <= 255)%nat ->
  ~ In zero (list_ascii_of_string (strip s)) ->
  dict_get "users" data = Some (JList (map JInt ids)) ->
  (forall n, In n ids -> In n (map User.id (auth_user db))) ->
  let db' :=
    snd (application (clients_pk_projects (Client.id client))
           (Request.mk POST (Authenticated user) data) now db) in
  exists reps,
    application projects (Request.mk GET (Authenticated viewer) data') now' db'
    = (Responded (Response.mk HTTP_200_OK (Some (JList (map JObj reps)))), db') /\
    Forall2 (fun p rep => ProjectSerializer.to_representation p db' = inr rep)
            (filter (assigned db viewer) (project_table db)
             ++ (if existsb (Z.eqb (User.id viewer)) ids
                 then [Project.mk (project_autoinc db) (strip s) (Client.id client)
                                  now (Some (User.id user))]
                 else []))
            reps.
Proof.
  intros Hwf Hclient Huser Hname Hblank Hlen Hnul Husers Hknown db'. subst db'.
  destruct (project_body_valid data db s ids (wf_user_pk db Hwf)
              Hname Hblank Hlen Hnul Husers Hknown) as (us & Hids & Hvalid).
  rewrite (project_create_valid_raises (Client.id client) user data now db _ client
             Hvalid)
    by (apply Client_objects_get_found; [apply Hwf|assumption]).
  cbn [snd].
  destruct (project_create_assignments client user now db (strip s) us
              Hwf Hclient Huser) as (Hwf' & _ & Hlists).
  { apply (validated_users_known data db _ us (wf_user_pk db Hwf) Hvalid).
    reflexivity. }
  destruct (user_projects_run viewer data' now' _ Hwf') as (reps & Happ & Hall).
  exists reps. split; [exact Happ|].
  rewrite Hlists, Hids in Hall. exact Hall.
Qed.

Lemma created_project_on_assignee_lists_witness :
  (wf db_acme /\ In acme (client_table db_acme) /\ In alice (auth_user db_acme) /\
   dict_get "project_name" (Request.data post_website) = Some (JStr "Website") /\
   strip "Website" <> "" /\
   (String.length (strip "Website") <= 255)%nat /\
   ~ In zero (list_ascii_of_string (strip "Website")) /\
   dict_get "users" (Request.data post_website) = Some (JList (map JInt [2; 3])) /\
   (forall n, In n [2; 3] -> In n (map User.id (auth_user db_acme)))) /\
  exists reps,
    application projects (Request.mk GET (Authenticated bob) []) 300
      (snd (application (clients_pk_projects 1) post_website 200 db_acme))
    = (Responded (Response.mk HTTP_200_OK (Some (JList (map JObj reps)))),
       snd (application (clients_pk_projects 1) post_website 200 db_acme)) /\
    Forall2 (fun p rep =>
               ProjectSerializer.to_representation p
                 (snd (application (clients_pk_projects 1) post_website 200 db_acme))
               = inr rep)
            [website] reps.
Proof.
  assert (H0 : In acme (client_table db_acme)) by (simpl; tauto).
  assert (Hu : In alice (auth_user db_acme)) by (simpl; tauto).
  assert (H1 : dict_get "project_name" (Request.data post_website)
               = Some (JStr "Website")) by reflexivity.
  assert (H2 : strip "Website" <> "") by (vm_compute; discriminate).
  assert (H3 : (String.length (strip "Website") <= 255)%nat) by (vm_compute; lia).
  assert (H4 : ~ In zero (list_ascii_of_string (strip "Website"))).
  { vm_compute. intuition discriminate. }
  assert (H5 : dict_get "users" (Request.data post_website)
               = Some (JList (map JInt [2; 3]))) by reflexivity.
  assert (H6 : forall n, In n [2; 3] -> In n (map User.id (auth_user db_acme))).
  { simpl. intros n Hn. intuition. }
  split; [exact (conj wf_db_acme (conj H0 (conj Hu (conj H1 (conj H2 (conj H3
                  (conj H4 (conj H5 H6))))))))|].
  exact (created_project_on_assignee_lists acme alice bob
           (Request.data post_website) [] 200 300 db_acme "Website" [2; 3]
           wf_db_acme H0 Hu H1 H2 H3 H4 H5 H6).
Defined.

(** ** After DELETE /clients/{id}/ *)





(** ** Permissions come before the method *)

(** An anonymous request with a method the view has no handler for: the
    two project views guard every method, so the answer is the 403 of a
    refused permission; the two client views guard only the writes they
    name in [get_permissions], so the answer is 405.  Nothing is
    written. *)
Theorem anonymous_unsupported_method
    (path : Path) (m : Method) (data : dict) (now : Z) (db : DB) :
  handler_of (urlpatterns path) m = None ->
  http_status (fst (application path (Request.mk m Anonymous data) now db))
  = (match path with
     | clients | clients_pk _ => HTTP_405_METHOD_NOT_ALLOWED
     | clients_pk_projects _ | projects => HTTP_403_FORBIDDEN
     end) /\
  snd (application path (Request.mk m Anonymous data) now db) = db.
Proof.
  destruct path, m; simpl; intros H; try discriminate H; split; reflexivity.
Qed.

Lemma anonymous_unsupported_method_witness :
  (handler_of (urlpatterns clients) PUT = None /\
   handler_of (urlpatterns projects) DELETE = None) /\
  http_status (fst (application clients (Request.mk PUT Anonymous []) 300 db_website))
    = HTTP_405_METHOD_NOT_ALLOWED /\
  http_status (fst (application projects (Request.mk DELETE Anonymous []) 300 db_website))
    = HTTP_403_FORBIDDEN.
Proof.
  split; [split; reflexivity|]. split.
  - exact (proj1 (anonymous_unsupported_method clients PUT [] 300 db_website eq_refl)).
  - exact (proj1 (anonymous_unsupported_method projects DELETE [] 300 db_website eq_refl)).
Defined.

(** ** Empty lists *)

(** A user with no assignment gets 200 and the empty list from GET
    /projects/, and anyone gets 200 and the empty list from GET /clients/
    while there is no client. *)
Theorem empty_lists (user : User.t) (a : Auth) (data : dict) (now : Z) (db : DB) :
  ((forall r, In r (project_users db) -> snd r <> User.id user) ->
   application projects (Request.mk GET (Authenticated user) data) now db
   = (Responded (Response.mk HTTP_200_OK (Some (JList []))), db)) /\
  (client_table db = [] ->
   a = Anonymous \/ (exists u, a = Authenticated u) ->
   application clients (Request.mk GET a data) now db
   = (Responded (Response.mk HTTP_200_OK (Some (JList []))), db)).
Proof.
  split.
  - intros Hnone.
    assert (Hempty : User_assigned_projects db user = []).
    { unfold User_assigned_projects.
      induction (project_table db) as [|p ps IH]; [reflexivity|]. simpl.
      rewrite IH. unfold links. rewrite filter_drops_every_row; [reflexivity|].
      intros r Hr. apply andb_false_iff. right. apply Z.eqb_neq. now apply Hnone. }
    unfold application, as_view, dispatch.
    cbn -[User_assigned_projects]. now rewrite Hempty.
  - intros Hempty Ha. unfold application, as_view, dispatch.
    destruct Ha as [-> | [u ->]]; cbn; rewrite Hempty; reflexivity.
Qed.

Lemma empty_lists_witness :
  ((forall r, In r (project_users db_website) -> snd r <> User.id alice) /\
   client_table db_users = [] /\
   (Anonymous = Anonymous \/ exists u, Anonymous = Authenticated u)) /\
  application projects (Request.mk GET (Authenticated alice) []) 300 db_website
  = (Responded (Response.mk HTTP_200_OK (Some (JList []))), db_website) /\
  application clients (Request.mk GET Anonymous []) 300 db_users
  = (Responded (Response.mk HTTP_200_OK (Some (JList []))), db_users).
Proof.
  assert (H1 : forall r, In r (project_users db_website) -> snd r <> User.id alice).
  { simpl. intros r [<-|[<-|[]]]; discriminate. }
  assert (H2 : client_table db_users = []) by reflexivity.
  assert (H3 : Anonymous = Anonymous \/ exists u, Anonymous = Authenticated u)
    by (left; reflexivity).
  split; [exact (conj H1 (conj H2 H3))|]. split.
  - exact (proj1 (empty_lists alice Anonymous [] 300 db_website) H1).
  - exact (proj2 (empty_lists alice Anonymous [] 300 db_users) H2 H3).
Defined.

(** ** [users] of the wrong shape *)

(** POST /clients/{id}/projects/ wants [users] to be an array of keys: a
    string, a number or a boolean in its place is answered 400 with
    [not_a_list], and so is, with an error under [users], an array that
    holds a null, a boolean, an array or an object.  Nothing is
    written. *)
Theorem users_of_wrong_shape
    (pk : Z) (user : User.t) (data : dict) (now : Z) (db : DB) :
  (forall d, dict_get "users" data = Some d ->
     (exists s, d = JStr s) \/ (exists n, d = JInt n) \/ (exists b, d = JBool b) ->
     exists errors,
       application (clients_pk_projects pk)
         (Request.mk POST (Authenticated user) data) now db
       = (Responded (Response.mk HTTP_400_BAD_REQUEST (Some (error_body errors))), db) /\
       In ("users", "not_a_list") errors)
  /\
  (forall items item,
     NoDup (map User.id (auth_user db)) ->
     dict_get "users" data = Some (JList items) ->
     In item items ->
     item = JNull \/ (exists b, item = JBool b) \/ (exists l, item = JList l) \/
     (exists kvs, item = JObj kvs) ->
     exists errors,
       application (clients_pk_projects pk)
         (Request.mk POST (Authenticated user) data) now db
       = (Responded (Response.mk HTTP_400_BAD_REQUEST (Some (error_body errors))), db) /\
       In "users" (map fst errors)).
Proof.
  set (name := CharField_run_validation 255 false (dict_get "project_name" data)).
  split.
  - intros d Hget Hshape.
    exists (field_errors "project_name" name ++ [("users", "not_a_list")]). split.
    + apply project_create_invalid.
      unfold ProjectCreateSerializer.to_internal_value. fold name. rewrite Hget.
      destruct Hshape as [[s ->]|[[n ->]|[b ->]]];
        cbn -[name]; destruct (field_errors "project_name" name); reflexivity.
    + apply in_or_app. right. now left.
  - intros items item Hnd Hget Hin Hshape.
    assert (Hitem : exists code,
              PrimaryKeyRelatedField_to_internal_value item db = inr (Invalid code)).
    { destruct Hshape as [->|[[b ->]|[[l ->]|[kvs ->]]]]; eexists; reflexivity. }
    destruct Hitem as (code0 & Hitem).
    destruct (run_child_relation_invalid db items item code0 Hnd Hin Hitem)
      as (code & Hcode).
    exists (field_errors "project_name" name ++ [("users", code)]). split.
    + apply project_create_invalid.
      unfold ProjectCreateSerializer.to_internal_value. fold name. rewrite Hget.
      cbn -[name run_child_relation]. rewrite Hcode.
      destruct (field_errors "project_name" name); reflexivity.
    + rewrite map_app. apply in_or_app. right. now left.
Qed.

Lemma users_of_wrong_shape_witness :
  (dict_get "users" [("project_name", JStr "Website"); ("users", JStr "2")]
   = Some (JStr "2") /\
   ((exists s, JStr "2" = JStr s) \/ (exists n, JStr "2" = JInt n) \/
    (exists b, JStr "2" = JBool b))) /\
  exists errors,
    application (clients_pk_projects 1)
      (Request.mk POST (Authenticated alice)
         [("project_name", JStr "Website"); ("users", JStr "2")]) 200 db_acme
    = (Responded (Response.mk HTTP_400_BAD_REQUEST (Some (error_body errors))),
       db_acme) /\
    In ("users", "not_a_list") errors.
Proof.
  assert (H1 : dict_get "users" [("project_name", JStr "Website"); ("users", JStr "2")]
               = Some (JStr "2")) by reflexivity.
  assert (H2 : (exists s, JStr "2" = JStr s) \/ (exists n, JStr "2" = JInt n) \/
               (exists b, JStr "2" = JBool b)) by (left; now exists "2").
  split; [exact (conj H1 H2)|].
  exact (proj1 (users_of_wrong_shape 1 alice
                  [("project_name", JStr "Website"); ("users", JStr "2")] 200 db_acme)
               (JStr "2") H1 H2).
Defined.

(** ** A new client on the list *)

Lemma mapQ_app {A B : Type} (f : A -> Q B) (l1 l2 : list A) (db : DB)
    (b1 b2 : list B) :
  mapQ f l1 db = inr b1 -> mapQ f l2 db = inr b2 ->
  mapQ f (l1 ++ l2) db = inr (b1 ++ b2).
Proof.
  revert b1. induction l1 as [|a l1 IH]; simpl; intros b1 H1 H2.
  - inversion H1. exact H2.
  - destruct (f a db) as [e|b]; [discriminate|].
    fold (mapQ f l1) in H1. fold (mapQ f (l1 ++ l2)).
    destruct (mapQ f l1 db) as [e|bs] eqn:Hbs; [discriminate|].
    inversion H1; subst. now rewrite (IH bs eq_refl H2).
Qed.

Lemma mapQ_ext {A B : Type} (f : A -> Q B) (l : list A) (db db' : DB) :
  (forall a, f a db' = f a db) -> mapQ f l db' = mapQ f l db.
Proof.
  intros Hext. induction l as [|a l IH]; [reflexivity|].
  simpl. rewrite Hext. fold (mapQ f l). now rewrite IH.
Qed.

(** The compact record of a client reads the database for the creator's
    username only. *)
Lemma ClientListSerializer_frame (c : Client.t) (db db' : DB) :
  auth_user db' = auth_user db ->
  ClientListSerializer.to_representation c db'
  = ClientListSerializer.to_representation c db.
Proof.
  intros Husers.
  unfold ClientListSerializer.to_representation, Serializer_to_representation,
    ClientListSerializer.fields.
  cbn -[created_by_user].
  assert (Hsame : created_by_user (Client.created_by c) db'
                  = created_by_user (Client.created_by c) db).
  { destruct (Client.created_by c) as [pk|]; [|reflexivity].
    cbn. unfold User_objects_get. now rewrite Husers. }
  now rewrite Hsame.
Qed.

(** GET /clients/ lists the clients in the order they were created: after
    a successful POST /clients/ the list is the list of before followed by
    the compact record of the new client. *)
Theorem client_create_then_list
    (user : User.t) (viewer : Auth) (data data' : dict) (now now' : Z)
    (db : DB) (s : string) :
  wf db -> In user (auth_user db) ->
  viewer = Anonymous \/ (exists u, viewer = Authenticated u) ->
  dict_get "client_name" data = Some (JStr s) ->
  strip s <> "" ->
  (String.length (strip s) <= 255)%nat ->
  ~ In zero (list_ascii_of_string (strip s)) ->
  let db' := snd (application clients (Request.mk POST (Authenticated user) data) now db) in
  exists reps,
    application clients (Request.mk GET viewer data') now' db
    = (Responded (Response.mk HTTP_200_OK (Some (JList (map JObj reps)))), db) /\
    application clients (Request.mk GET viewer data') now' db'
    = (Responded (Response.mk HTTP_200_OK (Some (JList (map JObj
         (reps ++ [[("id", JInt (client_autoinc db));
                    ("client_name", JStr (strip s));
                    ("created_at", JInt now);
                    ("created_by", JStr (User.username user))]]))))),
       db').
Proof.
  intros Hwf Huser Hviewer Hget Hblank Hlen Hnul db'. subst db'.
  rewrite (client_create_valid user data now db (strip s))
    by (rewrite Hget; now apply CharField_valid_str).
  set (c := Client.mk (client_autoinc db) (strip s) now (Some (User.id user)) now).
  set (db' := snd (Client_objects_create now (strip s) (Some (User.id user)) db)).
  destruct (mapQ_total ClientListSerializer.to_representation (client_table db) db)
    as (reps & Hreps & _).
  { intros x Hx.
    destruct (created_by_user_total db (Client.created_by x)) as (creator & Hu & _).
    - apply Hwf.
    - intros pk. now apply (wf_client_created_by db Hwf).
    - eexists. now apply (ClientListSerializer_to_representation_eq x db creator). }
  assert (Hreps' : mapQ ClientListSerializer.to_representation (client_table db') db'
                   = inr (reps ++ [[("id", JInt (client_autoinc db));
                                    ("client_name", JStr (strip s));
                                    ("created_at", JInt now);
                                    ("created_by", JStr (User.username user))]])).
  { change (client_table db') with (client_table db ++ [c]).
    apply mapQ_app.
    - rewrite <- Hreps. apply mapQ_ext. intros x.
      now apply ClientListSerializer_frame.
    - simpl. rewrite (ClientListSerializer_to_representation_eq c db' (Some user));
        [reflexivity|].
      apply (created_by_user_found db' user); [apply Hwf|exact Huser]. }
  exists reps. split.
  - unfold application, as_view, dispatch.
    destruct Hviewer as [-> | [u ->]];
      cbn -[mapQ ClientListSerializer.to_representation];
      unfold Client_objects_all;
      cbn -[mapQ ClientListSerializer.to_representation];
      rewrite Hreps; reflexivity.
  - unfold application, as_view, dispatch.
    destruct Hviewer as [-> | [u ->]];
      cbn -[mapQ ClientListSerializer.to_representation db'];
      unfold Client_objects_all;
      cbn -[mapQ ClientListSerializer.to_representation db'];
      rewrite Hreps'; reflexivity.
Qed.

Lemma client_create_then_list_witness :
  (wf db_acme /\ In bob (auth_user db_acme) /\
   (Anonymous = Anonymous \/ exists u, Anonymous = Authenticated u) /\
   dict_get "client_name" [("client_name", JStr "Globex")] = Some (JStr "Globex") /\
   strip "Globex" <> "" /\
   (String.length (strip "Globex") <= 255)%nat /\
   ~ In zero (list_ascii_of_string (strip "Globex"))) /\
  exists reps,
    application clients (Request.mk GET Anonymous []) 300 db_acme
    = (Responded (Response.mk HTTP_200_OK (Some (JList (map JObj reps)))), db_acme) /\
    application clients (Request.mk GET Anonymous []) 300
      (snd (application clients
              (Request.mk POST (Authenticated bob) [("client_name", JStr "Globex")])
              200 db_acme))
    = (Responded (Response.mk HTTP_200_OK (Some (JList (map JObj
         (reps ++ [[("id", JInt 2); ("client_name", JStr "Globex");
                    ("created_at", JInt 200); ("created_by", JStr "bob")]]))))),
       snd (application clients
              (Request.mk POST (Authenticated bob) [("client_name", JStr "Globex")])
              200 db_acme)).
Proof.
  assert (H0 : In bob (auth_user db_acme)) by (simpl; tauto).
  assert (Ha : Anonymous = Anonymous \/ exists u, Anonymous = Authenticated u)
    by (left; reflexivity).
  assert (H1 : dict_get "client_name" [("client_name", JStr "Globex")]
               = Some (JStr "Globex")) by reflexivity.
  assert (H2 : strip "Globex" <> "") by (vm_compute; discriminate).
  assert (H3 : (String.length (strip "Globex") <= 255)%nat) by (vm_compute; lia).
  assert (H4 : ~ In zero (list_ascii_of_string (strip "Globex"))).
  { vm_compute. intuition discriminate. }
  split; [exact (conj wf_db_acme (conj H0 (conj Ha (conj H1 (conj H2 (conj H3 H4))))))|].
  exact (client_create_then_list bob Anonymous [("client_name", JStr "Globex")] []
           200 300 db_acme "Globex" wf_db_acme H0 Ha H1 H2 H3 H4).
Defined.

Lemma application_preserves_wf_witness :
  (wf db_acme /\ known_user post_website db_acme) /\
  wf (snd (application (clients_pk_projects 1) post_website 200 db_acme)) /\
  auth_user (snd (application (clients_pk_projects 1) post_website 200 db_acme))
    = auth_user db_acme.
Proof.
  assert (Hknown : known_user post_website db_acme)
    by (unfold known_user; simpl; tauto).
  split; [exact (conj wf_db_acme Hknown)|].
  exact (application_preserves_wf (clients_pk_projects 1) post_website 200 db_acme
           wf_db_acme Hknown).
Defined.
